(** * E-library: the catalog filter, the admin client handlers and the
      authentication routes

    A shallow embedding of [src/types.ts], of the handlers of
    [src/App.tsx] and of the authentication and admin routes of
    [server.ts].

    Conventions.
    - JavaScript strings are [string]s.  [String.prototype.toLowerCase]
      belongs to the engine (the Unicode case conversion); it is a
      parameter, known to fold the letters A-Z on a text of ASCII
      characters.
    - An optional field ([department?: string]) or a nullable store column
      is an [option]; [None] reads as [undefined] / [null].
    - Points in time are milliseconds since the epoch, in [Z]; the local
      time of the server is the epoch time shifted by the offset of its
      time zone, which is a parameter.
    - Everything the handlers obtain from outside (the reply to a [fetch],
      the rendered thumbnail, the answer to [confirm], fresh UUIDs, the
      clock, the client [createClient] makes, the error of a deletion) is
      an explicit argument.
    - A handler of the admin page runs from its call to its end without
      another handler in between; the sign-in and registration handlers
      are split where they await the answer.  The fields of a request
      body are strings. *)

From Stdlib Require Import List String Ascii Bool ZArith Lia Permutation.
From Stdlib Require Import DecimalString Sorted.
Import ListNotations.
Local Open Scope string_scope.
Local Open Scope list_scope.

(** ** JavaScript strings *)

Module JsString.

(** the lower-case form of an ASCII character: A-Z are folded *)
Definition lower_ascii (c : ascii) : ascii :=
  let n := nat_of_ascii c in
  if (65 <=? n)%nat && (n <=? 90)%nat then ascii_of_nat (n + 32) else c.

Fixpoint fold_ascii (s : string) : string :=
  match s with
  | EmptyString => EmptyString
  | String c s' => String (lower_ascii c) (fold_ascii s')
  end.

(** a text of ASCII characters *)
Fixpoint is_ascii (s : string) : bool :=
  match s with
  | EmptyString => true
  | String c s' => (nat_of_ascii c <? 128)%nat && is_ascii s'
  end.

(** The engine's [String.prototype.toLowerCase].  Its case conversion
    follows the Unicode tables of the engine and is not a map on single
    characters (final sigma, dotted capital I); what is used of it here:
    a text of ASCII characters comes back with A-Z folded and nothing else
    changed. *)
Record Engine := {
  toLowerCase : string -> string;
  toLowerCase_ascii :
    forall s, is_ascii s = true -> toLowerCase s = fold_ascii s
}.

(** [s.startsWith(t)] *)
Fixpoint startsWith (s t : string) : bool :=
  match t, s with
  | EmptyString, _ => true
  | String _ _, EmptyString => false
  | String b t', String a s' => Ascii.eqb a b && startsWith s' t'
  end.

(** [s.includes(t)]: [t] occurs in [s] as a contiguous run. *)
Fixpoint includes (s t : string) : bool :=
  startsWith s t ||
  match s with
  | EmptyString => false
  | String _ s' => includes s' t
  end.

(** [o?.toLowerCase().includes(t)], read as a condition: [undefined] is
    falsy. *)
Definition includes_lower_opt (engine : Engine) (o : option string)
           (t : string) : bool :=
  match o with
  | Some s => includes (toLowerCase engine s) t
  | None => false
  end.

(** a truthy string: [''] is falsy. *)
Definition truthy (s : string) : bool :=
  match s with EmptyString => false | _ => true end.

(** [o?.includes(t)], read as a condition *)
Definition includes_opt (o : option string) (t : string) : bool :=
  match o with
  | Some s => includes s t
  | None => false
  end.

(** [a || b] on values that are a string or [undefined] / [null]. *)
Definition or_else (a b : option string) : option string :=
  match a with
  | Some s => if truthy s then a else b
  | None => b
  end.

(** [`${n}`] for a non-negative integer. *)
Definition of_nat (n : nat) : string :=
  NilZero.string_of_uint (Nat.to_uint n).

End JsString.

(** ** [src/types.ts] *)

Inductive BookCategory := ACADEMIC | CHRISTIAN_NOVEL.

(** the string value of an enum member *)
Definition category_value (c : BookCategory) : string :=
  match c with
  | ACADEMIC => "Academic"
  | CHRISTIAN_NOVEL => "Christian Novel"
  end.

Definition BookCategory_eqb (a b : BookCategory) : bool :=
  match a, b with
  | ACADEMIC, ACADEMIC | CHRISTIAN_NOVEL, CHRISTIAN_NOVEL => true
  | _, _ => false
  end.

(** [BookCategory | 'All'] *)
Inductive CategoryFilter := CatAll | Cat (c : BookCategory).

Definition category_matches (c : BookCategory) (f : CategoryFilter) : bool :=
  match f with
  | CatAll => false
  | Cat c' => BookCategory_eqb c c'
  end.

(** [description], [coverUrl] and [downloadUrl] are declared [string] in
    [types.ts]; the rows the store returns may hold [null] there (the
    add-book workflow sends no description), hence the [option]. *)
Record Book := {
  id : string;
  title : string;
  author : string;
  category : BookCategory;
  description : option string;
  coverUrl : option string;
  downloadUrl : option string;
  department : option string;
  courseCode : option string;
  courseTitle : option string;
  level : option string
}.

Record FilterState := {
  search : string;
  f_category : CategoryFilter;
  f_department : string;
  f_level : string
}.

Record User := {
  u_id : string;
  u_email : string;
  u_name : string;
  isAdmin : bool
}.

Record RegistrationLink := {
  l_id : string;
  token : string;
  expires_at : Z;
  created_at : Z
}.

(** ** Catalog filtering ([filteredBooks], App.tsx) *)

Module Catalog.
Import JsString.

(** [book.department === filters.department] for an optional field *)
Definition opt_eqb (o : option string) (s : string) : bool :=
  match o with
  | Some x => String.eqb x s
  | None => false
  end.

Section Filter.

(** the engine the page runs on *)
Variable engine : Engine.

Definition matchesSearch (filters : FilterState) (book : Book) : bool :=
  includes (toLowerCase engine (title book))
           (toLowerCase engine (search filters)) ||
  includes (toLowerCase engine (author book))
           (toLowerCase engine (search filters)) ||
  includes_lower_opt engine (courseCode book)
                     (toLowerCase engine (search filters)) ||
  includes_lower_opt engine (courseTitle book)
                     (toLowerCase engine (search filters)).

Definition matchesCategory (filters : FilterState) (book : Book) : bool :=
  category_matches (category book) (f_category filters).

Definition matchesDept (filters : FilterState) (book : Book) : bool :=
  String.eqb (f_department filters) "All" ||
  (BookCategory_eqb (category book) ACADEMIC &&
   opt_eqb (department book) (f_department filters)).

Definition matchesLevel (filters : FilterState) (book : Book) : bool :=
  String.eqb (f_level filters) "All" ||
  (BookCategory_eqb (category book) ACADEMIC &&
   opt_eqb (level book) (f_level filters)).

Definition filteredBooks (books : list Book) (filters : FilterState)
  : list Book :=
  filter (fun book =>
            matchesSearch filters book && matchesCategory filters book &&
            matchesDept filters book && matchesLevel filters book)
         books.

(** the state the "Clear all filters" button sets *)
Definition clearAllFilters : FilterState :=
  {| search := ""; f_category := CatAll;
     f_department := "All"; f_level := "All" |}.

(** the initial filter state of [App] *)
Definition initialFilters : FilterState :=
  {| search := ""; f_category := Cat ACADEMIC;
     f_department := "All"; f_level := "All" |}.

(** The four predicates taken one at a time, to state that the order in
    which they are applied does not matter. *)
Inductive Predicate := BySearch | ByCategory | ByDept | ByLevel.

Definition holds (filters : FilterState) (p : Predicate) : Book -> bool :=
  match p with
  | BySearch => matchesSearch filters
  | ByCategory => matchesCategory filters
  | ByDept => matchesDept filters
  | ByLevel => matchesLevel filters
  end.

(** [books.filter(p1).filter(p2)...] for the predicates of [order], the
    first of the list applied first. *)
Definition applyInOrder (filters : FilterState) (order : list Predicate)
           (books : list Book) : list Book :=
  fold_left (fun acc p => filter (holds filters p) acc) order books.

(** What the specification calls "case-insensitively contains": the
    lower-cased text of [t] occurs in the lower-cased text of [s]. *)
Definition ci_contains (s t : string) : Prop :=
  exists before after,
    toLowerCase engine s
    = (before ++ toLowerCase engine t ++ after)%string.

End Filter.

(** The same notion without any lower-casing, for texts of ASCII
    characters: two characters are the same letter when they are equal or
    are the capital and the small form of one letter. *)
Definition capital_letters : string := "ABCDEFGHIJKLMNOPQRSTUVWXYZ".

Definition small_letters : string := "abcdefghijklmnopqrstuvwxyz".

(** each capital letter with its small form *)
Definition case_pairs : list (ascii * ascii) :=
  combine (list_ascii_of_string capital_letters)
          (list_ascii_of_string small_letters).

Definition same_letter (a b : ascii) : bool :=
  Ascii.eqb a b
  || existsb (fun pair =>
                (Ascii.eqb a (fst pair) && Ascii.eqb b (snd pair))
                || (Ascii.eqb a (snd pair) && Ascii.eqb b (fst pair)))
             case_pairs.

(** two texts of the same length, the same letter at every position *)
Fixpoint same_text (m t : string) : bool :=
  match m, t with
  | EmptyString, EmptyString => true
  | String a m', String b t' => same_letter a b && same_text m' t'
  | _, _ => false
  end.

(** [t] occurs in [s], up to the case of its letters *)
Definition contains_ignoring_case (s t : string) : Prop :=
  exists before occurrence after,
    s = (before ++ occurrence ++ after)%string
    /\ same_text occurrence t = true.

End Catalog.

(** ** The client ([src/App.tsx]) *)

Module Client.
Import JsString.

(** *** What the handlers exchange with the outside *)

Record File := {
  file_name : string;
  file_type : string;
  file_bytes : string
}.

Definition Blob := string.

(** the entry a file input without a selection contributes *)
Definition empty_file : File :=
  {| file_name := ""; file_type := "application/octet-stream";
     file_bytes := "" |}.

(** [FormDataEntryValue = string | File] *)
Inductive FormDataEntryValue := Text (s : string) | Upload (f : File).

Definition FormData := list (string * FormDataEntryValue).

(** [formData.get(name)]: the first entry of that name, or [null] *)
Fixpoint get (fd : FormData) (name : string)
  : option FormDataEntryValue :=
  match fd with
  | [] => None
  | (k, v) :: rest => if String.eqb k name then Some v else get rest name
  end.

(** the object literal [bookData] of [handleAddBook] *)
Record BookData := {
  bd_title : option FormDataEntryValue;
  bd_author : string;
  bd_category : option FormDataEntryValue;
  cover_url : option string;
  download_url : option string;
  bd_department : option FormDataEntryValue;
  bd_level : option FormDataEntryValue;
  course_code : option FormDataEntryValue;
  course_title : option FormDataEntryValue
}.

Inductive Method := GET | POST | DELETE.

Inductive RequestBody :=
| NoBody
| JsonUserId (userId : string)
| Multipart (file : File)
| JsonBook (bookData : BookData).

Record Request := {
  method : Method;
  url : string;
  body : RequestBody
}.

(** the text of a response, as far as [JSON.parse] is concerned *)
Inductive ResponseBody (A : Type) :=
| NotJson
| Json (value : A).
Arguments NotJson {A}.
Arguments Json {A} value.

Record Response (A : Type) := {
  status : nat;
  payload : ResponseBody A
}.
Arguments status {A} _.
Arguments payload {A} _.

(** [res.ok] *)
Definition ok {A} (res : Response A) : bool :=
  (200 <=? status res)%nat && (status res <=? 299)%nat.

(** a [fetch] either rejects (the network failed) or resolves *)
Inductive FetchOutcome (A : Type) :=
| Rejects (message : string)
| Resolves (res : Response A).
Arguments Rejects {A} message.
Arguments Resolves {A} res.

(** The JSON values of the upload and record routes, by what the client
    reads of them: [null], or a value with its [error] and [url]
    members ([None] when the member is missing). *)
Inductive UploadJson :=
| UploadNull
| UploadObject (error : option string) (url : option string).

(** a row of the books route, in either spelling of its columns *)
Record BookRow := {
  r_id : string;
  r_title : string;
  r_author : string;
  r_category : BookCategory;
  r_description : option string;
  r_cover_url : option string;
  r_coverUrl : option string;
  r_download_url : option string;
  r_downloadUrl : option string;
  r_department : option string;
  r_course_code : option string;
  r_courseCode : option string;
  r_course_title : option string;
  r_courseTitle : option string;
  r_level : option string
}.

(** the JSON values of [GET /api/books]: [null], an array of rows, or
    another value with its [error] member *)
Inductive BooksJson :=
| BooksNull
| BooksArray (rows : list BookRow)
| BooksObject (error : option string).

Record PendingUser := {
  pu_id : string;
  pu_email : string;
  pu_name : string
}.

Inductive ToastType := success | error.

Record Toast := {
  message : string;
  type : ToastType
}.

(** the values typed into the "Add New Material" form *)
Record FormInputs := {
  in_title : string;
  in_pdf_file : option File;
  in_department : string;
  in_level : string;
  in_course_code : string;
  in_course_title : string
}.

Definition blank_form : FormInputs :=
  {| in_title := ""; in_pdf_file := None; in_department := "";
     in_level := ""; in_course_code := ""; in_course_title := "" |}.

(** *** The state of [App] that the handlers below touch, with the log
    of the network calls issued so far *)

Record State := {
  user : option User;
  books : list Book;
  dbError : option string;
  pendingUsers : list PendingUser;
  adminLinks : list RegistrationLink;
  formCategory : BookCategory;
  addBookForm : FormInputs;
  pdfLabel : string;
  loading : bool;
  uploadProgress : option string;
  toast : option Toast;
  requests : list Request
}.

Definition with_books (f : list Book -> list Book) (s : State) : State :=
  {| user := user s; books := f (books s); dbError := dbError s;
     pendingUsers := pendingUsers s; adminLinks := adminLinks s;
     formCategory := formCategory s; addBookForm := addBookForm s;
     pdfLabel := pdfLabel s; loading := loading s;
     uploadProgress := uploadProgress s; toast := toast s;
     requests := requests s |}.

Definition with_dbError (v : option string) (s : State) : State :=
  {| user := user s; books := books s; dbError := v;
     pendingUsers := pendingUsers s; adminLinks := adminLinks s;
     formCategory := formCategory s; addBookForm := addBookForm s;
     pdfLabel := pdfLabel s; loading := loading s;
     uploadProgress := uploadProgress s; toast := toast s;
     requests := requests s |}.

Definition with_pendingUsers (f : list PendingUser -> list PendingUser)
           (s : State) : State :=
  {| user := user s; books := books s; dbError := dbError s;
     pendingUsers := f (pendingUsers s); adminLinks := adminLinks s;
     formCategory := formCategory s; addBookForm := addBookForm s;
     pdfLabel := pdfLabel s; loading := loading s;
     uploadProgress := uploadProgress s; toast := toast s;
     requests := requests s |}.

Definition with_adminLinks
           (f : list RegistrationLink -> list RegistrationLink)
           (s : State) : State :=
  {| user := user s; books := books s; dbError := dbError s;
     pendingUsers := pendingUsers s; adminLinks := f (adminLinks s);
     formCategory := formCategory s; addBookForm := addBookForm s;
     pdfLabel := pdfLabel s; loading := loading s;
     uploadProgress := uploadProgress s; toast := toast s;
     requests := requests s |}.

Definition with_form (c : BookCategory) (i : FormInputs) (l : string)
           (s : State) : State :=
  {| user := user s; books := books s; dbError := dbError s;
     pendingUsers := pendingUsers s; adminLinks := adminLinks s;
     formCategory := c; addBookForm := i;
     pdfLabel := l; loading := loading s;
     uploadProgress := uploadProgress s; toast := toast s;
     requests := requests s |}.

Definition with_loading (v : bool) (s : State) : State :=
  {| user := user s; books := books s; dbError := dbError s;
     pendingUsers := pendingUsers s; adminLinks := adminLinks s;
     formCategory := formCategory s; addBookForm := addBookForm s;
     pdfLabel := pdfLabel s; loading := v;
     uploadProgress := uploadProgress s; toast := toast s;
     requests := requests s |}.

Definition with_uploadProgress (v : option string) (s : State) : State :=
  {| user := user s; books := books s; dbError := dbError s;
     pendingUsers := pendingUsers s; adminLinks := adminLinks s;
     formCategory := formCategory s; addBookForm := addBookForm s;
     pdfLabel := pdfLabel s; loading := loading s;
     uploadProgress := v; toast := toast s;
     requests := requests s |}.

Definition with_toast (v : option Toast) (s : State) : State :=
  {| user := user s; books := books s; dbError := dbError s;
     pendingUsers := pendingUsers s; adminLinks := adminLinks s;
     formCategory := formCategory s; addBookForm := addBookForm s;
     pdfLabel := pdfLabel s; loading := loading s;
     uploadProgress := uploadProgress s; toast := v;
     requests := requests s |}.

Definition with_request (rq : Request) (s : State) : State :=
  {| user := user s; books := books s; dbError := dbError s;
     pendingUsers := pendingUsers s; adminLinks := adminLinks s;
     formCategory := formCategory s; addBookForm := addBookForm s;
     pdfLabel := pdfLabel s; loading := loading s;
     uploadProgress := uploadProgress s; toast := toast s;
     requests := requests s ++ [rq] |}.

(** *** Handlers as state transformers that may throw *)

Inductive Completion (A : Type) :=
| Normal (a : A)
| Thrown (err_message : string).
Arguments Normal {A} a.
Arguments Thrown {A} err_message.

Definition M (A : Type) : Type := State -> Completion A * State.

Definition ret {A} (a : A) : M A := fun s => (Normal a, s).

Definition bind {A B} (m : M A) (k : A -> M B) : M B :=
  fun s =>
    match m s with
    | (Normal a, s1) => k a s1
    | (Thrown e, s1) => (Thrown e, s1)
    end.

(** [throw new Error(message)] *)
Definition throw {A} (err_message : string) : M A :=
  fun s => (Thrown err_message, s).

(** [try { m } catch (err) { handler(err.message) }] *)
Definition try_catch {A} (m : M A) (handler : string -> M A) : M A :=
  fun s =>
    match m s with
    | (Normal a, s1) => (Normal a, s1)
    | (Thrown e, s1) => handler e s1
    end.

(** [try { m } finally { cleanup }] *)
Definition try_finally {A} (m : M A) (cleanup : M unit) : M A :=
  fun s =>
    match m s with
    | (c, s1) =>
        match cleanup s1 with
        | (Normal _, s2) => (c, s2)
        | (Thrown e, s2) => (Thrown e, s2)
        end
    end.

Definition gets {A} (f : State -> A) : M A := fun s => (Normal (f s), s).

Definition modify (f : State -> State) : M unit :=
  fun s => (Normal tt, f s).

(** the state a handler leaves *)
Definition exec {A} (m : M A) (s : State) : State := snd (m s).

(** the calls a handler issued, in order *)
Definition issued {A} (m : M A) (s : State) : list Request :=
  skipn (List.length (requests s)) (requests (exec m s)).

Declare Scope handler_scope.
Delimit Scope handler_scope with handler.
Notation "x <- m ;; k" := (bind m (fun x => k))
  (at level 61, m at next level, right associativity) : handler_scope.
Notation "m ;; k" := (bind m (fun _ => k))
  (at level 61, right associativity) : handler_scope.
Local Open Scope handler_scope.

(** *** State setters and the primitives of the page *)

Definition setBooks (v : list Book) : M unit :=
  modify (with_books (fun _ => v)).

Definition setDbError (v : option string) : M unit :=
  modify (with_dbError v).

Definition setPendingUsers (f : list PendingUser -> list PendingUser)
  : M unit :=
  modify (with_pendingUsers f).

Definition setAdminLinks
           (f : list RegistrationLink -> list RegistrationLink) : M unit :=
  modify (with_adminLinks f).

Definition setLoading (v : bool) : M unit := modify (with_loading v).

Definition setUploadProgress (v : option string) : M unit :=
  modify (with_uploadProgress v).

(** [showToast]; the timer that clears the toast after three seconds is
    not part of the model. *)
Definition showToast (msg : string) (t : ToastType) : M unit :=
  modify (with_toast (Some {| message := msg; type := t |})).

(** [fetch(url, { method, body })]: the call is issued, then the outcome
    decides whether the promise rejects. *)
Definition fetch {A} (rq : Request) (o : FetchOutcome A)
  : M (Response A) :=
  fun s =>
    match o with
    | Rejects e => (Thrown e, with_request rq s)
    | Resolves res => (Normal res, with_request rq s)
    end.

(** The messages of the errors the engine throws are the engine's own;
    these are the texts of V8, the first one without the part that quotes
    the body. *)
Definition not_json_message : string :=
  "Unexpected token in JSON".

(** the member [m] is read of [null] *)
Definition null_member_message (m : string) : string :=
  ("Cannot read properties of null (reading '" ++ m ++ "')")%string.

(** [await res.json()] *)
Definition json {A} (res : Response A) : M A :=
  match payload res with
  | NotJson => throw not_json_message
  | Json v => ret v
  end.

(** [data.error] on a value of the upload and record routes *)
Definition upload_error (d : UploadJson) : M (option string) :=
  match d with
  | UploadNull => throw (null_member_message "error")
  | UploadObject e _ => ret e
  end.

(** [data.url] *)
Definition upload_url (d : UploadJson) : M (option string) :=
  match d with
  | UploadNull => throw (null_member_message "url")
  | UploadObject _ u => ret u
  end.

(** [errorData.error] on a value of the books route *)
Definition books_error (d : BooksJson) : M (option string) :=
  match d with
  | BooksNull => throw (null_member_message "error")
  | BooksArray _ => ret None
  | BooksObject e => ret e
  end.

(** [e || fallback] where [e] is a string or missing *)
Definition message_or (e : option string) (fallback : string) : string :=
  match e with
  | Some m => if truthy m then m else fallback
  | None => fallback
  end.

(** the mapping applied to every fetched row *)
Definition normalize (b : BookRow) : Book :=
  {| id := r_id b; title := r_title b; author := r_author b;
     category := r_category b; description := r_description b;
     coverUrl := or_else (r_cover_url b) (r_coverUrl b);
     downloadUrl := or_else (r_download_url b) (r_downloadUrl b);
     department := r_department b;
     courseCode := or_else (r_course_code b) (r_courseCode b);
     courseTitle := or_else (r_course_title b) (r_courseTitle b);
     level := r_level b |}.

Definition request (m : Method) (u : string) (b : RequestBody) : Request :=
  {| method := m; url := u; body := b |}.

Definition db_banner : string :=
  "Database not configured. Showing demo materials.".

(** *** The handlers *)

Section Handlers.

(** the bundled demo catalog, a constant of [./constants] *)
Variable INITIAL_BOOKS : list Book.

Definition fetchBooks (reply : FetchOutcome BooksJson) : M unit :=
  try_catch
    (res <- fetch (request GET "/api/books" NoBody) reply ;;
     if negb (ok res) then
       errorData <- json res ;;
       err <- books_error errorData ;;
       (if includes_opt err "SUPABASE_URL"
        then setDbError (Some db_banner) else ret tt) ;;
       setBooks INITIAL_BOOKS
     else
       data <- json res ;;
       setDbError None ;;
       match data with
       | BooksArray rows =>
           let normalized := map normalize rows in
           setBooks (if (0 <? List.length normalized)%nat
                     then normalized else INITIAL_BOOKS)
       | _ => setBooks INITIAL_BOOKS
       end)
    (fun _ => setBooks INITIAL_BOOKS).

(** the replies to the three calls of [fetchAdminData] *)
Record AdminReplies := {
  usersReply : FetchOutcome (list PendingUser);
  linksReply : FetchOutcome (list RegistrationLink);
  booksReply : FetchOutcome BooksJson
}.

(** [await Promise.all([fetch(a), fetch(b), fetch(c)])]: the three
    calls are issued at once; one rejection rejects the whole. *)
Definition fetch_all {A B C} (ra : Request) (oa : FetchOutcome A)
           (rb : Request) (ob : FetchOutcome B)
           (rc : Request) (oc : FetchOutcome C)
  : M (Response A * Response B * Response C) :=
  fun s =>
    let s' := with_request rc (with_request rb (with_request ra s)) in
    match oa, ob, oc with
    | Resolves a, Resolves b, Resolves c => (Normal (a, b, c), s')
    | Rejects e, _, _ => (Thrown e, s')
    | _, Rejects e, _ => (Thrown e, s')
    | _, _, Rejects e => (Thrown e, s')
    end.

Definition is_admin (u : option User) : bool :=
  match u with
  | Some x => isAdmin x
  | None => false
  end.

Definition fetchAdminData (replies : AdminReplies) : M unit :=
  u <- gets user ;;
  if negb (is_admin u) then ret tt
  else
    try_catch
      (all <- fetch_all
                (request GET "/api/admin/pending-users" NoBody)
                (usersReply replies)
                (request GET "/api/admin/links" NoBody)
                (linksReply replies)
                (request GET "/api/books" NoBody)
                (booksReply replies) ;;
       let '(usersRes, linksRes, booksRes) := all in
       (if ok usersRes
        then us <- json usersRes ;; setPendingUsers (fun _ => us)
        else ret tt) ;;
       (if ok linksRes
        then ls <- json linksRes ;; setAdminLinks (fun _ => ls)
        else ret tt) ;;
       (if ok booksRes
        then booksData <- json booksRes ;;
             match booksData with
             | BooksArray rows => setBooks (map normalize rows)
             | _ => ret tt
             end
        else ret tt))
      (fun _ => ret tt).

Definition approveUser {A} (userId : string) (reply : FetchOutcome A)
  : M unit :=
  previousUsers <- gets pendingUsers ;;
  setPendingUsers
    (fun prev => filter (fun u => negb (String.eqb (pu_id u) userId))
                        prev) ;;
  try_catch
    (res <- fetch (request POST "/api/admin/approve-user"
                           (JsonUserId userId)) reply ;;
     if negb (ok res) then throw "Failed to approve user"
     else showToast "User approved successfully" success)
    (fun msg =>
       setPendingUsers (fun _ => previousUsers) ;;
       showToast msg error).

Definition deleteLink {A} (link_id : string) (confirmed : bool)
           (reply : FetchOutcome A) : M unit :=
  if negb confirmed then ret tt
  else
    previousLinks <- gets adminLinks ;;
    setAdminLinks
      (fun prev => filter (fun l => negb (String.eqb (l_id l) link_id))
                          prev) ;;
    try_catch
      (res <- fetch (request DELETE ("/api/admin/links/" ++ link_id)
                             NoBody) reply ;;
       if negb (ok res) then throw "Failed to delete link"
       else showToast "Link revoked successfully" success)
      (fun msg =>
         setAdminLinks (fun _ => previousLinks) ;;
         showToast msg error).

Definition deleteBook {A} (book_id : string) (confirmed : bool)
           (reply : FetchOutcome A) : M unit :=
  if negb confirmed then ret tt
  else
    previousBooks <- gets books ;;
    modify (with_books
              (fun prev => filter (fun b => negb (String.eqb (id b) book_id))
                                  prev)) ;;
    try_catch
      (res <- fetch (request DELETE ("/api/admin/books/" ++ book_id)
                             NoBody) reply ;;
       if negb (ok res) then throw "Failed to delete book"
       else showToast "Book deleted successfully" success)
      (fun msg =>
         setBooks previousBooks ;;
         showToast msg error).

(** what the outside answers during one run of [handleAddBook] *)
Record UploadReplies := {
  thumbnail : Completion (option Blob);
  pdfUpload : FetchOutcome UploadJson;
  thumbUpload : FetchOutcome UploadJson;
  saveRecord : FetchOutcome UploadJson;
  adminData : AdminReplies
}.

(** [!file] *)
Definition falsy_entry (v : option FormDataEntryValue) : bool :=
  match v with
  | None => true
  | Some (Text t) => negb (truthy t)
  | Some (Upload _) => false
  end.

(** [category === BookCategory.ACADEMIC] *)
Definition entry_is (v : option FormDataEntryValue) (s : string) : bool :=
  match v with
  | Some (Text t) => String.eqb t s
  | _ => false
  end.

(** Phase 1, from [file.arrayBuffer()] to [canvas.toBlob]: decoding
    the first page, rendering it at half scale and encoding the canvas
    as JPEG happen outside; [rendered] is what comes back, the blob
    ([None] for [null]) or an exception.  A canvas without a 2D context
    skips the rendering and still encodes, so it counts as a blob. *)
Definition generateThumbnail (file : option FormDataEntryValue)
           (rendered : Completion (option Blob)) : M (File * Blob) :=
  match file with
  | Some (Upload f) =>
      match rendered with
      | Thrown e => throw e
      | Normal None => throw "Failed to generate thumbnail"
      | Normal (Some thumbnailBlob) => ret (f, thumbnailBlob)
      end
  | _ => throw "file.arrayBuffer is not a function"
  end.

(** [JSON.parse(await res.text())] with the message of that phase *)
Definition parse_or_throw (res : Response UploadJson) (during : string)
  : M UploadJson :=
  match payload res with
  | Json v => ret v
  | NotJson =>
      throw ("Server returned non-JSON response during " ++ during
             ++ " (" ++ of_nat (status res) ++ ")")
  end.

Definition upload_request (f : File) : Request :=
  request POST "/api/admin/upload" (Multipart f).

Definition thumbnail_file (thumbnailBlob : Blob) : File :=
  {| file_name := "thumbnail.jpg"; file_type := "image/jpeg";
     file_bytes := thumbnailBlob |}.

(** the object literal of phase 4 *)
Definition build_bookData (formData : FormData)
           (thumb_url pdf_url : option string) : BookData :=
  let category := get formData "category" in
  let title :=
    if entry_is category (category_value ACADEMIC)
    then get formData "course_title"
    else get formData "title" in
  {| bd_title := title;
     bd_author := "DLCF Library";
     bd_category := category;
     cover_url := thumb_url;
     download_url := pdf_url;
     bd_department := get formData "department";
     bd_level := get formData "level";
     course_code := get formData "course_code";
     course_title := get formData "course_title" |}.

Definition save_request (bookData : BookData) : Request :=
  request POST "/api/admin/books" (JsonBook bookData).

(** [fetchAdminData()] at the end is not awaited in the source; it is
    run in place here: it touches none of the fields the [finally]
    block resets. *)
Definition handleAddBook (formData : FormData) (env : UploadReplies)
  : M unit :=
  let file := get formData "pdf_file" in
  if falsy_entry file then showToast "Please select a PDF file" error
  else
    setLoading true ;;
    setUploadProgress (Some "Generating thumbnail...") ;;
    try_finally
      (try_catch
         ((* 1. Generate Thumbnail from PDF *)
          generated <- generateThumbnail file (thumbnail env) ;;
          let '(pdf, thumbnailBlob) := generated in
          (* 2. Upload PDF *)
          setUploadProgress (Some "Uploading PDF...") ;;
          pdfRes <- fetch (upload_request pdf) (pdfUpload env) ;;
          pdfData <- parse_or_throw pdfRes "PDF upload" ;;
          (if negb (ok pdfRes)
           then e <- upload_error pdfData ;;
                throw (message_or e "PDF upload failed")
           else ret tt) ;;
          (* 3. Upload Thumbnail *)
          setUploadProgress (Some "Uploading thumbnail...") ;;
          thumbRes <- fetch (upload_request (thumbnail_file thumbnailBlob))
                            (thumbUpload env) ;;
          thumbData <- parse_or_throw thumbRes "thumbnail upload" ;;
          (if negb (ok thumbRes)
           then e <- upload_error thumbData ;;
                throw (message_or e "Thumbnail upload failed")
           else ret tt) ;;
          (* 4. Save Book Record *)
          setUploadProgress (Some "Saving record...") ;;
          thumb_url <- upload_url thumbData ;;
          pdf_url <- upload_url pdfData ;;
          let bookData := build_bookData formData thumb_url pdf_url in
          res <- fetch (save_request bookData) (saveRecord env) ;;
          responseData <- parse_or_throw res "record save" ;;
          if ok res then
            showToast "Book added successfully!" success ;;
            modify (with_form ACADEMIC blank_form
                              "Select PDF from local storage") ;;
            fetchAdminData (adminData env)
          else
            e <- upload_error responseData ;;
            showToast (message_or e "Failed to add book") error)
         (fun msg => showToast msg error))
      (setLoading false ;; setUploadProgress None).

(** *** The "Add New Material" form *)

(** [new FormData(form)]: the named controls the form renders for the
    selected category, in document order. *)
Definition formData_of (c : BookCategory) (i : FormInputs) : FormData :=
  [("category", Text (category_value c))]
    ++ (if BookCategory_eqb c CHRISTIAN_NOVEL
        then [("title", Text (in_title i))] else [])
    ++ [("pdf_file",
         Upload (match in_pdf_file i with
                 | Some f => f
                 | None => empty_file
                 end))]
    ++ (if BookCategory_eqb c ACADEMIC
        then [("department", Text (in_department i));
              ("level", Text (in_level i));
              ("course_code", Text (in_course_code i));
              ("course_title", Text (in_course_title i))]
        else []).

(** the [required] attributes of the rendered controls: the browser
    raises the submit event only when each one has a value *)
Definition checkValidity (c : BookCategory) (i : FormInputs) : bool :=
  (if BookCategory_eqb c CHRISTIAN_NOVEL
   then truthy (in_title i) else true)
  && (match in_pdf_file i with Some _ => true | None => false end)
  && (if BookCategory_eqb c ACADEMIC
      then truthy (in_department i) && truthy (in_level i)
           && truthy (in_course_code i) && truthy (in_course_title i)
      else true).

(** pressing the submit button of [<form onSubmit={handleAddBook}>] *)
Definition submitAddBookForm (env : UploadReplies) : M unit :=
  c <- gets formCategory ;;
  i <- gets addBookForm ;;
  if checkValidity c i then handleAddBook (formData_of c i) env
  else ret tt.

End Handlers.

End Client.

(** ** The authentication and invite routes ([server.ts])

    The store is the relational state behind the Supabase client, with the
    constraints of its documented schema: [users.id] and
    [registration_links.id] are primary keys, [users.email] and
    [registration_links.token] are [UNIQUE]; the id columns hold UUIDs.
    The routes are modelled with the client configured and the store
    answering every query, so that a query reports an error only where
    the data make it do so.  A
    [TIMESTAMPTZ] column holds a point in time; the ISO text it travels as
    ([toISOString] / [new Date(text)]) denotes that same point. *)

Module Server.

#[local] Set Warnings "-register-all".

Inductive json :=
| JBool (b : bool)
| JString (s : string)
| JObject (members : list (string * json)).

(** does the key occur anywhere in the value *)
Fixpoint mentions_key (k : string) (j : json) : bool :=
  match j with
  | JObject ms =>
      (fix go (l : list (string * json)) : bool :=
         match l with
         | [] => false
         | (k', v) :: rest => String.eqb k' k || mentions_key k v || go rest
         end) ms
  | _ => false
  end.

(** [res.status(code).json(body)] *)
Record Response := {
  status : nat;
  body : json
}.

Definition error_body (msg : string) : json :=
  JObject [("error", JString msg)].

Record UserRow := {
  user_id : string;
  email : string;
  password : string;
  name : string;
  is_approved : bool;
  is_admin : bool;
  user_created_at : Z
}.

Record Store := {
  users : list UserRow;
  registration_links : list RegistrationLink
}.

(** the schema's key and uniqueness constraints *)
Definition well_formed (db : Store) : Prop :=
  NoDup (map user_id (users db)) /\
  NoDup (map email (users db)) /\
  NoDup (map l_id (registration_links db)) /\
  NoDup (map token (registration_links db)).

(** [.single()]: the row when exactly one is selected, an error
    otherwise *)
Definition single {A} (rows : list A) : option A :=
  match rows with
  | [r] => Some r
  | _ => None
  end.

Definition mem (s : string) (l : list string) : bool :=
  existsb (String.eqb s) l.

(** the message of the store for a row that repeats a key; it names the
    constraint between double quotes *)
Definition duplicate_key_message (constraint_name : string) : string :=
  ("duplicate key value violates unique constraint "
   ++ String "034" (constraint_name ++ String "034" ""))%string.

(** [.from('users').insert([row])] *)
Definition insert_user (row : UserRow) (db : Store) : string + Store :=
  if mem (user_id row) (map user_id (users db))
     || mem (email row) (map email (users db))
  then inl (duplicate_key_message
              (if mem (user_id row) (map user_id (users db))
               then "users_pkey" else "users_email_key"))
  else inr {| users := users db ++ [row];
              registration_links := registration_links db |}.

(** [.from('registration_links').insert([row])] *)
Definition insert_link (row : RegistrationLink) (db : Store)
  : string + Store :=
  if mem (l_id row) (map l_id (registration_links db))
     || mem (token row) (map token (registration_links db))
  then inl (duplicate_key_message
              (if mem (l_id row) (map l_id (registration_links db))
               then "registration_links_pkey"
               else "registration_links_token_key"))
  else inr {| users := users db;
              registration_links := registration_links db ++ [row] |}.

(** [.from('registration_links').delete().eq('token', t)] *)
Definition delete_links_by_token (t : string) (db : Store) : Store :=
  {| users := users db;
     registration_links :=
       filter (fun l => negb (String.eqb (token l) t))
              (registration_links db) |}.

(** [err.message || fallback] *)
Definition message_or (m fallback : string) : string :=
  if JsString.truthy m then m else fallback.

(** *** [POST /api/auth/login] *)

(** [.eq('email', email).eq('password', password)] *)
Definition credentials (req_email req_password : string) (u : UserRow)
  : bool :=
  String.eqb (email u) req_email && String.eqb (password u) req_password.

Definition login (req_email req_password : string) (db : Store)
  : Response :=
  match single (filter (credentials req_email req_password) (users db)) with
  | None => {| status := 401; body := error_body "Invalid credentials" |}
  | Some user =>
      if negb (is_approved user) && negb (is_admin user)
      then {| status := 403;
              body := error_body "Account pending approval" |}
      else {| status := 200;
              body := JObject
                        [("user",
                          JObject [("id", JString (user_id user));
                                   ("email", JString (email user));
                                   ("name", JString (name user));
                                   ("isAdmin", JBool (is_admin user))])] |}
  end.

(** *** [POST /api/auth/register] *)

Record RegisterRequest := {
  req_email : string;
  req_password : string;
  req_name : string;
  req_token : string
}.

Definition new_user (now : Z) (uuid : string) (req : RegisterRequest)
  : UserRow :=
  {| user_id := uuid; email := req_email req;
     password := req_password req; name := req_name req;
     is_approved := false; is_admin := false;
     user_created_at := now |}.

(** [res.status(400).json({ error: msg })] *)
Definition rejected (msg : string) : Response :=
  {| status := 400; body := error_body msg |}.

(** [.from('registration_links').select('*').eq('token', t)] *)
Definition links_with_token (t : string) (db : Store)
  : list RegistrationLink :=
  filter (fun l => String.eqb (token l) t) (registration_links db).

(** [now] is [new Date()], [uuid] the result of [uuidv4()] *)
Definition register (now : Z) (uuid : string) (req : RegisterRequest)
           (db : Store) : Response * Store :=
  match single (links_with_token (req_token req) db) with
  | None => (rejected "Invalid registration link", db)
  | Some link =>
      if (expires_at link <? now)%Z
      then (rejected "Registration link expired", db)
      else
        match insert_user (new_user now uuid req) db with
        | inl regError =>
            (rejected (message_or regError "Registration failed"), db)
        | inr db1 =>
            ({| status := 200; body := JObject [("success", JBool true)] |},
             delete_links_by_token (req_token req) db1)
        end
  end.

(** *** [POST /api/admin/generate-link] *)

Definition hours (n : Z) : Z := (n * 3600 * 1000)%Z.

(** The local time zone adjustment of the server, ECMAScript's
    [LocalTZA(t, isUTC)]: the offset of local time in milliseconds, at the
    instant [t] when [isUTC], at the local time value [t] otherwise. *)
Definition LocalTZA := Z -> bool -> Z.

Definition LocalTime (tz : LocalTZA) (t : Z) : Z := (t + tz t true)%Z.

Definition UTC (tz : LocalTZA) (t : Z) : Z := (t - tz t false)%Z.

(** [expiresAt.setHours(expiresAt.getHours() + 24)] on [new Date()] at
    [now]: 24 hours later on the local clock, read back as an instant.
    (The day and the time within the day of the local time value are put
    together again with 24 more hours; no real clock is near the range
    limit of [Date].) *)
Definition link_expiry (tz : LocalTZA) (now : Z) : Z :=
  UTC tz (LocalTime tz now + hours 24)%Z.

Definition generate_link (tz : LocalTZA) (now : Z)
           (uuid_token uuid_id : string)
           (db : Store) : Response * Store :=
  let expiresAt := link_expiry tz now in
  match insert_link {| l_id := uuid_id; token := uuid_token;
                       expires_at := expiresAt; created_at := now |} db with
  | inl err => ({| status := 500; body := error_body err |}, db)
  | inr db1 =>
      ({| status := 200; body := JObject [("token", JString uuid_token)] |},
       db1)
  end.

End Server.


(** ** The words of the specification about the client, as predicates on
    what the outside answers *)

Module Outcomes.
Import Client.

(** a call "fails": the fetch throws, or the response is not ok *)
Definition fetch_failed {A} (reply : FetchOutcome A) : bool :=
  match reply with
  | Rejects _ => true
  | Resolves res => negb (ok res)
  end.

(** the books route answers that the store is not configured: a
    response that is not ok, whose JSON error text names SUPABASE_URL *)
Definition reports_missing_config (reply : FetchOutcome BooksJson) : bool :=
  match reply with
  | Rejects _ => false
  | Resolves res =>
      negb (ok res) &&
      match payload res with
      | Json (BooksObject err) => JsString.includes_opt err "SUPABASE_URL"
      | _ => false
      end
  end.

(** thumbnail generation fails: rendering or encoding throws, or
    encoding yields no blob *)
Definition thumbnail_failed (rendered : Completion (option Blob)) : bool :=
  match rendered with
  | Normal (Some _) => false
  | _ => true
  end.

(** an upload or save phase fails: the fetch throws, the body is not
    JSON, or the response is not ok *)
Definition phase_failed (reply : FetchOutcome UploadJson) : bool :=
  match reply with
  | Rejects _ => true
  | Resolves res =>
      match payload res with
      | NotJson => true
      | Json _ => negb (ok res)
      end
  end.

(** the [url] member of an ok JSON answer ([Some None] when the answer
    has no such member) *)
Definition uploaded_url (reply : FetchOutcome UploadJson)
  : option (option string) :=
  match reply with
  | Rejects _ => None
  | Resolves res =>
      if ok res then
        match payload res with
        | Json (UploadObject _ u) => Some u
        | _ => None
        end
      else None
  end.

(** the kind of the toast on display *)
Definition toast_type (t : option Toast) : option ToastType :=
  match t with
  | Some x => Some (type x)
  | None => None
  end.

(** the fetch throws *)
Definition rejected_reply {A} (reply : FetchOutcome A) : bool :=
  match reply with
  | Rejects _ => true
  | Resolves _ => false
  end.

(** the list a resolved call of [fetchAdminData] commits: the JSON value
    of an ok answer, and nothing for an answer that is not ok *)
Definition committed {A} (reply : FetchOutcome A) : option A :=
  match reply with
  | Rejects _ => None
  | Resolves res =>
      if ok res then
        match payload res with
        | Json v => Some v
        | NotJson => None
        end
      else None
  end.

(** an ok answer whose body is not JSON: reading it throws *)
Definition unreadable {A} (reply : FetchOutcome A) : bool :=
  match reply with
  | Rejects _ => false
  | Resolves res =>
      ok res && match payload res with NotJson => true | Json _ => false end
  end.

(** a run of [handleAddBook] gets through its four phases: a file was
    chosen, the thumbnail was produced, both uploads returned an ok JSON
    answer that is not [null], and the record route returned an ok JSON
    answer *)
Definition all_phases_succeed (formData : FormData) (env : UploadReplies)
  : bool :=
  match get formData "pdf_file", thumbnail env with
  | Some (Upload _), Normal (Some _) =>
      match uploaded_url (pdfUpload env), uploaded_url (thumbUpload env) with
      | Some _, Some _ => negb (phase_failed (saveRecord env))
      | _, _ => false
      end
  | _, _ => false
  end.

End Outcomes.

(** ** The admin routes and the store client ([server.ts])

    The routes below are modelled like the authentication routes: over the
    relational state of the store, with the client configured, unless the
    route takes the process environment as an argument.  The deletion
    routes take the error the store reports, if any, as an argument. *)

Module Routes.
Import Server.

(** what a route sends: [res.json(value)], or
    [res.status(code).json({ error })] *)
Inductive Reply (A : Type) :=
| Data (value : A)
| Failure (code : nat) (error : string).
Arguments Data {A} value.
Arguments Failure {A} code error.

(** the message of the error [.single()] reports when the selection does
    not have exactly one row *)
Definition no_single_row_message : string :=
  "JSON object requested, multiple (or no) rows returned".

(** *** [getSupabase] *)

(** [process.env] as far as the server reads it, and the module variable
    [supabaseClient] *)
Record Process := {
  SUPABASE_URL : option string;
  SUPABASE_ANON_KEY : option string;
  SMTP_HOST : option string;
  supabaseClient : option (string * string)
}.

(** a variable that is set to a non-empty text *)
Definition env_value (v : option string) : option string :=
  match v with
  | Some s => if JsString.truthy s then Some s else None
  | None => None
  end.

Definition missing_config_message : string :=
  "SUPABASE_URL and SUPABASE_ANON_KEY are required. Please configure them in your environment variables.".

Section StoreClient.

(** [createClient(url, key)] of the store library: the client, or the
    message of the error it throws (for a text that is not an http or
    https URL) *)
Variable createClient : string -> string -> string + (string * string).

(** the client, or the message of the error thrown; the process keeps the
    client it created, and nothing when [createClient] throws *)
Definition getSupabase (p : Process)
  : (string + (string * string)) * Process :=
  match supabaseClient p with
  | Some client => (inr client, p)
  | None =>
      match env_value (SUPABASE_URL p), env_value (SUPABASE_ANON_KEY p) with
      | Some u, Some k =>
          match createClient u k with
          | inl err => (inl err, p)
          | inr client =>
              (inr client,
               {| SUPABASE_URL := SUPABASE_URL p;
                  SUPABASE_ANON_KEY := SUPABASE_ANON_KEY p;
                  SMTP_HOST := SMTP_HOST p;
                  supabaseClient := Some client |})
          end
      | _, _ => (inl missing_config_message, p)
      end
  end.

(** [POST /api/auth/login] from the first line of its [try] block: the
    [catch] answers 500 with the message of the error *)
Definition api_auth_login (p : Process) (req_email req_password : string)
           (db : Store) : Response * Process :=
  match getSupabase p with
  | (inl msg, p') => ({| status := 500; body := error_body msg |}, p')
  | (inr _, p') => (login req_email req_password db, p')
  end.

(** [POST /api/auth/register]: its [catch] answers 400 *)
Definition api_auth_register (p : Process) (now : Z) (uuid : string)
           (req : RegisterRequest) (db : Store)
  : Response * Store * Process :=
  match getSupabase p with
  | (inl msg, p') => (rejected (message_or msg "Registration failed"), db, p')
  | (inr _, p') => (register now uuid req db, p')
  end.

End StoreClient.

(** *** [GET /api/admin/pending-users] *)

Definition pending_row (u : UserRow) : Client.PendingUser :=
  {| Client.pu_id := user_id u; Client.pu_email := email u;
     Client.pu_name := name u |}.

(** [.eq('is_approved', false).eq('is_admin', false)] *)
Definition is_pending (u : UserRow) : bool :=
  Bool.eqb (is_approved u) false && Bool.eqb (is_admin u) false.

Definition pending_users (db : Store) : Reply (list Client.PendingUser) :=
  Data (map pending_row (filter is_pending (users db))).

(** the value a route sent, [[]] for an error reply *)
Definition rows_of {A} (r : Reply (list A)) : list A :=
  match r with
  | Data rows => rows
  | Failure _ _ => []
  end.

(** *** [sendApprovalEmail] *)

Record Email := {
  mail_to : string;
  mail_subject : string;
  mail_greets : string
}.

(** the mails handed to the relay and accepted by it: none when
    [SMTP_HOST] is not set, none when [sendMail] rejects ([accepted] is
    false); the function never throws *)
Definition sendApprovalEmail (p : Process) (accepted : bool)
           (to_email to_name : string) : list Email :=
  match env_value (SMTP_HOST p) with
  | None => []
  | Some _ =>
      if accepted
      then [{| mail_to := to_email;
               mail_subject := "Account Approved - DLCF E-Library";
               mail_greets := to_name |}]
      else []
  end.

(** *** [POST /api/admin/approve-user] *)

Definition approve (u : UserRow) : UserRow :=
  {| user_id := user_id u; email := email u; password := password u;
     name := name u; is_approved := true; is_admin := is_admin u;
     user_created_at := user_created_at u |}.

(** [.from('users').update({ is_approved: true }).eq('id', userId)] *)
Definition update_approved (userId : string) (db : Store) : Store :=
  {| users := map (fun u => if String.eqb (user_id u) userId
                            then approve u else u)
                  (users db);
     registration_links := registration_links db |}.

Definition approve_user (p : Process) (accepted : bool) (userId : string)
           (db : Store) : Reply unit * Store * list Email :=
  match single (filter (fun u => String.eqb (user_id u) userId)
                       (users db)) with
  | None => (Failure 500 no_single_row_message, db, [])
  | Some user =>
      (Data tt, update_approved userId db,
       sendApprovalEmail p accepted (email user) (name user))
  end.

(** *** [GET /api/admin/links] *)

(** [.order('created_at', { ascending: false })], as an insertion sort;
    the store leaves the order of rows created at the same instant open,
    here they keep their store order *)
Fixpoint insert_newest {A} (created : A -> Z) (row : A) (sorted : list A)
  : list A :=
  match sorted with
  | [] => [row]
  | x :: rest =>
      if (created x <=? created row)%Z then row :: x :: rest
      else x :: insert_newest created row rest
  end.

Definition newest_first {A} (created : A -> Z) (rows : list A) : list A :=
  fold_right (insert_newest created) [] rows.

(** the order of a listing: no row is older than the row after it *)
Definition newer_or_same {A} (created : A -> Z) (a b : A) : Prop :=
  (created b <= created a)%Z.

Definition links (db : Store) : Reply (list RegistrationLink) :=
  Data (newest_first created_at (registration_links db)).

(** *** [DELETE /api/admin/links/:id] *)

(** [store_error] is the [error] of the answer of
    [.delete().eq('id', link_id)]: the store reports one, for instance,
    for an id that is not a UUID, and then deletes nothing; the route
    throws it and its [catch] answers 500 with the message *)
Definition delete_link (store_error : option string) (link_id : string)
           (db : Store) : Reply unit * Store :=
  match store_error with
  | Some msg => (Failure 500 msg, db)
  | None =>
      (Data tt,
       {| users := users db;
          registration_links :=
            filter (fun l => negb (String.eqb (l_id l) link_id))
                   (registration_links db) |})
  end.

(** *** The books routes *)

(** a row of the [books] table: the JSON the client reads, and the
    [created_at] the listing is ordered by *)
Record StoredBook := {
  book_created_at : Z;
  book_row : Client.BookRow
}.

(** [GET /api/books]; the [catch] answers 500 with the message of the
    error [getSupabase] throws *)
Definition api_books
           (createClient : string -> string -> string + (string * string))
           (p : Process) (table : list StoredBook)
  : Reply (list Client.BookRow) * Process :=
  match getSupabase createClient p with
  | (inl msg, p') => (Failure 500 msg, p')
  | (inr _, p') =>
      (Data (map book_row (newest_first book_created_at table)), p')
  end.

(** [DELETE /api/admin/books/:id]; [store_error] as for the links *)
Definition delete_book (store_error : option string) (book_id : string)
           (table : list StoredBook)
  : Reply unit * list StoredBook :=
  match store_error with
  | Some msg => (Failure 500 msg, table)
  | None =>
      (Data tt,
       filter (fun b => negb (String.eqb (Client.r_id (book_row b)) book_id))
              table)
  end.

(** *** How a reply reaches the client: the status and the JSON body of
    the response [fetch] resolves with *)

Definition reply_status {A} (r : Reply A) : nat :=
  match r with
  | Data _ => 200
  | Failure code _ => code
  end.

Definition books_response (r : Reply (list Client.BookRow))
  : Client.FetchOutcome Client.BooksJson :=
  Client.Resolves
    {| Client.status := reply_status r;
       Client.payload :=
         Client.Json (match r with
                      | Data rows => Client.BooksArray rows
                      | Failure _ msg => Client.BooksObject (Some msg)
                      end) |}.

(** a reply whose body the client does not read *)
Definition plain_response (r : Reply unit) : Client.FetchOutcome unit :=
  Client.Resolves
    {| Client.status := reply_status r; Client.payload := Client.Json tt |}.

End Routes.

(** ** Signing in, registering and moving between the views
    ([src/App.tsx])

    The part of the state of [App] that decides what is rendered: the
    signed-in user, the view, the registration token and the navigation
    drawer.  A control acts only while the view that renders it is on
    display; the answer of a call and the timer of a toast act whenever
    they arrive, whatever is on display then. *)

Module Navigation.
Import Client.

(** ['login' | 'register' | 'library' | 'admin'] *)
Inductive View := view_login | view_register | view_library | view_admin.

(** the toast; [showToast(data.error, 'error')] may pass [undefined] as
    the message *)
Record Notice := {
  notice_message : option string;
  notice_type : ToastType
}.

(** the bodies of the two authentication calls *)
Inductive AuthCall :=
| LoginCall (email password : string)
| RegisterCall (email password name : string) (token : option string).

(** The state of [App] that the views depend on, with the calls sent so
    far.  [toast_timers] counts the timers of [showToast] that have not
    fired yet; [awaiting_login] and [awaiting_register] count the runs of
    [handleLogin] and [handleRegister] that wait for their answer. *)
Record Page := {
  user : option User;
  view : View;
  regToken : option string;
  showPassword : bool;
  isNavOpen : bool;
  filters : FilterState;
  notice : option Notice;
  toast_timers : nat;
  awaiting_login : nat;
  awaiting_register : nat;
  auth_calls : list AuthCall
}.

(** the state [App] starts with *)
Definition initial_page : Page :=
  {| user := None; view := view_login; regToken := None;
     showPassword := false; isNavOpen := false;
     filters := Catalog.initialFilters; notice := None;
     toast_timers := 0; awaiting_login := 0; awaiting_register := 0;
     auth_calls := [] |}.

Definition set_user (u : option User) (p : Page) : Page :=
  {| user := u; view := view p; regToken := regToken p;
     showPassword := showPassword p; isNavOpen := isNavOpen p;
     filters := filters p; notice := notice p;
     toast_timers := toast_timers p; awaiting_login := awaiting_login p;
     awaiting_register := awaiting_register p;
     auth_calls := auth_calls p |}.

Definition set_view (v : View) (p : Page) : Page :=
  {| user := user p; view := v; regToken := regToken p;
     showPassword := showPassword p; isNavOpen := isNavOpen p;
     filters := filters p; notice := notice p;
     toast_timers := toast_timers p; awaiting_login := awaiting_login p;
     awaiting_register := awaiting_register p;
     auth_calls := auth_calls p |}.

Definition set_regToken (t : option string) (p : Page) : Page :=
  {| user := user p; view := view p; regToken := t;
     showPassword := showPassword p; isNavOpen := isNavOpen p;
     filters := filters p; notice := notice p;
     toast_timers := toast_timers p; awaiting_login := awaiting_login p;
     awaiting_register := awaiting_register p;
     auth_calls := auth_calls p |}.

Definition set_showPassword (b : bool) (p : Page) : Page :=
  {| user := user p; view := view p; regToken := regToken p;
     showPassword := b; isNavOpen := isNavOpen p;
     filters := filters p; notice := notice p;
     toast_timers := toast_timers p; awaiting_login := awaiting_login p;
     awaiting_register := awaiting_register p;
     auth_calls := auth_calls p |}.

Definition set_isNavOpen (b : bool) (p : Page) : Page :=
  {| user := user p; view := view p; regToken := regToken p;
     showPassword := showPassword p; isNavOpen := b;
     filters := filters p; notice := notice p;
     toast_timers := toast_timers p; awaiting_login := awaiting_login p;
     awaiting_register := awaiting_register p;
     auth_calls := auth_calls p |}.

Definition set_filters (f : FilterState) (p : Page) : Page :=
  {| user := user p; view := view p; regToken := regToken p;
     showPassword := showPassword p; isNavOpen := isNavOpen p;
     filters := f; notice := notice p;
     toast_timers := toast_timers p; awaiting_login := awaiting_login p;
     awaiting_register := awaiting_register p;
     auth_calls := auth_calls p |}.

(** [showToast(m, t)]: the toast is set and a timer of three seconds is
    started that clears whatever toast is set when it fires *)
Definition show_notice (m : option string) (t : ToastType) (p : Page)
  : Page :=
  {| user := user p; view := view p; regToken := regToken p;
     showPassword := showPassword p; isNavOpen := isNavOpen p;
     filters := filters p;
     notice := Some {| notice_message := m; notice_type := t |};
     toast_timers := S (toast_timers p);
     awaiting_login := awaiting_login p;
     awaiting_register := awaiting_register p;
     auth_calls := auth_calls p |}.

(** a timer of [showToast] fires: [setToast(null)] *)
Definition clear_notice (timers_left : nat) (p : Page) : Page :=
  {| user := user p; view := view p; regToken := regToken p;
     showPassword := showPassword p; isNavOpen := isNavOpen p;
     filters := filters p; notice := None;
     toast_timers := timers_left;
     awaiting_login := awaiting_login p;
     awaiting_register := awaiting_register p;
     auth_calls := auth_calls p |}.

Definition set_awaiting (logins registers : nat) (p : Page) : Page :=
  {| user := user p; view := view p; regToken := regToken p;
     showPassword := showPassword p; isNavOpen := isNavOpen p;
     filters := filters p; notice := notice p;
     toast_timers := toast_timers p;
     awaiting_login := logins; awaiting_register := registers;
     auth_calls := auth_calls p |}.

Definition sent (c : AuthCall) (p : Page) : Page :=
  {| user := user p; view := view p; regToken := regToken p;
     showPassword := showPassword p; isNavOpen := isNavOpen p;
     filters := filters p; notice := notice p;
     toast_timers := toast_timers p; awaiting_login := awaiting_login p;
     awaiting_register := awaiting_register p;
     auth_calls := auth_calls p ++ [c] |}.

(** [{ ...filters, category }] *)
Definition with_category (c : BookCategory) (f : FilterState)
  : FilterState :=
  {| search := search f; f_category := Cat c;
     f_department := f_department f; f_level := f_level f |}.

(** the JSON values of the authentication routes, by what the client
    reads of them: [null], or a value with its [error] and [user]
    members *)
Inductive AuthJson :=
| AuthNull
| AuthObject (error : option string) (user : option User).

Definition connect_message : string :=
  "Could not connect to the server. Please wait a moment and try again.".

(** [handleLogin] up to [await fetch(...)]: the call is sent and the
    handler waits for its answer *)
Definition handleLogin (email password : string) (p : Page) : Page :=
  set_awaiting (S (awaiting_login p)) (awaiting_register p)
               (sent (LoginCall email password) p).

(** [handleLogin] from the answer on; it reads nothing of the page, and
    runs whatever view is shown by then *)
Definition handleLogin_resumes (reply : FetchOutcome AuthJson) (p : Page)
  : Page :=
  match reply with
  | Rejects _ => show_notice (Some connect_message) error p
  | Resolves res =>
      if Nat.eqb (status res) 404
      then show_notice
             (Some "Login API not found. Please ensure the server is running correctly.")
             error p
      else
        match payload res with
        | NotJson => show_notice (Some connect_message) error p
        | Json data =>
            if ok res then
              match data with
              | AuthNull => show_notice (Some connect_message) error p
              | AuthObject _ None =>
                  show_notice (Some connect_message) error (set_user None p)
              | AuthObject _ (Some u) =>
                  show_notice
                    (Some ("Welcome back, " ++ u_name u ++ "!")%string) success
                    (set_view (if isAdmin u then view_admin
                               else view_library)
                              (set_user (Some u) p))
              end
            else
              match data with
              | AuthNull => show_notice (Some connect_message) error p
              | AuthObject e _ =>
                  show_notice (Some (message_or e "Login failed")) error p
              end
        end
  end.

(** [handleRegister] up to [await fetch(...)]; the body holds the token
    of the page as it is when the form is submitted *)
Definition handleRegister (email password name : string) (p : Page)
  : Page :=
  set_awaiting (awaiting_login p) (S (awaiting_register p))
               (sent (RegisterCall email password name (regToken p)) p).

(** [handleRegister] from the answer on *)
Definition handleRegister_resumes (reply : FetchOutcome AuthJson)
           (p : Page) : Page :=
  match reply with
  | Rejects _ => show_notice (Some "Registration failed") error p
  | Resolves res =>
      match payload res with
      | NotJson => show_notice (Some "Registration failed") error p
      | Json data =>
          if ok res then
            set_regToken None
              (set_showPassword false
                 (set_view view_login
                    (show_notice
                       (Some "Registration successful! Please wait for admin approval.")
                       success p)))
          else
            match data with
            | AuthNull => show_notice (Some "Registration failed") error p
            | AuthObject e _ => show_notice e error p
            end
      end
  end.

(** the effect that reads the token of the address the page was opened
    with: [if (token) { setRegToken(token); setView('register') }] *)
Definition read_token (token : option string) (p : Page) : Page :=
  match token with
  | Some t =>
      if JsString.truthy t
      then set_view view_register (set_regToken (Some t) p)
      else p
  | None => p
  end.

(** what happens to the page: the visitor uses a control, the answer of
    a call arrives, a timer fires *)
Inductive Event :=
| SubmitLogin (email password : string)
| LoginAnswer (reply : FetchOutcome AuthJson)
| SubmitRegister (email password name : string)
| RegisterAnswer (reply : FetchOutcome AuthJson)
| ToastTimeout
| BackToSignIn
| TogglePassword
| OpenNav
| CloseNav
| SectionTab (c : BookCategory)
| EditFilters (f : FilterState)
| AdminToggle
| SignOut
| DrawerLibrary
| DrawerAdmin
| DrawerSection (c : BookCategory)
| DrawerSignOut (confirmed : bool).

(** the main layout is rendered: the view is neither the login nor the
    registration form *)
Definition main_layout (p : Page) : bool :=
  match view p with
  | view_library | view_admin => true
  | _ => false
  end.

Definition in_view (v : View) (p : Page) : bool :=
  match view p, v with
  | view_login, view_login | view_register, view_register
  | view_library, view_library | view_admin, view_admin => true
  | _, _ => false
  end.

Definition sign_out (p : Page) : Page :=
  set_showPassword false (set_view view_login (set_user None p)).

(** the toast on the screen: only the main layout renders the toast, the
    login and the registration form do not *)
Definition visible_notice (p : Page) : option Notice :=
  if main_layout p then notice p else None.

(** The handler of the control, when the control is rendered; the rest
    of a handler when an answer it waits for arrives, whatever is rendered
    then; the clearing of the toast when a timer is left to fire.  (The
    browser raises the submit event of the two forms only when their
    required fields are filled in; the handlers themselves accept any
    field values, and so do the events here.) *)
Definition step (e : Event) (p : Page) : Page :=
  match e with
  | SubmitLogin email password =>
      if in_view view_login p then handleLogin email password p else p
  | LoginAnswer reply =>
      match awaiting_login p with
      | O => p
      | S n =>
          handleLogin_resumes reply (set_awaiting n (awaiting_register p) p)
      end
  | SubmitRegister email password name =>
      if in_view view_register p
      then handleRegister email password name p else p
  | RegisterAnswer reply =>
      match awaiting_register p with
      | O => p
      | S n =>
          handleRegister_resumes reply (set_awaiting (awaiting_login p) n p)
      end
  | ToastTimeout =>
      match toast_timers p with
      | O => p
      | S n => clear_notice n p
      end
  | BackToSignIn =>
      if in_view view_register p
      then set_showPassword false (set_view view_login p) else p
  | TogglePassword =>
      if main_layout p then p
      else set_showPassword (negb (showPassword p)) p
  | OpenNav => if main_layout p then set_isNavOpen true p else p
  | CloseNav =>
      if main_layout p && isNavOpen p then set_isNavOpen false p else p
  | SectionTab c =>
      if in_view view_library p
      then set_filters (with_category c (filters p)) p else p
  | EditFilters f => if in_view view_library p then set_filters f p else p
  | AdminToggle =>
      if main_layout p && is_admin (user p)
      then set_view (if in_view view_admin p then view_library
                     else view_admin) p
      else p
  | SignOut => if main_layout p then sign_out p else p
  | DrawerLibrary =>
      if main_layout p && isNavOpen p
      then set_isNavOpen false (set_view view_library p) else p
  | DrawerAdmin =>
      if main_layout p && isNavOpen p && is_admin (user p)
      then set_isNavOpen false (set_view view_admin p) else p
  | DrawerSection c =>
      if main_layout p && isNavOpen p
      then set_isNavOpen false
             (set_view view_library
                (set_filters (with_category c (filters p)) p))
      else p
  | DrawerSignOut confirmed =>
      if main_layout p && isNavOpen p && confirmed
      then set_showPassword false
             (set_isNavOpen false (set_view view_login (set_user None p)))
      else p
  end.

(** the page after the address was read and the events happened in
    order *)
Definition visit (token : option string) (events : list Event) : Page :=
  fold_left (fun p e => step e p) events (read_token token initial_page).

(** what the views presuppose: the main layout is shown to somebody
    signed in, the admin view to an admin, and the registration form with
    a token at hand *)
Definition consistent (p : Page) : Prop :=
  (main_layout p = true -> user p <> None)
  /\ (view p = view_admin -> is_admin (user p) = true)
  /\ (view p = view_register -> regToken p <> None).

(** an answer of the login route that is ok has a [user] member *)
Definition carries_user (reply : FetchOutcome AuthJson) : bool :=
  match reply with
  | Rejects _ => true
  | Resolves res =>
      match payload res with
      | Json (AuthObject _ None) => negb (ok res)
      | _ => true
      end
  end.

Definition login_answer_carries_user (e : Event) : bool :=
  match e with
  | LoginAnswer reply => carries_user reply
  | _ => true
  end.

(** the answer tells that the registration succeeded *)
Definition registered (reply : FetchOutcome AuthJson) : bool :=
  match reply with
  | Rejects _ => false
  | Resolves res =>
      match payload res with
      | Json _ => ok res
      | NotJson => false
      end
  end.

(** along the events from [p] on, every answer that tells of a
    successful registration arrives while nobody is signed in *)
Fixpoint registered_while_signed_out (p : Page) (events : list Event)
  : bool :=
  match events with
  | [] => true
  | e :: rest =>
      match e with
      | RegisterAnswer reply =>
          match awaiting_register p, user p with
          | S _, Some _ => negb (registered reply)
          | _, _ => true
          end
      | _ => true
      end
      && registered_while_signed_out (step e p) rest
  end.

Definition is_login_call (c : AuthCall) : bool :=
  match c with
  | LoginCall _ _ => true
  | RegisterCall _ _ _ _ => false
  end.

(** a page that never had a registration token *)
Definition tokenless (p : Page) : Prop :=
  view p <> view_register /\ regToken p = None
  /\ forallb is_login_call (auth_calls p) = true.

(** *** The answers of the server as the client reads them *)

Fixpoint member (k : string) (ms : list (string * Server.json))
  : option Server.json :=
  match ms with
  | [] => None
  | (k', v) :: rest => if String.eqb k' k then Some v else member k rest
  end.

Definition text_member (k : string) (j : Server.json) : option string :=
  match j with
  | Server.JObject ms =>
      match member k ms with
      | Some (Server.JString s) => Some s
      | _ => None
      end
  | _ => None
  end.

Definition flag_member (k : string) (j : Server.json) : option bool :=
  match j with
  | Server.JObject ms =>
      match member k ms with
      | Some (Server.JBool b) => Some b
      | _ => None
      end
  | _ => None
  end.

(** [data.user] of a body of the login route *)
Definition user_member (j : Server.json) : option User :=
  match j with
  | Server.JObject ms =>
      match member "user" ms with
      | Some u =>
          match text_member "id" u, text_member "email" u,
                text_member "name" u, flag_member "isAdmin" u with
          | Some i, Some e, Some n, Some a =>
              Some {| u_id := i; u_email := e; u_name := n; isAdmin := a |}
          | _, _, _, _ => None
          end
      | None => None
      end
  | _ => None
  end.

(** the response [fetch] resolves with for an answer of the server *)
Definition auth_response (r : Server.Response) : FetchOutcome AuthJson :=
  Resolves
    {| status := Server.status r;
       payload := Json (AuthObject (text_member "error" (Server.body r))
                                   (user_member (Server.body r))) |}.

End Navigation.
(** ** Sample data *)

(** identifiers, as [uuidv4()] and the store's id columns have them *)
Module Ids.

Definition a1 : string := "9b2f6c1e-0a1d-4c3e-8f5a-3d2c1b0a9f01".
Definition u1 : string := "1c7e5a90-2b3f-4d6a-9e81-5f0a4b3c2d11".
Definition u2 : string := "2d8f6ba1-3c40-4e7b-8f92-60ab5c4d3e22".
Definition u9 : string := "3e907cb2-4d51-4f8c-a0a3-71bc6d5e4f33".
Definition u10 : string := "4fa18dc3-5e62-409d-b1b4-82cd7e6f5044".
Definition l0 : string := "50b29ed4-6f73-41ae-82c5-93de8f706155".
Definition l1 : string := "61c3afe5-7084-42bf-93d6-a4ef90817266".
Definition l7 : string := "72d4b0f6-8195-43c0-a4e7-b5f0a1928377".
Definition b1 : string := "83e5c107-92a6-44d1-b5f8-c601b2a39488".
Definition b2 : string := "94f6d218-a3b7-45e2-86f9-d712c3b4a599".
Definition b3 : string := "a507e329-b4c8-46f3-97fa-e823d4c5b6aa".

End Ids.

Module Samples.
Import Catalog.

(** An engine for the examples, whose texts are all of ASCII characters;
    what it does to other texts is not used. *)
Definition ascii_engine : JsString.Engine :=
  {| JsString.toLowerCase := JsString.fold_ascii;
     JsString.toLowerCase_ascii := fun s _ => eq_refl |}.

Definition intro_cs : Book :=
  {| id := Ids.b1; title := "Intro to CS"; author := "DLCF Library";
     category := ACADEMIC; description := None;
     coverUrl := Some "https://cdn/b1.jpg";
     downloadUrl := Some "https://cdn/b1.pdf";
     department := Some "Computer Science"; courseCode := Some "CSC101";
     courseTitle := Some "Intro to CS"; level := Some "100" |}.

Definition pilgrim : Book :=
  {| id := Ids.b2; title := "The Pilgrim's Progress";
     author := "John Bunyan";
     category := CHRISTIAN_NOVEL; description := None;
     coverUrl := None; downloadUrl := None;
     department := None; courseCode := None;
     courseTitle := None; level := None |}.

Definition thermo : Book :=
  {| id := Ids.b3; title := "Thermodynamics"; author := "DLCF Library";
     category := ACADEMIC; description := None;
     coverUrl := None; downloadUrl := None;
     department := Some "Physics"; courseCode := Some "PHY201";
     courseTitle := Some "Thermodynamics"; level := Some "200" |}.

Definition shelf : list Book := [intro_cs; pilgrim; thermo].

Definition cs_filter : FilterState :=
  {| search := "csc"; f_category := Cat ACADEMIC;
     f_department := "Computer Science"; f_level := "All" |}.

End Samples.

Module ClientSamples.
Import Client Outcomes.

Definition demo_catalog : list Book := [Samples.pilgrim].

Definition ada : PendingUser :=
  {| pu_id := Ids.u1; pu_email := "ada@example.org"; pu_name := "Ada" |}.

Definition ben : PendingUser :=
  {| pu_id := Ids.u2; pu_email := "ben@example.org"; pu_name := "Ben" |}.

Definition invite : RegistrationLink :=
  {| l_id := Ids.l1; token := "t-1"; expires_at := 86400000;
     created_at := 0 |}.

Definition admin : User :=
  {| u_id := Ids.a1; u_email := "admin@dlcf.org"; u_name := "System Admin";
     isAdmin := true |}.

Definition course_pdf : File :=
  {| file_name := "csc101.pdf"; file_type := "application/pdf";
     file_bytes := "%PDF-1.7" |}.

Definition academic_inputs : FormInputs :=
  {| in_title := ""; in_pdf_file := Some course_pdf;
     in_department := "Computer Science"; in_level := "100";
     in_course_code := "CSC101"; in_course_title := "Intro to CS" |}.

Definition novel_inputs : FormInputs :=
  {| in_title := "The Pilgrim's Progress"; in_pdf_file := Some course_pdf;
     in_department := ""; in_level := "";
     in_course_code := ""; in_course_title := "" |}.

Definition admin_page (c : BookCategory) (i : FormInputs) : State :=
  {| user := Some admin; books := Samples.shelf; dbError := None;
     pendingUsers := [ada; ben]; adminLinks := [invite];
     formCategory := c; addBookForm := i;
     pdfLabel := "csc101.pdf"; loading := false;
     uploadProgress := None; toast := None; requests := [] |}.

Definition http {A} (code : nat) (v : ResponseBody A) : FetchOutcome A :=
  Resolves {| status := code; payload := v |}.

Definition offline {A} : FetchOutcome A := Rejects "Failed to fetch".

Definition admin_offline : AdminReplies :=
  {| usersReply := offline; linksReply := offline; booksReply := offline |}.

Definition stored (u : string) : FetchOutcome UploadJson :=
  http 200 (Json (UploadObject None (Some u))).

(** every phase succeeds *)
Definition all_well : UploadReplies :=
  {| thumbnail := Normal (Some "JFIF");
     pdfUpload := stored "https://cdn/csc101.pdf";
     thumbUpload := stored "https://cdn/thumbnail.jpg";
     saveRecord := http 200 (Json (UploadObject None None));
     adminData := admin_offline |}.

(** the canvas yields no blob *)
Definition no_thumbnail : UploadReplies :=
  {| thumbnail := Normal None;
     pdfUpload := stored "https://cdn/csc101.pdf";
     thumbUpload := stored "https://cdn/thumbnail.jpg";
     saveRecord := http 200 (Json (UploadObject None None));
     adminData := admin_offline |}.

(** the PDF upload is answered by an HTML error page *)
Definition pdf_rejected : UploadReplies :=
  {| thumbnail := Normal (Some "JFIF");
     pdfUpload := http 502 NotJson;
     thumbUpload := stored "https://cdn/thumbnail.jpg";
     saveRecord := http 200 (Json (UploadObject None None));
     adminData := admin_offline |}.

End ClientSamples.

Module ServerSamples.
Import Server.

(** a server on universal time *)
Definition utc : LocalTZA := fun _ _ => 0%Z.

(** A server whose clocks are set back one hour at the instant
    [hours 30]: local time is one hour ahead before, level after; a local
    time of the repeated hour is read as the earlier instant. *)
Definition clocks_back : LocalTZA :=
  fun t isUTC =>
    if isUTC
    then (if t <? hours 30 then hours 1 else 0)%Z
    else (if t <? hours 31 then hours 1 else 0)%Z.

(** A server whose clocks are set forward one hour at the instant
    [hours 30]; a local time of the skipped hour is read with the offset
    before the change. *)
Definition clocks_forward : LocalTZA :=
  fun t isUTC =>
    if isUTC
    then (if t <? hours 30 then 0 else hours 1)%Z
    else (if t <? hours 31 then 0 else hours 1)%Z.

Definition admin_row : UserRow :=
  {| user_id := Ids.a1; email := "admin@dlcf.org"; password := "admin123";
     name := "System Admin"; is_approved := true; is_admin := true;
     user_created_at := 0 |}.

Definition alice : UserRow :=
  {| user_id := Ids.u1; email := "alice@example.org"; password := "wonder";
     name := "Alice"; is_approved := false; is_admin := false;
     user_created_at := 10 |}.

Definition invite : RegistrationLink :=
  {| l_id := Ids.l1; token := "t-1"; expires_at := hours 24;
     created_at := 0 |}.

Definition db0 : Store :=
  {| users := [admin_row; alice]; registration_links := [invite] |}.

Definition join (mail : string) : RegisterRequest :=
  {| req_email := mail; req_password := "pw"; req_name := "Bob";
     req_token := "t-1" |}.

End ServerSamples.

Module RouteSamples.
Import Server Routes.

Definition older_invite : RegistrationLink :=
  {| l_id := Ids.l0; token := "t-0"; expires_at := hours 20;
     created_at := (-14400000)%Z |}.

Definition db1 : Store :=
  {| users := [ServerSamples.admin_row; ServerSamples.alice];
     registration_links := [older_invite; ServerSamples.invite] |}.

(** [createClient] as the library has it: a URL that is not http or
    https is refused *)
Definition createClient (url key : string) : string + (string * string) :=
  if JsString.startsWith url "http://" || JsString.startsWith url "https://"
  then inr (url, key)
  else inl "Invalid supabaseUrl: Must be a valid HTTP or HTTPS URL.".

(** the message of the store for an id that is not a UUID *)
Definition not_a_uuid : string :=
  "invalid input syntax for type uuid".

Definition configured : Process :=
  {| SUPABASE_URL := Some "https://project.supabase.co";
     SUPABASE_ANON_KEY := Some "anon-key";
     SMTP_HOST := Some "smtp.example.org";
     supabaseClient := None |}.

Definition unconfigured : Process :=
  {| SUPABASE_URL := None; SUPABASE_ANON_KEY := Some "anon-key";
     SMTP_HOST := None; supabaseClient := None |}.

(** the URL variable holds a project name, not a URL *)
Definition misconfigured : Process :=
  {| SUPABASE_URL := Some "project"; SUPABASE_ANON_KEY := Some "anon-key";
     SMTP_HOST := None; supabaseClient := None |}.

End RouteSamples.

Module FlowSamples.
Import Client Navigation.

(** the administrator signs in, opens the drawer and signs out *)
Definition admin_session : list Event :=
  [SubmitLogin "admin@dlcf.org" "admin123";
   LoginAnswer (auth_response
                  (Server.login "admin@dlcf.org" "admin123"
                                ServerSamples.db0));
   AdminToggle; OpenNav; DrawerAdmin].

(** A visitor opens an invitation, submits the registration form, goes to
    the sign-in form and signs in with an account they already have; the
    answer of the registration arrives after that of the sign-in. *)
Definition late_registration : list Event :=
  [SubmitRegister "carol@example.org" "pw" "Carol";
   BackToSignIn;
   SubmitLogin "admin@dlcf.org" "admin123";
   LoginAnswer (auth_response
                  (Server.login "admin@dlcf.org" "admin123"
                                ServerSamples.db0));
   RegisterAnswer
     (auth_response
        (fst (Server.register
                (Server.hours 1) Ids.u9
                {| Server.req_email := "carol@example.org";
                   Server.req_password := "pw";
                   Server.req_name := "Carol";
                   Server.req_token := "t-1" |}
                ServerSamples.db0)))].

Definition register_form : Page := read_token (Some "t-1") initial_page.

(** the admin page showing the pending list of the sample store *)
Definition pending_page : State :=
  with_pendingUsers
    (fun _ => Routes.rows_of (Routes.pending_users ServerSamples.db0))
    (ClientSamples.admin_page ACADEMIC ClientSamples.academic_inputs).

End FlowSamples.

(** * Properties *)

(** ** Strings *)

Module JsStringFacts.
Import JsString.

Lemma startsWith_iff (s t : string) :
  startsWith s t = true <-> exists rest, s = (t ++ rest)%string.
Proof.
  revert s; induction t as [|b t IH]; intros s.
  - split; [intros _; now exists s | intros _; destruct s; reflexivity].
  - destruct s as [|a s]; simpl.
    + split; [discriminate | intros [r Hr]; discriminate].
    + rewrite andb_true_iff, Ascii.eqb_eq, IH. split.
      * intros [-> [r ->]]. now exists r.
      * intros [r Hr]. injection Hr as -> ->. split; [reflexivity | now exists r].
Qed.

Lemma includes_iff (s t : string) :
  includes s t = true <->
  exists before after, s = (before ++ t ++ after)%string.
Proof.
  induction s as [|a s IH].
  - cbn [includes]. rewrite orb_false_r, startsWith_iff. split.
    + intros [r Hr]. now exists EmptyString, r.
    + intros [p [q H]]. destruct p as [|c p]; [now exists q | discriminate].
  - cbn [includes]. rewrite orb_true_iff, startsWith_iff, IH. split.
    + intros [[r Hr] | [p [q H]]].
      * now exists EmptyString, r.
      * exists (String a p), q. simpl. now rewrite H.
    + intros [p [q H]]. destruct p as [|c p].
      * left. now exists q.
      * right. simpl in H. injection H as _ H. now exists p, q.
Qed.

Lemma includes_empty (s : string) : includes s "" = true.
Proof. destruct s; reflexivity. Qed.

Lemma append_assoc3 (a b c : string) :
  ((a ++ b) ++ c)%string = (a ++ b ++ c)%string.
Proof. induction a as [|x a IH]; simpl; [reflexivity | now rewrite IH]. Qed.

Lemma fold_ascii_app (a b : string) :
  fold_ascii (a ++ b) = (fold_ascii a ++ fold_ascii b)%string.
Proof. induction a as [|x a IH]; simpl; [reflexivity | now rewrite IH]. Qed.

(** a folded text that splits in two is the folding of a split text *)
Lemma fold_ascii_split (s x y : string) :
  fold_ascii s = (x ++ y)%string ->
  exists s1 s2, s = (s1 ++ s2)%string
                /\ fold_ascii s1 = x /\ fold_ascii s2 = y.
Proof.
  revert s; induction x as [|c x IH]; intros s H.
  - exists EmptyString, s. now repeat split.
  - destruct s as [|a s]; [discriminate|].
    simpl in H. injection H as Hc H.
    destruct (IH s H) as [s1 [s2 [E [H1 H2]]]].
    exists (String a s1), s2. simpl. rewrite E, H1, Hc. now repeat split.
Qed.

Lemma is_ascii_app (a b : string) :
  is_ascii (a ++ b) = is_ascii a && is_ascii b.
Proof.
  induction a as [|x a IH]; simpl; [reflexivity|].
  now rewrite IH, andb_assoc.
Qed.

Lemma toLowerCase_empty (engine : Engine) : toLowerCase engine "" = ""%string.
Proof. now rewrite toLowerCase_ascii. Qed.

End JsStringFacts.

(** ** Catalog filtering *)

Module CatalogFacts.
Import JsString JsStringFacts Catalog.

Lemma BookCategory_eqb_eq (a b : BookCategory) :
  BookCategory_eqb a b = true <-> a = b.
Proof. destruct a, b; simpl; split; congruence. Qed.

Lemma opt_eqb_eq (o : option string) (s : string) :
  opt_eqb o s = true <-> o = Some s.
Proof.
  destruct o as [x|]; simpl.
  - rewrite String.eqb_eq. split; congruence.
  - split; discriminate.
Qed.

(** *** Folding A-Z is matching letters *)

Lemma all_ascii_complete (a : ascii) :
  In a (map ascii_of_nat (seq 0 256)).
Proof.
  rewrite <- (ascii_nat_embedding a). apply in_map, in_seq.
  pose proof (nat_ascii_bounded a). lia.
Qed.

Lemma same_letter_table :
  forallb (fun a =>
             forallb (fun b =>
                        Bool.eqb (same_letter a b)
                                 (Ascii.eqb (lower_ascii a) (lower_ascii b)))
                     (map ascii_of_nat (seq 0 256)))
          (map ascii_of_nat (seq 0 256)) = true.
Proof. vm_compute. reflexivity. Qed.

Lemma same_letter_fold (a b : ascii) :
  same_letter a b = true <-> lower_ascii a = lower_ascii b.
Proof.
  pose proof same_letter_table as T.
  rewrite forallb_forall in T. specialize (T a (all_ascii_complete a)).
  rewrite forallb_forall in T. specialize (T b (all_ascii_complete b)).
  apply Bool.eqb_prop in T. rewrite T. apply Ascii.eqb_eq.
Qed.

Lemma same_text_fold (m t : string) :
  same_text m t = true <-> fold_ascii m = fold_ascii t.
Proof.
  revert t; induction m as [|a m IH]; intros [|b t]; simpl.
  - tauto.
  - split; discriminate.
  - split; discriminate.
  - rewrite andb_true_iff, same_letter_fold, IH. split.
    + intros [-> ->]. reflexivity.
    + intros H. injection H as H1 H2. now split.
Qed.

Lemma contains_ignoring_case_fold (s t : string) :
  contains_ignoring_case s t <->
  exists before after,
    fold_ascii s = (before ++ fold_ascii t ++ after)%string.
Proof.
  split.
  - intros [b [m [a [-> Hm]]]]. apply same_text_fold in Hm.
    exists (fold_ascii b), (fold_ascii a).
    now rewrite !fold_ascii_app, Hm.
  - intros [p [q H]].
    destruct (fold_ascii_split _ _ _ H) as [b [rest [-> [Hb Hrest]]]].
    destruct (fold_ascii_split _ _ _ Hrest) as [m [a [-> [Hm Ha]]]].
    exists b, m, a. split; [reflexivity | now apply same_text_fold].
Qed.

(** on texts of ASCII characters the engine's lower-casing decides
    containment up to letter case *)
Lemma ci_contains_ascii (engine : Engine) (s t : string) :
  is_ascii s = true -> is_ascii t = true ->
  (ci_contains engine s t <-> contains_ignoring_case s t).
Proof.
  intros Hs Ht. unfold ci_contains.
  rewrite (toLowerCase_ascii engine s Hs), (toLowerCase_ascii engine t Ht).
  symmetry. apply contains_ignoring_case_fold.
Qed.

(** *** The four conditions *)

Lemma includes_lower_iff (engine : Engine) (s t : string) :
  includes (toLowerCase engine s) (toLowerCase engine t) = true
  <-> ci_contains engine s t.
Proof. apply includes_iff. Qed.

Lemma includes_lower_opt_iff (engine : Engine) (o : option string)
      (t : string) :
  includes_lower_opt engine o (toLowerCase engine t) = true <->
  exists s, o = Some s /\ ci_contains engine s t.
Proof.
  destruct o as [s|]; simpl.
  - rewrite includes_lower_iff. split.
    + intros H. now exists s.
    + intros [s' [E H]]. now injection E as ->.
  - split; [discriminate | intros [s' [E _]]; discriminate].
Qed.

Lemma matchesSearch_iff (engine : Engine) (filters : FilterState)
      (book : Book) :
  matchesSearch engine filters book = true <->
  ci_contains engine (title book) (search filters) \/
  ci_contains engine (author book) (search filters) \/
  (exists c, courseCode book = Some c
             /\ ci_contains engine c (search filters)) \/
  (exists c, courseTitle book = Some c
             /\ ci_contains engine c (search filters)).
Proof.
  unfold matchesSearch.
  rewrite !orb_true_iff, !includes_lower_iff, !includes_lower_opt_iff.
  tauto.
Qed.

Lemma matchesCategory_iff (filters : FilterState) (book : Book) :
  matchesCategory filters book = true <->
  Cat (category book) = f_category filters.
Proof.
  unfold matchesCategory, category_matches.
  destruct (f_category filters) as [|c].
  - split; discriminate.
  - rewrite BookCategory_eqb_eq. split; congruence.
Qed.

Lemma matchesDept_iff (filters : FilterState) (book : Book) :
  matchesDept filters book = true <->
  f_department filters = "All" \/
  (category book = ACADEMIC /\
   department book = Some (f_department filters)).
Proof.
  unfold matchesDept.
  now rewrite orb_true_iff, andb_true_iff, String.eqb_eq,
    BookCategory_eqb_eq, opt_eqb_eq.
Qed.

Lemma matchesLevel_iff (filters : FilterState) (book : Book) :
  matchesLevel filters book = true <->
  f_level filters = "All" \/
  (category book = ACADEMIC /\ level book = Some (f_level filters)).
Proof.
  unfold matchesLevel.
  now rewrite orb_true_iff, andb_true_iff, String.eqb_eq,
    BookCategory_eqb_eq, opt_eqb_eq.
Qed.



Lemma filter_twice {A} (p q : A -> bool) (l : list A) :
  filter q (filter p l) = filter (fun x => p x && q x) l.
Proof.
  induction l as [|x l IH]; simpl; [reflexivity|].
  destruct (p x); simpl; [destruct (q x)|]; now rewrite IH.
Qed.

Lemma applyInOrder_forallb (engine : Engine) (filters : FilterState)
      (order : list Predicate) (books : list Book) :
  applyInOrder engine filters order books =
  filter (fun b => forallb (fun p => holds engine filters p b) order) books.
Proof.
  unfold applyInOrder. revert books.
  induction order as [|p order IH]; intros books; simpl.
  - induction books as [|b books IHb]; simpl; congruence.
  - rewrite IH. apply filter_twice.
Qed.

Lemma forallb_Permutation {A} (f : A -> bool) (l l' : list A) :
  Permutation l l' -> forallb f l = forallb f l'.
Proof.
  induction 1; simpl.
  - reflexivity.
  - now rewrite IHPermutation.
  - now rewrite !andb_assoc, (andb_comm (f y)).
  - congruence.
Qed.

Lemma filteredBooks_idempotent (engine : Engine) (books : list Book)
      (filters : FilterState) :
  filteredBooks engine (filteredBooks engine books filters) filters =
  filteredBooks engine books filters.
Proof.
  unfold filteredBooks. rewrite filter_twice. apply filter_ext.
  intros b. now rewrite andb_diag.
Qed.

(** C8: on any engine, filtering a filtered list again changes nothing,
    and applying the search, category, department and level predicates
    one after the other, in any order, gives the list [filteredBooks]
    computes. *)
Theorem filtering_idempotent_any_order
        (engine : Engine)
        (books : list Book) (filters : FilterState)
        (order : list Predicate)
        (Horder : Permutation order [BySearch; ByCategory; ByDept; ByLevel]) :
  filteredBooks engine (filteredBooks engine books filters) filters =
    filteredBooks engine books filters
  /\ applyInOrder engine filters order books
     = filteredBooks engine books filters.
Proof.
  split; [apply filteredBooks_idempotent|].
  rewrite applyInOrder_forallb. unfold filteredBooks.
  apply filter_ext. intros b.
  rewrite (forallb_Permutation _ _ _ Horder). simpl.
  now rewrite andb_true_r, !andb_assoc.
Qed.

Lemma filtering_idempotent_any_order_witness :
  Permutation [ByLevel; BySearch; ByDept; ByCategory]
              [BySearch; ByCategory; ByDept; ByLevel]
  /\ filteredBooks Samples.ascii_engine
       (filteredBooks Samples.ascii_engine Samples.shelf Samples.cs_filter)
       Samples.cs_filter = [Samples.intro_cs]
  /\ applyInOrder Samples.ascii_engine Samples.cs_filter
                  [ByLevel; BySearch; ByDept; ByCategory]
                  Samples.shelf = [Samples.intro_cs].
Proof.
  assert (P : Permutation [ByLevel; BySearch; ByDept; ByCategory]
                          [BySearch; ByCategory; ByDept; ByLevel]).
  { apply Permutation_sym.
    apply perm_trans with [BySearch; ByCategory; ByLevel; ByDept].
    - repeat apply perm_skip. apply perm_swap.
    - apply perm_trans with [BySearch; ByLevel; ByCategory; ByDept].
      + apply perm_skip. apply perm_swap.
      + apply perm_trans with [ByLevel; BySearch; ByCategory; ByDept].
        * apply perm_swap.
        * repeat apply perm_skip. apply perm_swap. }
  split; [exact P|].
  destruct (filtering_idempotent_any_order Samples.ascii_engine
              Samples.shelf Samples.cs_filter _ P) as [Hidem Hord].
  split.
  - rewrite Hidem. reflexivity.
  - rewrite Hord. reflexivity.
Defined.

(** C10: on any engine, with the category filter at "All", the state the
    "Clear all filters" button sets, no book of a non-empty list is
    shown: no category equals "All". *)
Theorem category_All_shows_nothing
        (engine : Engine)
        (books : list Book) (filters : FilterState)
        (Hbooks : books <> []) (HAll : f_category filters = CatAll) :
  filteredBooks engine books filters = []
  /\ f_category clearAllFilters = CatAll
  /\ filteredBooks engine books clearAllFilters = [].
Proof.
  assert (E : forall f, f_category f = CatAll ->
                        filteredBooks engine books f = []).
  { intros f Hf. unfold filteredBooks.
    clear Hbooks. induction books as [|b l IH]; simpl; [reflexivity|].
    unfold matchesCategory at 1. rewrite Hf. simpl.
    rewrite andb_false_r. simpl. exact IH. }
  repeat split; [now apply E | now apply E].
Qed.

Lemma category_All_shows_nothing_witness :
  Samples.shelf <> []
  /\ filteredBooks Samples.ascii_engine Samples.shelf clearAllFilters = []
  /\ filteredBooks Samples.ascii_engine Samples.shelf Catalog.initialFilters
     = [Samples.intro_cs; Samples.thermo].
Proof.
  assert (Hne : Samples.shelf <> []) by discriminate.
  split; [exact Hne|]. split.
  - exact (proj1 (category_All_shows_nothing Samples.ascii_engine
                    Samples.shelf clearAllFilters Hne eq_refl)).
  - reflexivity.
Defined.

(** *** More on the catalog filter *)

Lemma ci_contains_trans (engine : Engine) (x s t : string) :
  ci_contains engine x s -> ci_contains engine s t ->
  ci_contains engine x t.
Proof.
  intros [p [q Hx]] [p' [q' Hs]].
  exists (p ++ p')%string, (q' ++ q)%string.
  rewrite Hx, Hs. now rewrite !append_assoc3.
Qed.

Lemma matchesSearch_narrows (engine : Engine) (f1 f2 : FilterState)
      (b : Book) :
  ci_contains engine (search f2) (search f1) ->
  matchesSearch engine f2 b = true -> matchesSearch engine f1 b = true.
Proof.
  intros Hsub. rewrite !matchesSearch_iff.
  intros [H|[H|[[c [E H]]|[c [E H]]]]].
  - left. now apply ci_contains_trans with (search f2).
  - right; left. now apply ci_contains_trans with (search f2).
  - right; right; left. exists c. split; [exact E|].
    now apply ci_contains_trans with (search f2).
  - right; right; right. exists c. split; [exact E|].
    now apply ci_contains_trans with (search f2).
Qed.

(** X16: on any engine, a new search text whose lower-cased form
    contains the lower-cased form of the previous one only narrows the
    result: with the other filters unchanged, the new result is what the
    new filter selects among the previous result, and every book of it was
    already in the previous result.  For search texts of ASCII characters
    it is enough that the previous text occurs in the new one with each
    letter in either case, as after typing more characters. *)
Theorem longer_search_narrows
        (engine : Engine)
        (books : list Book) (f1 f2 : FilterState)
        (Hsearch : ci_contains engine (search f2) (search f1)
                   \/ (is_ascii (search f1) = true
                       /\ is_ascii (search f2) = true
                       /\ contains_ignoring_case (search f2) (search f1)))
        (Hcat : f_category f2 = f_category f1)
        (Hdept : f_department f2 = f_department f1)
        (Hlevel : f_level f2 = f_level f1) :
  filteredBooks engine books f2
  = filteredBooks engine (filteredBooks engine books f1) f2
  /\ incl (filteredBooks engine books f2) (filteredBooks engine books f1).
Proof.
  assert (Hsub : ci_contains engine (search f2) (search f1)).
  { destruct Hsearch as [H | [H1 [H2 H]]]; [exact H|].
    now apply ci_contains_ascii. }
  assert (Himp : forall b,
             matchesSearch engine f2 b && matchesCategory f2 b
             && matchesDept f2 b && matchesLevel f2 b = true ->
             matchesSearch engine f1 b && matchesCategory f1 b
             && matchesDept f1 b && matchesLevel f1 b = true).
  { intros b. rewrite !andb_true_iff. intros [[[Hs Hc] Hd] Hl].
    unfold matchesCategory, matchesDept, matchesLevel in *.
    rewrite <- Hcat, <- Hdept, <- Hlevel.
    repeat split; auto. now apply matchesSearch_narrows with f2. }
  split.
  - unfold filteredBooks. rewrite filter_twice. apply filter_ext.
    intros b.
    destruct (matchesSearch engine f2 b && matchesCategory f2 b
              && matchesDept f2 b && matchesLevel f2 b) eqn:E.
    + now rewrite (Himp b E).
    + now rewrite andb_false_r.
  - intros b Hb. unfold filteredBooks in *.
    apply filter_In in Hb. destruct Hb as [Hin Hb].
    apply filter_In. split; [exact Hin | now apply Himp].
Qed.

Lemma longer_search_narrows_witness :
  let typed := {| search := "CSC1"; f_category := Cat ACADEMIC;
                  f_department := "All"; f_level := "All" |} in
  let before := {| search := "csc"; f_category := Cat ACADEMIC;
                   f_department := "All"; f_level := "All" |} in
  contains_ignoring_case (search typed) (search before)
  /\ filteredBooks Samples.ascii_engine Samples.shelf typed
     = [Samples.intro_cs]
  /\ incl (filteredBooks Samples.ascii_engine Samples.shelf typed)
          (filteredBooks Samples.ascii_engine Samples.shelf before).
Proof.
  intros typed before.
  assert (H : contains_ignoring_case (search typed) (search before)).
  { exists ""%string, "CSC"%string, "1"%string. now split. }
  split; [exact H|]. split; [reflexivity|].
  refine (proj2 (longer_search_narrows Samples.ascii_engine Samples.shelf
                   before typed _ eq_refl eq_refl eq_refl)).
  right. split; [reflexivity|]. split; [reflexivity | exact H].
Defined.

Lemma filteredBooks_in (engine : Engine) (books : list Book)
      (filters : FilterState) (b : Book) :
  In b (filteredBooks engine books filters) ->
  In b books /\ matchesSearch engine filters b = true
  /\ Cat (category b) = f_category filters
  /\ (f_department filters = "All" \/
      (category b = ACADEMIC /\ department b = Some (f_department filters)))
  /\ (f_level filters = "All" \/
      (category b = ACADEMIC /\ level b = Some (f_level filters))).
Proof.
  unfold filteredBooks.
  rewrite filter_In, !andb_true_iff, matchesCategory_iff, matchesDept_iff,
    matchesLevel_iff.
  tauto.
Qed.

(** X17: on any engine, a department or level filter other than "All"
    shows academic books only, each with exactly that department or
    level; combined with the novel section it shows nothing. *)
Theorem department_filter_hides_novels
        (engine : Engine)
        (books : list Book) (filters : FilterState)
        (Hfilter : f_department filters <> "All" \/ f_level filters <> "All") :
  (forall b, In b (filteredBooks engine books filters) ->
             category b = ACADEMIC
             /\ (f_department filters <> "All" ->
                 department b = Some (f_department filters))
             /\ (f_level filters <> "All" ->
                 level b = Some (f_level filters)))
  /\ (f_category filters = Cat CHRISTIAN_NOVEL ->
      filteredBooks engine books filters = []).
Proof.
  assert (Hacad : forall b, In b (filteredBooks engine books filters) ->
             category b = ACADEMIC
             /\ (f_department filters <> "All" ->
                 department b = Some (f_department filters))
             /\ (f_level filters <> "All" ->
                 level b = Some (f_level filters))).
  { intros b Hb. apply filteredBooks_in in Hb.
    destruct Hb as [_ [_ [_ [Hd Hl]]]].
    split; [|split].
    - destruct Hfilter as [H|H]; [destruct Hd | destruct Hl]; tauto.
    - intros H. destruct Hd; tauto.
    - intros H. destruct Hl; tauto. }
  split; [exact Hacad|].
  intros Hnovel.
  assert (Hno : forall b, ~ In b (filteredBooks engine books filters)).
  { intros b Hb. destruct (Hacad b Hb) as [Ha _].
    apply filteredBooks_in in Hb. destruct Hb as [_ [_ [Hc _]]].
    rewrite Hnovel, Ha in Hc. discriminate. }
  destruct (filteredBooks engine books filters) as [|b rest]; [reflexivity|].
  exfalso. apply (Hno b). now left.
Qed.

Lemma department_filter_hides_novels_witness :
  let f := {| search := ""; f_category := Cat CHRISTIAN_NOVEL;
              f_department := "Physics"; f_level := "All" |} in
  filteredBooks Samples.ascii_engine Samples.shelf f = [].
Proof.
  intros f.
  assert (H : f_department f <> "All"%string \/ f_level f <> "All"%string)
    by (left; discriminate).
  exact (proj2 (department_filter_hides_novels Samples.ascii_engine
                  Samples.shelf f H) eq_refl).
Defined.

(** X18: on any engine, with an empty search text and both the
    department and the level filter at "All", the result is exactly the
    books of the selected section, in catalog order; this is the view the
    page opens with, for the academic section. *)
Theorem blank_search_lists_section
        (engine : Engine)
        (books : list Book) (c : BookCategory) :
  filteredBooks engine books {| search := ""; f_category := Cat c;
                                f_department := "All"; f_level := "All" |}
  = filter (fun b => BookCategory_eqb (category b) c) books
  /\ filteredBooks engine books initialFilters
     = filter (fun b => BookCategory_eqb (category b) ACADEMIC) books.
Proof.
  assert (H : forall k,
             filteredBooks engine books
                           {| search := ""; f_category := Cat k;
                              f_department := "All"; f_level := "All" |}
             = filter (fun b => BookCategory_eqb (category b) k) books).
  { intros k. unfold filteredBooks. apply filter_ext. intros b.
    unfold matchesSearch, matchesCategory, matchesDept, matchesLevel.
    cbn [search f_category f_department f_level].
    rewrite toLowerCase_empty, includes_empty. simpl.
    now rewrite !andb_true_r. }
  split; [apply H | apply (H ACADEMIC)].
Qed.

End CatalogFacts.

(** ** The client handlers *)

Module ClientFacts.
Import Client Outcomes.
Local Open Scope handler_scope.

Ltac run_handler :=
  unfold exec, bind, ret, throw, try_catch, try_finally, gets, modify,
    fetch, json, setBooks, setDbError, setPendingUsers, setAdminLinks,
    setLoading, setUploadProgress, showToast; simpl.

Lemma skipn_own_length {A} (l more : list A) :
  skipn (List.length l) (l ++ more) = more.
Proof. induction l as [|x l IH]; simpl; [reflexivity | exact IH]. Qed.

(** C5: when the call behind an optimistic removal fails (the fetch
    throws or the response is not ok), the displayed list is again the
    list as it was before the removal, every row of it included; when
    the call succeeds, the list is the old one without the rows of the
    removed id. This holds for approving a user, revoking a link and
    deleting a book. *)
Theorem optimistic_removal_round_trip
        {A} (target : string) (reply : FetchOutcome A) (s : State) :
  (fetch_failed reply = true ->
     pendingUsers (exec (approveUser target reply) s) = pendingUsers s
     /\ adminLinks (exec (deleteLink target true reply) s) = adminLinks s
     /\ books (exec (deleteBook target true reply) s) = books s)
  /\
  (fetch_failed reply = false ->
     pendingUsers (exec (approveUser target reply) s)
       = filter (fun u => negb (String.eqb (pu_id u) target))
                (pendingUsers s)
     /\ adminLinks (exec (deleteLink target true reply) s)
       = filter (fun l => negb (String.eqb (l_id l) target)) (adminLinks s)
     /\ books (exec (deleteBook target true reply) s)
       = filter (fun b => negb (String.eqb (id b) target)) (books s)
     /\ (forall u, In u (pendingUsers (exec (approveUser target reply) s))
                   -> pu_id u <> target)
     /\ (forall l, In l (adminLinks (exec (deleteLink target true reply) s))
                   -> l_id l <> target)
     /\ (forall b, In b (books (exec (deleteBook target true reply) s))
                   -> id b <> target)).
Proof.
  assert (gone : forall {B} (key : B -> string) (l : list B) (x : B),
             In x (filter (fun y => negb (String.eqb (key y) target)) l) ->
             key x <> target).
  { intros B key l x Hx. apply filter_In in Hx. destruct Hx as [_ Hx].
    apply negb_true_iff in Hx. now apply String.eqb_neq. }
  unfold approveUser, deleteLink, deleteBook. run_handler.
  destruct reply as [e|res]; simpl.
  - split; [intros _; repeat split | discriminate].
  - destruct (ok res); simpl.
    + split; [discriminate|]. intros _.
      repeat split; try reflexivity; intros x Hx; eapply gone; exact Hx.
    + split; [intros _; repeat split | discriminate].
Qed.

Lemma optimistic_removal_round_trip_witness :
  let s := ClientSamples.admin_page ACADEMIC ClientSamples.academic_inputs in
  pendingUsers
    (exec (approveUser Ids.u1 (ClientSamples.http 500 (@NotJson unit))) s)
    = [ClientSamples.ada; ClientSamples.ben]
  /\ pendingUsers
       (exec (approveUser Ids.u1 (ClientSamples.http 200 (@NotJson unit))) s)
     = [ClientSamples.ben].
Proof.
  intros s. split.
  - exact (proj1 (proj1 (optimistic_removal_round_trip
                           Ids.u1 (ClientSamples.http 500 (@NotJson unit)) s)
                        eq_refl)).
  - exact (proj1 (proj2 (optimistic_removal_round_trip
                           Ids.u1 (ClientSamples.http 200 (@NotJson unit)) s)
                        eq_refl)).
Defined.

(** *** The books fetch *)

(** C9, as the code has it: whenever the books call fails (the fetch
    throws or the response is not ok), the displayed list becomes the
    bundled demo catalog; the banner is set only when the response that
    is not ok carries a JSON error text naming SUPABASE_URL, and is left
    as it was in every other failure. *)
Theorem fetchBooks_falls_back
        (INITIAL_BOOKS : list Book) (reply : FetchOutcome BooksJson)
        (s : State) (Hfail : fetch_failed reply = true) :
  books (exec (fetchBooks INITIAL_BOOKS reply) s) = INITIAL_BOOKS
  /\ dbError (exec (fetchBooks INITIAL_BOOKS reply) s)
     = (if reports_missing_config reply then Some db_banner
        else dbError s).
Proof.
  destruct reply as [e|res]; [now split|].
  simpl in Hfail. apply negb_true_iff in Hfail.
  unfold fetchBooks, books_error, reports_missing_config. run_handler.
  rewrite Hfail. simpl.
  destruct (payload res) as [|[|rows|err]]; simpl; try now split.
  destruct (JsString.includes_opt err "SUPABASE_URL"); now split.
Qed.

Lemma fetchBooks_falls_back_witness :
  let s := ClientSamples.admin_page ACADEMIC ClientSamples.academic_inputs in
  let unconfigured :=
    ClientSamples.http 500
      (Json (BooksObject
               (Some "SUPABASE_URL and SUPABASE_ANON_KEY are required."))) in
  books (exec (fetchBooks ClientSamples.demo_catalog unconfigured) s)
    = ClientSamples.demo_catalog
  /\ dbError (exec (fetchBooks ClientSamples.demo_catalog unconfigured) s)
     = Some db_banner.
Proof.
  intros s unconfigured.
  exact (fetchBooks_falls_back ClientSamples.demo_catalog unconfigured s
                               eq_refl).
Defined.

(** C9 as stated fails: with the books endpoint unreachable (the fetch
    throws) the demo catalog is shown, yet no banner is surfaced. *)
Lemma fetchBooks_unreachable_no_banner :
  let s := ClientSamples.admin_page ACADEMIC ClientSamples.academic_inputs in
  let reply : FetchOutcome BooksJson := ClientSamples.offline in
  fetch_failed reply = true
  /\ books (exec (fetchBooks ClientSamples.demo_catalog reply) s)
     = ClientSamples.demo_catalog
  /\ dbError (exec (fetchBooks ClientSamples.demo_catalog reply) s) = None.
Proof. repeat split. Qed.

(** *** The upload pipeline *)

Ltac run_upload :=
  unfold handleAddBook, generateThumbnail, parse_or_throw, upload_error,
    upload_url, fetchAdminData, fetch_all, issued;
  run_handler.

Ltac calls_issued :=
  simpl; repeat rewrite <- app_assoc;
  first [ apply skipn_own_length | apply skipn_all ].

Lemma no_call_when_thumbnail_fails
      (formData : FormData) (env : UploadReplies) (s : State) :
  thumbnail_failed (thumbnail env) = true ->
  issued (handleAddBook formData env) s = [].
Proof.
  intros Hfail. run_upload.
  destruct (get formData "pdf_file") as [[t|f]|]; simpl.
  - destruct (JsString.truthy t); calls_issued.
  - destruct (thumbnail env) as [[blob|]|e]; simpl in *;
      [discriminate | calls_issued | calls_issued].
  - calls_issued.
Qed.

Lemma fetchAdminData_requests (replies : AdminReplies) (s : State) :
  exists more,
    requests (snd (fetchAdminData replies s)) = requests s ++ more
    /\ Forall (fun rq => method rq = GET) more.
Proof.
  unfold fetchAdminData, fetch_all. run_handler.
  destruct (is_admin (user s)); simpl;
    [|exists []; split; [now rewrite app_nil_r | constructor]].
  exists [request GET "/api/admin/pending-users" NoBody;
          request GET "/api/admin/links" NoBody;
          request GET "/api/books" NoBody].
  split; [|repeat constructor].
  destruct (usersReply replies) as [?|ru];
    destruct (linksReply replies) as [?|rl];
    destruct (booksReply replies) as [?|rb]; simpl;
    try (now rewrite <- !app_assoc).
  destruct (ok ru), (payload ru); simpl;
    destruct (ok rl), (payload rl); simpl;
    destruct (ok rb); simpl;
    try (destruct (payload rb) as [|[| |]]; simpl);
    now rewrite <- !app_assoc.
Qed.

Section Pipeline.
Variables (formData : FormData) (env : UploadReplies) (s : State).
Variables (pdf : File) (blob : Blob).
Hypothesis Hfile : get formData "pdf_file" = Some (Upload pdf).
Hypothesis Hthumb : thumbnail env = Normal (Some blob).

Lemma only_pdf_call_when_pdf_upload_fails :
  phase_failed (pdfUpload env) = true ->
  issued (handleAddBook formData env) s = [upload_request pdf].
Proof.
  intros Hfail. run_upload. rewrite Hfile, Hthumb. simpl.
  destruct (pdfUpload env) as [e|res]; simpl in *; [calls_issued|].
  destruct (payload res) as [|[|e u]]; simpl in *; [calls_issued| |].
  - apply negb_true_iff in Hfail. rewrite Hfail. calls_issued.
  - apply negb_true_iff in Hfail. rewrite Hfail. calls_issued.
Qed.

Lemma two_calls_when_thumbnail_upload_fails :
  phase_failed (pdfUpload env) = false ->
  phase_failed (thumbUpload env) = true ->
  issued (handleAddBook formData env) s
  = [upload_request pdf; upload_request (thumbnail_file blob)].
Proof.
  intros Hpdf Hfail. run_upload. rewrite Hfile, Hthumb. simpl.
  destruct (pdfUpload env) as [e|res]; simpl in *; [discriminate|].
  destruct (payload res) as [|d]; simpl in *; [discriminate|].
  apply negb_false_iff in Hpdf. rewrite Hpdf. simpl.
  destruct (thumbUpload env) as [e|res']; simpl in *; [calls_issued|].
  destruct (payload res') as [|[|e u]]; simpl in *; [calls_issued| |];
    apply negb_true_iff in Hfail; rewrite Hfail; calls_issued.
Qed.

Lemma uploaded_url_inv (reply : FetchOutcome UploadJson)
      (u : option string) :
  uploaded_url reply = Some u ->
  exists res e, reply = Resolves res /\ ok res = true
                /\ payload res = Json (UploadObject e u).
Proof.
  destruct reply as [m|res]; simpl; [discriminate|].
  destruct (ok res) eqn:O; [|discriminate].
  destruct (payload res) as [|[|e u']] eqn:P; try discriminate.
  intros H. injection H as ->. now exists res, e.
Qed.

Variables (pdf_url thumb_url : option string).
Hypothesis Hpdf : uploaded_url (pdfUpload env) = Some pdf_url.
Hypothesis Hth : uploaded_url (thumbUpload env) = Some thumb_url.

Lemma save_call_after_both_uploads :
  exists more,
    issued (handleAddBook formData env) s
    = [upload_request pdf; upload_request (thumbnail_file blob);
       save_request (build_bookData formData thumb_url pdf_url)] ++ more
    /\ Forall (fun rq => method rq = GET) more
    /\ (phase_failed (saveRecord env) = true -> more = []).
Proof.
  destruct (uploaded_url_inv _ _ Hpdf) as [r1 [e1 [E1 [O1 P1]]]].
  destruct (uploaded_url_inv _ _ Hth) as [r2 [e2 [E2 [O2 P2]]]].
  unfold handleAddBook, generateThumbnail, parse_or_throw, upload_error,
    upload_url, issued.
  run_handler. rewrite Hfile, Hthumb. simpl.
  rewrite E1. simpl. rewrite P1. simpl. rewrite O1. simpl.
  rewrite E2. simpl. rewrite P2. simpl. rewrite O2. simpl.
  destruct (saveRecord env) as [e|res]; simpl.
  { exists []. repeat split; [calls_issued | constructor]. }
  destruct (payload res) as [|d]; simpl.
  { exists []. repeat split; [calls_issued | constructor]. }
  destruct (ok res); simpl.
  - match goal with
    | |- context [fetchAdminData ?r ?st] =>
        destruct (fetchAdminData_requests r st) as [more [Hmore Hget]];
        destruct (fetchAdminData r st) as [c st'] eqn:Hrun
    end.
    simpl in Hmore. exists more. repeat split; [|exact Hget|discriminate].
    destruct c; simpl; rewrite Hmore; calls_issued.
  - destruct d as [|e u]; simpl;
      exists []; (repeat split; [calls_issued | constructor]).
Qed.

End Pipeline.

Lemma only_two_calls_when_a_url_is_unreadable
      (formData : FormData) (env : UploadReplies) (s : State)
      (pdf : File) (blob : Blob) :
  get formData "pdf_file" = Some (Upload pdf) ->
  thumbnail env = Normal (Some blob) ->
  phase_failed (pdfUpload env) = false ->
  phase_failed (thumbUpload env) = false ->
  uploaded_url (pdfUpload env) = None \/
  uploaded_url (thumbUpload env) = None ->
  issued (handleAddBook formData env) s
  = [upload_request pdf; upload_request (thumbnail_file blob)].
Proof.
  intros Hfile Hthumb H1 H2 Hnone. run_upload. rewrite Hfile, Hthumb. simpl.
  destruct (pdfUpload env) as [e|r1]; simpl in *; [discriminate|].
  destruct (payload r1) as [|d1]; simpl in *; [discriminate|].
  apply negb_false_iff in H1. rewrite H1 in *. simpl.
  destruct (thumbUpload env) as [e|r2]; simpl in *; [discriminate|].
  destruct (payload r2) as [|d2]; simpl in *; [discriminate|].
  apply negb_false_iff in H2. rewrite H2 in *. simpl.
  destruct d2 as [|e2 u2]; simpl; [calls_issued|].
  destruct d1 as [|e1 u1]; simpl; [calls_issued|].
  destruct Hnone; discriminate.
Qed.

(** a record-creation call of one run carries the object built from the
    submitted form *)
Lemma save_call_carries_built_record
      (formData : FormData) (env : UploadReplies) (s : State)
      (bookData : BookData) :
  In (save_request bookData) (issued (handleAddBook formData env) s) ->
  exists thumb_url pdf_url,
    bookData = build_bookData formData thumb_url pdf_url.
Proof.
  destruct (get formData "pdf_file") as [[t|pdf]|] eqn:Hfile.
  - unfold handleAddBook, generateThumbnail, issued. rewrite Hfile.
    run_handler. destruct (JsString.truthy t); simpl;
      rewrite ?skipn_all; simpl; intros [].
  - destruct (thumbnail env) as [[blob|]|e] eqn:Hthumb.
    2,3: rewrite no_call_when_thumbnail_fails
           by (rewrite Hthumb; reflexivity); intros [].
    destruct (phase_failed (pdfUpload env)) eqn:F1.
    { rewrite (only_pdf_call_when_pdf_upload_fails _ _ _ _ _ Hfile Hthumb F1).
      intros [H|[]]. discriminate. }
    destruct (phase_failed (thumbUpload env)) eqn:F2.
    { rewrite (two_calls_when_thumbnail_upload_fails
                 _ _ _ _ _ Hfile Hthumb F1 F2).
      intros [H|[H|[]]]; discriminate. }
    destruct (uploaded_url (pdfUpload env)) as [pdf_url|] eqn:U1.
    2: { rewrite (only_two_calls_when_a_url_is_unreadable
                    _ _ _ _ _ Hfile Hthumb F1 F2 (or_introl U1)).
         intros [H|[H|[]]]; discriminate. }
    destruct (uploaded_url (thumbUpload env)) as [thumb_url|] eqn:U2.
    2: { rewrite (only_two_calls_when_a_url_is_unreadable
                    _ _ _ _ _ Hfile Hthumb F1 F2 (or_intror U2)).
         intros [H|[H|[]]]; discriminate. }
    destruct (save_call_after_both_uploads
                _ _ s _ _ Hfile Hthumb _ _ U1 U2) as [more [E [Hget _]]].
    rewrite E. simpl. intros [H|[H|[H|H]]]; try discriminate.
    + injection H as <-. now exists thumb_url, pdf_url.
    + rewrite Forall_forall in Hget. apply Hget in H. discriminate.
  - unfold handleAddBook, issued. rewrite Hfile. run_handler.
    rewrite skipn_all. intros [].
Qed.

(** C4: the phases run in order and a failing phase ends the run.  When
    thumbnail generation fails (an exception, or no blob from the
    canvas) no network call is issued at all, so neither upload nor the
    record creation happens; when the PDF upload fails only that call
    was issued; when the thumbnail upload fails only the two uploads
    were; when a url cannot be read from an answer the record call is
    not issued; otherwise the record call comes third, and when it
    fails nothing follows it. *)
Theorem upload_pipeline_ordered
        (formData : FormData) (env : UploadReplies) (s : State) :
  (thumbnail_failed (thumbnail env) = true ->
     issued (handleAddBook formData env) s = [])
  /\
  (forall (pdf : File) (blob : Blob),
      get formData "pdf_file" = Some (Upload pdf) ->
      thumbnail env = Normal (Some blob) ->
      (phase_failed (pdfUpload env) = true ->
         issued (handleAddBook formData env) s = [upload_request pdf])
      /\
      (phase_failed (pdfUpload env) = false ->
       phase_failed (thumbUpload env) = true ->
         issued (handleAddBook formData env) s
         = [upload_request pdf; upload_request (thumbnail_file blob)])
      /\
      (phase_failed (pdfUpload env) = false ->
       phase_failed (thumbUpload env) = false ->
       uploaded_url (pdfUpload env) = None \/
       uploaded_url (thumbUpload env) = None ->
         issued (handleAddBook formData env) s
         = [upload_request pdf; upload_request (thumbnail_file blob)])
      /\
      (forall pdf_url thumb_url,
          uploaded_url (pdfUpload env) = Some pdf_url ->
          uploaded_url (thumbUpload env) = Some thumb_url ->
          exists more,
            issued (handleAddBook formData env) s
            = [upload_request pdf; upload_request (thumbnail_file blob);
               save_request (build_bookData formData thumb_url pdf_url)]
                ++ more
            /\ Forall (fun rq => method rq = GET) more
            /\ (phase_failed (saveRecord env) = true -> more = []))).
Proof.
  split; [apply no_call_when_thumbnail_fails|].
  intros pdf blob Hfile Hthumb. repeat split.
  - now apply only_pdf_call_when_pdf_upload_fails with blob.
  - now apply two_calls_when_thumbnail_upload_fails.
  - now apply only_two_calls_when_a_url_is_unreadable.
  - intros pdf_url thumb_url U1 U2.
    now apply save_call_after_both_uploads.
Qed.

Lemma upload_pipeline_ordered_witness :
  let form := formData_of ACADEMIC ClientSamples.academic_inputs in
  let s := ClientSamples.admin_page ACADEMIC ClientSamples.academic_inputs in
  issued (handleAddBook form ClientSamples.no_thumbnail) s = []
  /\ issued (handleAddBook form ClientSamples.pdf_rejected) s
     = [upload_request ClientSamples.course_pdf].
Proof.
  intros form s. split.
  - exact (proj1 (upload_pipeline_ordered form ClientSamples.no_thumbnail s)
                 eq_refl).
  - exact (proj1 (proj2 (upload_pipeline_ordered
                           form ClientSamples.pdf_rejected s)
                        ClientSamples.course_pdf "JFIF"%string
                        eq_refl eq_refl)
                 eq_refl).
Defined.

(** *** The record of phase 4 *)

Lemma submit_invalid (env : UploadReplies) (s : State) :
  checkValidity (formCategory s) (addBookForm s) = false ->
  issued (submitAddBookForm env) s = [].
Proof.
  intros H. unfold submitAddBookForm, issued. run_handler. rewrite H.
  simpl. apply skipn_all.
Qed.

Lemma submit_valid (env : UploadReplies) (s : State) :
  checkValidity (formCategory s) (addBookForm s) = true ->
  issued (submitAddBookForm env) s
  = issued (handleAddBook (formData_of (formCategory s) (addBookForm s))
                          env) s.
Proof.
  intros H. unfold submitAddBookForm, issued. run_handler. now rewrite H.
Qed.

Lemma valid_form_has_file (c : BookCategory) (i : FormInputs) :
  checkValidity c i = true ->
  exists pdf, in_pdf_file i = Some pdf
              /\ get (formData_of c i) "pdf_file" = Some (Upload pdf).
Proof.
  unfold checkValidity. rewrite !andb_true_iff. intros [[_ H] _].
  destruct (in_pdf_file i) as [pdf|] eqn:E; [|discriminate].
  exists pdf. split; [reflexivity|].
  unfold formData_of. rewrite E. now destruct c.
Qed.



(** C7: every record the add-book form sends for creation has one of
    the two categories; with the novel category its department, level,
    course code and course title are all [null]; with the academic
    category all four are present, each a non-empty text. *)
Theorem created_record_academic_fields
        (env : UploadReplies) (s : State) (bookData : BookData)
        (Hsent : In (save_request bookData)
                    (issued (submitAddBookForm env) s)) :
  (bd_category bookData = Some (Text (category_value CHRISTIAN_NOVEL)) \/
   bd_category bookData = Some (Text (category_value ACADEMIC)))
  /\
  (bd_category bookData = Some (Text (category_value CHRISTIAN_NOVEL)) ->
     bd_department bookData = None /\ bd_level bookData = None
     /\ course_code bookData = None /\ course_title bookData = None)
  /\
  (bd_category bookData = Some (Text (category_value ACADEMIC)) ->
     exists d l c t,
       bd_department bookData = Some (Text d) /\ d <> ""
       /\ bd_level bookData = Some (Text l) /\ l <> ""
       /\ course_code bookData = Some (Text c) /\ c <> ""
       /\ course_title bookData = Some (Text t) /\ t <> "").
Proof.
  destruct (checkValidity (formCategory s) (addBookForm s)) eqn:Hvalid.
  2: { rewrite (submit_invalid _ _ Hvalid) in Hsent. destruct Hsent. }
  rewrite (submit_valid _ _ Hvalid) in Hsent.
  apply save_call_carries_built_record in Hsent.
  destruct Hsent as [thumb_url [pdf_url ->]].
  assert (nonempty : forall x, JsString.truthy x = true -> x <> ""%string).
  { intros x Hx ->. discriminate. }
  destruct (formCategory s); simpl.
  - unfold checkValidity in Hvalid. simpl in Hvalid.
    rewrite !andb_true_iff in Hvalid.
    destruct Hvalid as [_ [[[Hd Hl] Hc] Ht]].
    split; [now right|]. split; [discriminate|]. intros _.
    exists (in_department (addBookForm s)), (in_level (addBookForm s)),
      (in_course_code (addBookForm s)), (in_course_title (addBookForm s)).
    repeat split; now apply nonempty.
  - split; [now left|]. split; [now repeat split | discriminate].
Qed.

Lemma created_record_academic_fields_witness :
  let s := ClientSamples.admin_page CHRISTIAN_NOVEL
                                    ClientSamples.novel_inputs in
  let bookData :=
    build_bookData (formData_of CHRISTIAN_NOVEL ClientSamples.novel_inputs)
                   (Some "https://cdn/thumbnail.jpg"%string)
                   (Some "https://cdn/csc101.pdf"%string) in
  In (save_request bookData)
     (issued (submitAddBookForm ClientSamples.all_well) s)
  /\ bd_title bookData = Some (Text "The Pilgrim's Progress")
  /\ bd_department bookData = None /\ bd_level bookData = None
  /\ course_code bookData = None /\ course_title bookData = None.
Proof.
  intros s bookData.
  assert (Hsent : In (save_request bookData)
                     (issued (submitAddBookForm ClientSamples.all_well) s)).
  { vm_compute. right. right. left. reflexivity. }
  split; [exact Hsent|]. split; [reflexivity|].
  exact (proj1 (proj2 (created_record_academic_fields
                         ClientSamples.all_well s bookData Hsent))
               eq_refl).
Defined.

(** the message shown to the operator names the phase that failed *)
Example failed_phase_is_reported :
  let form := formData_of ACADEMIC ClientSamples.academic_inputs in
  let s := ClientSamples.admin_page ACADEMIC ClientSamples.academic_inputs in
  toast (exec (handleAddBook form ClientSamples.no_thumbnail) s)
  = Some {| message := "Failed to generate thumbnail"; type := error |}
  /\ toast (exec (handleAddBook form ClientSamples.pdf_rejected) s)
     = Some {| message :=
                 "Server returned non-JSON response during PDF upload (502)";
               type := error |}
  /\ toast (exec (handleAddBook form ClientSamples.all_well) s)
     = Some {| message := "Book added successfully!"; type := success |}
  /\ loading (exec (handleAddBook form ClientSamples.pdf_rejected) s) = false
  /\ uploadProgress (exec (handleAddBook form ClientSamples.pdf_rejected) s)
     = None.
Proof. repeat split. Qed.

(** *** More on the books fetch *)



(** *** The admin data *)

(** X14: [fetchAdminData] does nothing at all for a user who is not an
    admin.  For an admin it issues the three listing calls at once; when
    one of them throws, none of the three lists changes; when all resolve
    with readable bodies, each list is replaced by the value of its own ok
    answer and a list whose answer is not ok keeps its rows, whatever the
    other two answers are; an empty book array empties the book list. *)
Theorem fetchAdminData_commits (replies : AdminReplies) (s : State) :
  let s' := exec (fetchAdminData replies) s in
  (is_admin (user s) = false -> s' = s)
  /\ (is_admin (user s) = true ->
      issued (fetchAdminData replies) s
      = [request GET "/api/admin/pending-users" NoBody;
         request GET "/api/admin/links" NoBody;
         request GET "/api/books" NoBody]
      /\ (rejected_reply (usersReply replies)
          || rejected_reply (linksReply replies)
          || rejected_reply (booksReply replies) = true ->
          pendingUsers s' = pendingUsers s
          /\ adminLinks s' = adminLinks s /\ books s' = books s)
      /\ (rejected_reply (usersReply replies)
          || rejected_reply (linksReply replies)
          || rejected_reply (booksReply replies) = false ->
          unreadable (usersReply replies)
          || unreadable (linksReply replies)
          || unreadable (booksReply replies) = false ->
          pendingUsers s'
          = match committed (usersReply replies) with
            | Some us => us
            | None => pendingUsers s
            end
          /\ adminLinks s'
             = match committed (linksReply replies) with
               | Some ls => ls
               | None => adminLinks s
               end
          /\ books s'
             = match committed (booksReply replies) with
               | Some (BooksArray rows) => map normalize rows
               | _ => books s
               end)).
Proof.
  intros s'. subst s'. unfold fetchAdminData, fetch_all, issued.
  run_handler.
  destruct (is_admin (user s)); simpl; split; try discriminate;
    try (intros _; now destruct s).
  intros _.
  destruct (usersReply replies) as [?|ru];
    destruct (linksReply replies) as [?|rl];
    destruct (booksReply replies) as [?|rb]; simpl;
    try (split; [calls_issued | split; [now repeat split | discriminate]]).
  destruct (ok ru), (payload ru); simpl;
    destruct (ok rl), (payload rl); simpl;
    destruct (ok rb); simpl;
    try (destruct (payload rb) as [|[| |]]; simpl);
    (split; [calls_issued
            | split; [discriminate
                     | intros _ Hread; try discriminate; now repeat split]]).
Qed.

Lemma fetchAdminData_commits_witness :
  let s := ClientSamples.admin_page ACADEMIC ClientSamples.academic_inputs in
  let replies :=
    {| usersReply := ClientSamples.http 500 NotJson;
       linksReply := ClientSamples.http 200 (Json []);
       booksReply := ClientSamples.http 200 (Json (BooksArray [])) |} in
  pendingUsers (exec (fetchAdminData replies) s)
  = [ClientSamples.ada; ClientSamples.ben]
  /\ adminLinks (exec (fetchAdminData replies) s) = []
  /\ books (exec (fetchAdminData replies) s) = [].
Proof.
  intros s replies.
  exact (proj2 (proj2 (proj2 (fetchAdminData_commits replies s) eq_refl))
               eq_refl eq_refl).
Defined.

(** *** What a run of the upload leaves on the page *)

Lemma fetchAdminData_frame (replies : AdminReplies) (s : State) :
  let s' := snd (fetchAdminData replies s) in
  fst (fetchAdminData replies s) = Normal tt
  /\ toast s' = toast s /\ loading s' = loading s
  /\ uploadProgress s' = uploadProgress s
  /\ formCategory s' = formCategory s /\ addBookForm s' = addBookForm s
  /\ pdfLabel s' = pdfLabel s.
Proof.
  unfold fetchAdminData, fetch_all. run_handler.
  destruct (is_admin (user s)); simpl; [|now repeat split].
  destruct (usersReply replies) as [?|ru];
    destruct (linksReply replies) as [?|rl];
    destruct (booksReply replies) as [?|rb]; simpl;
    try (now repeat split).
  destruct (ok ru), (payload ru); simpl;
    destruct (ok rl), (payload rl); simpl;
    destruct (ok rb); simpl;
    try (destruct (payload rb) as [|[| |]]; simpl);
    now repeat split.
Qed.

(** how a run of [handleAddBook] ends, for any form data *)
Lemma handleAddBook_ends
      (formData : FormData) (env : UploadReplies) (s : State) :
  let s' := exec (handleAddBook formData env) s in
  (falsy_entry (get formData "pdf_file") = true ->
     toast s' = Some {| message := "Please select a PDF file";
                        type := error |}
     /\ loading s' = loading s /\ uploadProgress s' = uploadProgress s
     /\ issued (handleAddBook formData env) s = [])
  /\ (falsy_entry (get formData "pdf_file") = false ->
        loading s' = false /\ uploadProgress s' = None)
  /\ (if all_phases_succeed formData env
      then toast s' = Some {| message := "Book added successfully!";
                              type := success |}
           /\ formCategory s' = ACADEMIC /\ addBookForm s' = blank_form
           /\ pdfLabel s' = "Select PDF from local storage"
      else toast_type (toast s') = Some error
           /\ formCategory s' = formCategory s
           /\ addBookForm s' = addBookForm s /\ pdfLabel s' = pdfLabel s).
Proof.
  intros s'. subst s'.
  unfold all_phases_succeed, handleAddBook, generateThumbnail,
    parse_or_throw, upload_error, upload_url, issued.
  run_handler.
  destruct (get formData "pdf_file") as [[t|pdf]|]; simpl.
  - destruct (JsString.truthy t); simpl.
    + split; [discriminate|]. split; [now split|]. now repeat split.
    + split; [|split; [discriminate|]]; repeat split. apply skipn_all.
  - split; [discriminate|].
    destruct (thumbnail env) as [[blob|]|e]; simpl;
      try (split; [now split | now repeat split]).
    destruct (pdfUpload env) as [e|r1]; simpl;
      try (split; [now split | now repeat split]).
    destruct (payload r1) as [|[|e1 u1]]; simpl;
      destruct (ok r1); simpl;
      try (split; [now split | now repeat split]).
    all: destruct (thumbUpload env) as [e|r2]; simpl;
      try (split; [now split | now repeat split]).
    all: destruct (payload r2) as [|[|e2 u2]]; simpl;
      destruct (ok r2); simpl;
      try (split; [now split | now repeat split]).
    all: destruct (saveRecord env) as [e|r3]; simpl;
      try (split; [now split | now repeat split]).
    all: destruct (payload r3) as [|d3]; simpl;
      try (split; [now split | now repeat split]).
    all: destruct (ok r3); simpl.
    all: try (destruct d3 as [|e3 u3]; simpl; split; now repeat split).
    all: match goal with
         | |- context [fetchAdminData ?r ?st] =>
             pose proof (fetchAdminData_frame r st) as Hframe;
             destruct (fetchAdminData r st) as [c st'] eqn:Hrun
         end;
      simpl in Hframe;
      destruct Hframe as [-> [Ht [_ [_ [Hc [Hf Hl]]]]]];
      simpl; rewrite Ht, Hc, Hf, Hl; now repeat split.
  - split; [|split; [discriminate|]]; repeat split. apply skipn_all.
Qed.

Lemma formData_of_pdf_file (c : BookCategory) (i : FormInputs) :
  exists f, get (formData_of c i) "pdf_file" = Some (Upload f).
Proof. destruct c; simpl; now eexists. Qed.

Lemma submitAddBookForm_runs (env : UploadReplies) (s : State) :
  exec (submitAddBookForm env) s
  = (if checkValidity (formCategory s) (addBookForm s)
     then exec (handleAddBook (formData_of (formCategory s) (addBookForm s))
                              env) s
     else s).
Proof.
  unfold submitAddBookForm, exec, bind, gets. simpl.
  now destruct (checkValidity (formCategory s) (addBookForm s)).
Qed.

(** X15: every submission of the "Add New Material" form ends with
    feedback and without a spinner.  While a required control is empty
    the browser raises no submit event: nothing changes and no call is
    issued.  The form data of a submission always has a file under
    [pdf_file] (the file input is required), so the handler's check
    "Please select a PDF file" is not met by any submission.  Whatever
    the outside answers, the loading flag is off and the progress text is
    cleared at the end.  The toast is a success toast exactly when all
    four phases succeeded; only then is the form reset (category back to
    academic, inputs blank, label back to its prompt); otherwise the toast
    is an error toast and the form keeps what was typed. *)
Theorem add_book_form_feedback (env : UploadReplies) (s : State) :
  let c := formCategory s in
  let i := addBookForm s in
  let s' := exec (submitAddBookForm env) s in
  (checkValidity c i = false ->
     s' = s /\ issued (submitAddBookForm env) s = [])
  /\ falsy_entry (get (formData_of c i) "pdf_file") = false
  /\ (checkValidity c i = true ->
        loading s' = false /\ uploadProgress s' = None
        /\ (if all_phases_succeed (formData_of c i) env
            then toast s' = Some {| message := "Book added successfully!";
                                    type := success |}
                 /\ formCategory s' = ACADEMIC
                 /\ addBookForm s' = blank_form
                 /\ pdfLabel s' = "Select PDF from local storage"
            else toast_type (toast s') = Some error
                 /\ formCategory s' = c
                 /\ addBookForm s' = i /\ pdfLabel s' = pdfLabel s)).
Proof.
  intros c i s'. subst c i s'.
  assert (Hfile : falsy_entry
                    (get (formData_of (formCategory s) (addBookForm s))
                         "pdf_file") = false).
  { destruct (formData_of_pdf_file (formCategory s) (addBookForm s))
      as [f ->]. reflexivity. }
  split; [|split; [exact Hfile|]].
  - intros Hinvalid. split.
    + now rewrite submitAddBookForm_runs, Hinvalid.
    + unfold issued. rewrite submitAddBookForm_runs, Hinvalid.
      apply skipn_all.
  - intros Hvalid. rewrite submitAddBookForm_runs, Hvalid.
    destruct (handleAddBook_ends
                (formData_of (formCategory s) (addBookForm s)) env s)
      as [_ [Hoff Hend]].
    destruct (Hoff Hfile) as [Hl Hp]. now repeat split.
Qed.

Lemma add_book_form_feedback_witness :
  let s := ClientSamples.admin_page ACADEMIC ClientSamples.academic_inputs in
  checkValidity (formCategory s) (addBookForm s) = true
  /\ addBookForm (exec (submitAddBookForm ClientSamples.all_well) s)
     = blank_form
  /\ addBookForm (exec (submitAddBookForm ClientSamples.pdf_rejected) s)
     = ClientSamples.academic_inputs
  /\ loading (exec (submitAddBookForm ClientSamples.pdf_rejected) s) = false
  /\ exec (submitAddBookForm ClientSamples.all_well)
          (ClientSamples.admin_page CHRISTIAN_NOVEL
                                    ClientSamples.academic_inputs)
     = ClientSamples.admin_page CHRISTIAN_NOVEL
                                ClientSamples.academic_inputs.
Proof.
  intros s.
  destruct (add_book_form_feedback ClientSamples.all_well s)
    as [_ [_ Hok]].
  destruct (add_book_form_feedback ClientSamples.pdf_rejected s)
    as [_ [_ Hko]].
  destruct (add_book_form_feedback
              ClientSamples.all_well
              (ClientSamples.admin_page CHRISTIAN_NOVEL
                                        ClientSamples.academic_inputs))
    as [Hinvalid _].
  destruct (Hok eq_refl) as [_ [_ Hdone]].
  destruct (Hko eq_refl) as [Hoff [_ Hkept]].
  split; [reflexivity|].
  split; [exact (proj1 (proj2 (proj2 Hdone)))|].
  split; [exact (proj1 (proj2 (proj2 Hkept)))|].
  split; [exact Hoff | exact (proj1 (Hinvalid eq_refl))].
Defined.

End ClientFacts.

(** ** The authentication routes *)

Module ServerFacts.
Import Server.

Lemma mem_In (x : string) (l : list string) : mem x l = true <-> In x l.
Proof.
  unfold mem. rewrite existsb_exists. split.
  - intros [y [Hy E]]. apply String.eqb_eq in E. now subst.
  - intros H. exists x. split; [exact H | apply String.eqb_refl].
Qed.

Lemma mem_false (x : string) (l : list string) :
  mem x l = false <-> ~ In x l.
Proof.
  rewrite <- mem_In. destruct (mem x l); split; congruence.
Qed.

Lemma filter_none {A} (p : A -> bool) (l : list A) :
  (forall x, In x l -> p x = false) -> filter p l = [].
Proof.
  induction l as [|a l IH]; simpl; intros H; [reflexivity|].
  rewrite (H a (or_introl eq_refl)). apply IH. intros x Hx. apply H. now right.
Qed.

(** under a uniqueness constraint on [key], a selection on that key
    (and anything more) returns the one row that satisfies it *)
Lemma select_unique {A} (key : A -> string) (p : A -> bool)
      (k : string) (rows : list A) (r : A) :
  NoDup (map key rows) -> In r rows -> key r = k -> p r = true ->
  filter (fun x => String.eqb (key x) k && p x) rows = [r].
Proof.
  induction rows as [|a rows IH]; simpl; intros Hnd Hin Hk Hp; [easy|].
  inversion Hnd as [|? ? Hnotin Hnd']; subst.
  destruct Hin as [->|Hin].
  - rewrite String.eqb_refl, Hp. simpl. f_equal.
    apply filter_none. intros x Hx.
    destruct (String.eqb_spec (key x) (key r)) as [E|]; [|reflexivity].
    exfalso. apply Hnotin. rewrite <- E. now apply in_map.
  - destruct (String.eqb_spec (key a) (key r)) as [E|]; simpl.
    + exfalso. apply Hnotin. rewrite E. now apply in_map.
    + now apply IH.
Qed.

Lemma single_Some {A} (rows : list A) (r : A) :
  single rows = Some r <-> rows = [r].
Proof.
  destruct rows as [|a [|b rest]]; simpl; split; intros H;
    try discriminate; now injection H as ->.
Qed.

Lemma credentials_iff (mail pw : string) (u : UserRow) :
  credentials mail pw u = true <-> email u = mail /\ password u = pw.
Proof. unfold credentials. now rewrite andb_true_iff, !String.eqb_eq. Qed.

Lemma login_selects (mail pw : string) (db : Store) (u : UserRow) :
  NoDup (map email (users db)) -> In u (users db) ->
  email u = mail -> password u = pw ->
  single (filter (credentials mail pw) (users db)) = Some u.
Proof.
  intros Hnd Hin He Hp. apply single_Some.
  apply (select_unique email (fun x => String.eqb (password x) pw));
    [exact Hnd | exact Hin | exact He | now apply String.eqb_eq].
Qed.

(** C2: on a store that meets its schema, login answers 200 exactly
    when some user row has the given email and password and is approved
    or an admin; without such a row it answers 401 "Invalid
    credentials"; with a matching row that is neither approved nor
    admin it answers 403 "Account pending approval"; on success the
    body is the projection id, email, name, isAdmin of that row; no
    answer has a password member. *)
Theorem login_decides (mail pw : string) (db : Store)
        (Hdb : well_formed db) :
  (status (login mail pw db) = 200 <->
   exists u, In u (users db) /\ email u = mail /\ password u = pw
             /\ (is_approved u = true \/ is_admin u = true))
  /\ ((forall u, In u (users db) -> ~ (email u = mail /\ password u = pw)) ->
      login mail pw db
      = {| status := 401; body := error_body "Invalid credentials" |})
  /\ (forall u, In u (users db) -> email u = mail -> password u = pw ->
                is_approved u = false -> is_admin u = false ->
      login mail pw db
      = {| status := 403; body := error_body "Account pending approval" |})
  /\ (forall u, In u (users db) -> email u = mail -> password u = pw ->
                is_approved u = true \/ is_admin u = true ->
      login mail pw db
      = {| status := 200;
           body := JObject
                     [("user",
                       JObject [("id", JString (user_id u));
                                ("email", JString (email u));
                                ("name", JString (name u));
                                ("isAdmin", JBool (is_admin u))])] |})
  /\ mentions_key "password" (body (login mail pw db)) = false.
Proof.
  destruct Hdb as [_ [Hmail _]].
  assert (Hok : forall u, In u (users db) -> email u = mail ->
                          password u = pw ->
                          is_approved u = true \/ is_admin u = true ->
            login mail pw db
            = {| status := 200;
                 body := JObject
                           [("user",
                             JObject [("id", JString (user_id u));
                                      ("email", JString (email u));
                                      ("name", JString (name u));
                                      ("isAdmin", JBool (is_admin u))])] |}).
  { intros u Hin He Hp Hgo. unfold login.
    rewrite (login_selects _ _ _ u) by assumption.
    destruct (is_approved u), (is_admin u); simpl; try reflexivity.
    destruct Hgo; discriminate. }
  split; [|split; [|split; [|split]]].
  - split.
    + unfold login.
      destruct (single (filter (credentials mail pw) (users db)))
        as [u|] eqn:E; [|discriminate].
      apply single_Some in E.
      assert (Hu : In u (filter (credentials mail pw) (users db)))
        by (rewrite E; now left).
      apply filter_In in Hu. destruct Hu as [Hin Hc].
      apply credentials_iff in Hc. destruct Hc as [He Hp].
      destruct (is_approved u) eqn:Ha; destruct (is_admin u) eqn:Hb; simpl;
        try discriminate; intros _; exists u; auto.
    + intros [u [Hin [He [Hp Hgo]]]]. now rewrite (Hok u).
  - intros Hnone. unfold login.
    rewrite filter_none; [reflexivity|].
    intros u Hu. destruct (credentials mail pw u) eqn:E; [|reflexivity].
    apply credentials_iff in E. now apply Hnone in Hu.
  - intros u Hin He Hp Ha Hb. unfold login.
    rewrite (login_selects _ _ _ u) by assumption. now rewrite Ha, Hb.
  - exact Hok.
  - unfold login.
    destruct (single _) as [u|]; [|reflexivity].
    destruct (negb (is_approved u) && negb (is_admin u)); reflexivity.
Qed.

Lemma well_formed_db0 : well_formed ServerSamples.db0.
Proof.
  unfold well_formed, ServerSamples.db0. simpl.
  repeat split; repeat constructor; simpl; intuition discriminate.
Defined.

Lemma login_decides_witness :
  well_formed ServerSamples.db0
  /\ status (login "admin@dlcf.org" "admin123" ServerSamples.db0) = 200
  /\ login "alice@example.org" "wonder" ServerSamples.db0
     = {| status := 403; body := error_body "Account pending approval" |}
  /\ mentions_key "password"
       (body (login "admin@dlcf.org" "admin123" ServerSamples.db0)) = false.
Proof.
  split; [exact well_formed_db0|].
  destruct (login_decides "admin@dlcf.org" "admin123" ServerSamples.db0
                          well_formed_db0) as [[_ Hyes] [_ [_ [_ Hkey]]]].
  destruct (login_decides "alice@example.org" "wonder" ServerSamples.db0
                          well_formed_db0) as [_ [_ [Hpending _]]].
  split; [|split].
  - apply Hyes. exists ServerSamples.admin_row. simpl. auto.
  - apply (Hpending ServerSamples.alice); simpl; auto.
  - exact Hkey.
Defined.

(** *** Registration *)

Lemma links_with_token_unique (t : string) (db : Store)
      (l : RegistrationLink) :
  NoDup (map token (registration_links db)) ->
  In l (registration_links db) -> token l = t ->
  links_with_token t db = [l].
Proof.
  intros Hnd Hin Ht. unfold links_with_token.
  rewrite <- (select_unique token (fun _ => true) t _ l Hnd Hin Ht eq_refl).
  apply filter_ext. intros x. now rewrite andb_true_r.
Qed.

Lemma register_no_link (now : Z) (uuid : string) (req : RegisterRequest)
      (db : Store) :
  (forall l, In l (registration_links db) -> token l <> req_token req) ->
  register now uuid req db = (rejected "Invalid registration link", db).
Proof.
  intros Hnone. unfold register, links_with_token.
  rewrite filter_none; [reflexivity|].
  intros l Hl. apply String.eqb_neq. now apply Hnone.
Qed.

Lemma register_expired (now : Z) (uuid : string) (req : RegisterRequest)
      (db : Store) (l : RegistrationLink) :
  In l (registration_links db) -> token l = req_token req ->
  (expires_at l < now)%Z ->
  status (fst (register now uuid req db)) = 400
  /\ snd (register now uuid req db) = db.
Proof.
  intros Hin Ht Hexp. unfold register.
  destruct (single (links_with_token (req_token req) db)) as [l'|] eqn:E;
    [|now split].
  apply single_Some in E.
  assert (l' = l) as ->.
  { assert (H : In l (links_with_token (req_token req) db)).
    { unfold links_with_token. apply filter_In. split; [exact Hin|].
      now apply String.eqb_eq. }
    rewrite E in H. destruct H as [H|[]]. exact H. }
  apply Z.ltb_lt in Hexp. rewrite Hexp. now split.
Qed.

Lemma token_gone (t : string) (db : Store) :
  links_with_token t (delete_links_by_token t db) = [].
Proof.
  unfold links_with_token, delete_links_by_token. simpl.
  apply filter_none. intros l Hl. apply filter_In in Hl.
  destruct Hl as [_ Hl]. now apply negb_true_iff in Hl.
Qed.

Lemma register_consumed (now : Z) (uuid : string) (req : RegisterRequest)
      (db : Store) :
  register now uuid req (delete_links_by_token (req_token req) db)
  = (rejected "Invalid registration link",
     delete_links_by_token (req_token req) db).
Proof. unfold register. now rewrite token_gone. Qed.

Lemma insert_user_accepts (row : UserRow) (db : Store) :
  ~ In (user_id row) (map user_id (users db)) ->
  ~ In (email row) (map email (users db)) ->
  insert_user row db
  = inr {| users := users db ++ [row];
           registration_links := registration_links db |}.
Proof.
  intros Hid Hmail. unfold insert_user.
  apply mem_false in Hid. apply mem_false in Hmail.
  now rewrite Hid, Hmail.
Qed.

Lemma insert_user_rejects (row : UserRow) (db : Store) :
  In (user_id row) (map user_id (users db)) \/
  In (email row) (map email (users db)) ->
  exists constraint_name,
    insert_user row db = inl (duplicate_key_message constraint_name).
Proof.
  intros H. unfold insert_user.
  assert (E : mem (user_id row) (map user_id (users db))
              || mem (email row) (map email (users db)) = true).
  { apply orb_true_iff. now rewrite !mem_In. }
  rewrite E. now eexists.
Qed.

Lemma register_store_rejects (now : Z) (uuid : string)
      (req : RegisterRequest) (db : Store) :
  In uuid (map user_id (users db)) \/
  In (req_email req) (map email (users db)) ->
  status (fst (register now uuid req db)) = 400
  /\ snd (register now uuid req db) = db.
Proof.
  intros H. unfold register.
  destruct (single _) as [l|]; [|now split].
  destruct (expires_at l <? now)%Z; [now split|].
  destruct (insert_user_rejects (new_user now uuid req) db H) as [c ->].
  now split.
Qed.

Lemma register_accepts (now : Z) (uuid : string) (req : RegisterRequest)
      (db : Store) (l : RegistrationLink) :
  NoDup (map token (registration_links db)) ->
  In l (registration_links db) -> token l = req_token req ->
  (now <= expires_at l)%Z ->
  ~ In uuid (map user_id (users db)) ->
  ~ In (req_email req) (map email (users db)) ->
  register now uuid req db
  = ({| status := 200; body := JObject [("success", JBool true)] |},
     {| users := users db ++ [new_user now uuid req];
        registration_links :=
          filter (fun x => negb (String.eqb (token x) (req_token req)))
                 (registration_links db) |}).
Proof.
  intros Hnd Hin Ht Hlive Hid Hmail. unfold register.
  rewrite (links_with_token_unique _ _ l Hnd Hin Ht). simpl.
  apply Z.ltb_ge in Hlive. rewrite Hlive.
  now rewrite insert_user_accepts.
Qed.

Lemma generated_link_expires (tz : LocalTZA) (T : Z) (tok lid : string)
      (db : Store) :
  status (fst (generate_link tz T tok lid db)) = 200 ->
  forall now uuid req,
    req_token req = tok ->
    (link_expiry tz T < now)%Z ->
    register now uuid req (snd (generate_link tz T tok lid db))
    = (rejected "Registration link expired",
       snd (generate_link tz T tok lid db)).
Proof.
  unfold generate_link, insert_link. simpl.
  destruct (mem lid (map l_id (registration_links db))); simpl;
    [discriminate|].
  destruct (mem tok (map token (registration_links db))) eqn:Hfresh; simpl;
    [discriminate|].
  intros _ now uuid req Ht Hlate. unfold register, links_with_token. simpl.
  rewrite filter_app, Ht. simpl. rewrite String.eqb_refl.
  rewrite filter_none.
  - simpl. apply Z.ltb_lt in Hlate. now rewrite Hlate.
  - intros x Hx. apply String.eqb_neq. intros E.
    apply mem_false in Hfresh. apply Hfresh. rewrite <- E. now apply in_map.
Qed.

(** when the local clock is not shifted between the generation and the
    local expiry date, the link expires 24 hours after it was generated *)
Lemma link_expiry_steady (tz : LocalTZA) (T : Z) :
  tz (LocalTime tz T + hours 24)%Z false = tz T true ->
  link_expiry tz T = (T + hours 24)%Z.
Proof. unfold link_expiry, UTC, LocalTime. intros ->. lia. Qed.

(** C1, as the code has it.  A registration whose token matches no
    link row, or whose matching link expired before now, is answered
    400 and changes nothing; a link generated at T is answered 400
    "Registration link expired" at every instant after its expiry, which
    is 24 hours later on the local clock of the server: at T + 25 hours
    when that clock is not shifted in between.  Otherwise, when the
    store accepts the new row (no user row has the same id or email),
    exactly one user row, neither approved nor admin, is added, the
    answer is success and the rows of the consumed token are deleted, so
    that a later registration with that token is answered 400; when the
    store refuses the row, the answer is 400 and nothing changes. *)
Theorem register_consumes_link
        (now : Z) (uuid : string) (req : RegisterRequest) (db : Store) :
  ((forall l, In l (registration_links db) -> token l <> req_token req) ->
     status (fst (register now uuid req db)) = 400
     /\ snd (register now uuid req db) = db)
  /\
  (forall l, In l (registration_links db) -> token l = req_token req ->
             (expires_at l < now)%Z ->
     status (fst (register now uuid req db)) = 400
     /\ snd (register now uuid req db) = db)
  /\
  (forall tz T tok lid db0,
      status (fst (generate_link tz T tok lid db0)) = 200 ->
      req_token req = tok ->
      (forall now', (link_expiry tz T < now')%Z ->
         fst (register now' uuid req
                       (snd (generate_link tz T tok lid db0)))
         = rejected "Registration link expired")
      /\ (tz (LocalTime tz T + hours 24)%Z false = tz T true ->
          fst (register (T + hours 25) uuid req
                        (snd (generate_link tz T tok lid db0)))
          = rejected "Registration link expired"))
  /\
  (forall l, well_formed db ->
             In l (registration_links db) -> token l = req_token req ->
             (now <= expires_at l)%Z ->
             ~ In uuid (map user_id (users db)) ->
             ~ In (req_email req) (map email (users db)) ->
     let row := new_user now uuid req in
     let db' := snd (register now uuid req db) in
     fst (register now uuid req db)
       = {| status := 200; body := JObject [("success", JBool true)] |}
     /\ users db' = users db ++ [row]
     /\ is_approved row = false /\ is_admin row = false
     /\ registration_links db'
        = filter (fun x => negb (String.eqb (token x) (req_token req)))
                 (registration_links db)
     /\ (forall x, In x (registration_links db') ->
                   token x <> req_token req)
     /\ (forall now' uuid' req',
            req_token req' = req_token req ->
            status (fst (register now' uuid' req' db')) = 400
            /\ snd (register now' uuid' req' db') = db'))
  /\
  (In uuid (map user_id (users db)) \/
   In (req_email req) (map email (users db)) ->
     status (fst (register now uuid req db)) = 400
     /\ snd (register now uuid req db) = db).
Proof.
  split; [|split; [|split; [|split]]].
  - intros Hnone. now rewrite register_no_link.
  - intros l. apply register_expired.
  - intros tz T tok lid db0 Hgen Ht.
    assert (Hlate : forall now', (link_expiry tz T < now')%Z ->
              fst (register now' uuid req
                            (snd (generate_link tz T tok lid db0)))
              = rejected "Registration link expired").
    { intros now' Hnow'.
      now rewrite (generated_link_expires tz T tok lid db0 Hgen
                                          now' uuid req Ht Hnow'). }
    split; [exact Hlate|].
    intros Hsteady. apply Hlate.
    rewrite (link_expiry_steady tz T Hsteady). unfold hours. lia.
  - intros l [_ [_ [_ Hnd]]] Hin Ht Hlive Hid Hmail row db'.
    subst row db'.
    rewrite (register_accepts now uuid req db l) by assumption. simpl.
    repeat split.
    + intros x Hx. apply filter_In in Hx. destruct Hx as [_ Hx].
      apply negb_true_iff in Hx. now apply String.eqb_neq.
    + pose proof (register_consumed
                    now' uuid' req'
                    {| users := users db ++ [new_user now uuid req];
                       registration_links := registration_links db |}) as R.
      rewrite H in R. unfold delete_links_by_token in R. simpl in R.
      now rewrite R.
    + pose proof (register_consumed
                    now' uuid' req'
                    {| users := users db ++ [new_user now uuid req];
                       registration_links := registration_links db |}) as R.
      rewrite H in R. unfold delete_links_by_token in R. simpl in R.
      now rewrite R.
  - apply register_store_rejects.
Qed.

Lemma register_consumes_link_witness :
  let req := ServerSamples.join "bob@example.org" in
  let db' := snd (register (hours 1) Ids.u9 req ServerSamples.db0) in
  status (fst (register (hours 1) Ids.u9 req ServerSamples.db0)) = 200
  /\ users db' = [ServerSamples.admin_row; ServerSamples.alice;
                  new_user (hours 1) Ids.u9 req]
  /\ registration_links db' = []
  /\ status (fst (register (hours 2) Ids.u10
                           (ServerSamples.join "carol@example.org") db'))
     = 400
  /\ fst (register (hours 5 + hours 25) Ids.u9 req
                   (snd (generate_link ServerSamples.utc (hours 5)
                                       "t-1" Ids.l7
                                       {| users := users ServerSamples.db0;
                                          registration_links := [] |})))
     = rejected "Registration link expired".
Proof.
  intros req db'.
  destruct (register_consumes_link (hours 1) Ids.u9 req ServerSamples.db0)
    as [_ [_ [Hlate [Hok _]]]].
  assert (Hexpired :
            fst (register (hours 5 + hours 25) Ids.u9 req
                   (snd (generate_link ServerSamples.utc (hours 5)
                                       "t-1" Ids.l7
                                       {| users := users ServerSamples.db0;
                                          registration_links := [] |})))
            = rejected "Registration link expired").
  { exact (proj2 (Hlate ServerSamples.utc (hours 5) "t-1"%string
                        Ids.l7
                        {| users := users ServerSamples.db0;
                           registration_links := [] |}
                        eq_refl eq_refl) eq_refl). }
  assert (Hid : ~ In Ids.u9
                  (map user_id (users ServerSamples.db0)))
    by (simpl; intuition discriminate).
  assert (Hmail : ~ In (req_email req)
                    (map email (users ServerSamples.db0)))
    by (simpl; intuition discriminate).
  assert (Hlive : (hours 1 <= expires_at ServerSamples.invite)%Z)
    by (vm_compute; discriminate).
  destruct (Hok ServerSamples.invite well_formed_db0
                (or_introl eq_refl) eq_refl Hlive Hid Hmail)
    as [Hres [Husers [_ [_ [Hlinks [_ Hreuse]]]]]].
  split; [now rewrite Hres|]. split; [exact Husers|].
  split; [exact Hlinks|]. split; [|exact Hexpired].
  exact (proj1 (Hreuse (hours 2) Ids.u10
                       (ServerSamples.join "carol@example.org") eq_refl)).
Defined.

(** C1 as stated fails: the token matches exactly one link, which has
    not expired, yet no user row is inserted and the link is kept,
    because the email is already registered. *)
Lemma register_known_email_keeps_link :
  let req := ServerSamples.join "alice@example.org" in
  links_with_token (req_token req) ServerSamples.db0
    = [ServerSamples.invite]
  /\ (expires_at ServerSamples.invite <? hours 1)%Z = false
  /\ status (fst (register (hours 1) Ids.u9 req ServerSamples.db0)) = 400
  /\ snd (register (hours 1) Ids.u9 req ServerSamples.db0)
     = ServerSamples.db0.
Proof. repeat split. Qed.

(** The expiry follows the local clock of the server.  Where the clocks
    are set back one hour within the day after the link was generated,
    the link expires 25 hours after it was generated, and a registration
    at that instant is accepted. *)
Lemma generated_link_after_clocks_set_back :
  let T := hours 10 in
  let db1 := snd (generate_link ServerSamples.clocks_back T "t-7" Ids.l7
                                ServerSamples.db0) in
  let req := {| req_email := "bob@example.org"; req_password := "pw";
                req_name := "Bob"; req_token := "t-7" |} in
  link_expiry ServerSamples.clocks_back T = (T + hours 25)%Z
  /\ status (fst (register (T + hours 25) Ids.u9 req db1)) = 200
  /\ links_with_token "t-7" (snd (register (T + hours 25) Ids.u9 req db1))
     = [].
Proof. repeat split. Qed.

(** the routes keep the store within its schema *)
Lemma NoDup_map_filter {A} (key : A -> string) (p : A -> bool)
      (l : list A) :
  NoDup (map key l) -> NoDup (map key (filter p l)).
Proof.
  induction l as [|a l IH]; simpl; intros H; [constructor|].
  inversion H as [|? ? Hnotin Hnd]; subst.
  destruct (p a); simpl; [|now apply IH].
  constructor; [|now apply IH].
  intros Hin. apply Hnotin. apply in_map_iff in Hin.
  destruct Hin as [x [E Hx]]. apply filter_In in Hx.
  rewrite <- E. apply in_map. tauto.
Qed.

Lemma NoDup_map_snoc {A} (key : A -> string) (l : list A) (a : A) :
  NoDup (map key l) -> ~ In (key a) (map key l) ->
  NoDup (map key (l ++ [a])).
Proof.
  intros Hnd Hnotin. rewrite map_app. simpl.
  apply NoDup_app; [exact Hnd | repeat constructor; intros [] |].
  intros x Hx [<-|[]]. now apply Hnotin.
Qed.

Lemma register_keeps_schema (now : Z) (uuid : string)
      (req : RegisterRequest) (db : Store) :
  well_formed db -> well_formed (snd (register now uuid req db)).
Proof.
  intros Hwf. unfold register.
  destruct (single _) as [l|]; [|exact Hwf].
  destruct (expires_at l <? now)%Z; [exact Hwf|].
  unfold insert_user.
  destruct (mem _ (map user_id _)) eqn:Hid; simpl; [exact Hwf|].
  destruct (mem _ (map email _)) eqn:Hmail; simpl; [exact Hwf|].
  destruct Hwf as [H1 [H2 [H3 H4]]]. unfold well_formed. simpl.
  apply mem_false in Hid. apply mem_false in Hmail.
  repeat split.
  - now apply NoDup_map_snoc.
  - now apply NoDup_map_snoc.
  - now apply NoDup_map_filter.
  - now apply NoDup_map_filter.
Qed.

Lemma generate_link_keeps_schema (tz : LocalTZA) (now : Z)
      (tok lid : string) (db : Store) :
  well_formed db -> well_formed (snd (generate_link tz now tok lid db)).
Proof.
  intros Hwf. unfold generate_link, insert_link. simpl.
  destruct (mem _ (map l_id _)) eqn:Hid; simpl; [exact Hwf|].
  destruct (mem _ (map token _)) eqn:Htok; simpl; [exact Hwf|].
  destruct Hwf as [H1 [H2 [H3 H4]]]. unfold well_formed. simpl.
  apply mem_false in Hid. apply mem_false in Htok.
  repeat split; try assumption; now apply NoDup_map_snoc.
Qed.

End ServerFacts.

(** ** The admin routes *)

Module RoutesFacts.
Import Server Routes ServerFacts.

(** *** The schema is kept *)

Lemma map_update_approved {B} (f : UserRow -> B) (userId : string)
      (rows : list UserRow) :
  (forall u, f (approve u) = f u) ->
  map f (map (fun u => if String.eqb (user_id u) userId
                       then approve u else u) rows)
  = map f rows.
Proof.
  intros Hf. rewrite map_map. apply map_ext. intros u.
  destruct (String.eqb (user_id u) userId); [apply Hf | reflexivity].
Qed.

Lemma approve_user_keeps_schema (p : Process) (accepted : bool)
      (userId : string) (db : Store) :
  well_formed db ->
  well_formed (snd (fst (approve_user p accepted userId db))).
Proof.
  intros Hwf. unfold approve_user.
  destruct (single _) as [u|]; [|exact Hwf].
  destruct Hwf as [H1 [H2 [H3 H4]]]. unfold well_formed. simpl.
  rewrite !map_update_approved by reflexivity. now repeat split.
Qed.

Lemma delete_link_keeps_schema (store_error : option string)
      (link_id : string) (db : Store) :
  well_formed db -> well_formed (snd (delete_link store_error link_id db)).
Proof.
  intros Hwf. destruct store_error as [msg|]; [exact Hwf|].
  destruct Hwf as [H1 [H2 [H3 H4]]]. unfold well_formed. simpl.
  repeat split; try assumption; now apply NoDup_map_filter.
Qed.

(** *** Invitation, registration, approval *)

Lemma generate_link_success (tz : LocalTZA) (T : Z) (tok lid : string)
      (db : Store) :
  status (fst (generate_link tz T tok lid db)) = 200 ->
  ~ In tok (map token (registration_links db))
  /\ snd (generate_link tz T tok lid db)
     = {| users := users db;
          registration_links :=
            registration_links db
              ++ [{| l_id := lid; token := tok;
                     expires_at := link_expiry tz T; created_at := T |}] |}.
Proof.
  unfold generate_link, insert_link. simpl.
  destruct (mem lid (map l_id (registration_links db))); simpl;
    [discriminate|].
  destruct (mem tok (map token (registration_links db))) eqn:Hfresh; simpl;
    [discriminate|].
  intros _. split; [now apply mem_false | reflexivity].
Qed.

Lemma filter_other_tokens (tok : string) (rows : list RegistrationLink) :
  ~ In tok (map token rows) ->
  filter (fun x => negb (String.eqb (token x) tok)) rows = rows
  /\ filter (fun x => String.eqb (token x) tok) rows = [].
Proof.
  induction rows as [|r rows IH]; simpl; intros Hfresh; [now split|].
  destruct (String.eqb_spec (token r) tok) as [E|E]; simpl.
  - exfalso. apply Hfresh. now left.
  - destruct IH as [IH1 IH2]; [tauto|]. now rewrite IH1, IH2.
Qed.

(** X2: a link that was just generated admits one registration up to
    and including the instant it expires, and none after it.  Up to that
    instant the user row is added and the link table is again what it was
    before the link was generated; after it the answer is 400
    "Registration link expired" and nothing changes.  The link expires 24
    hours later on the local clock of the server: 24 hours after it was
    generated when that clock is not shifted in between. *)
Theorem generated_link_registers
        (tz : LocalTZA)
        (T now : Z) (tok lid uuid : string) (req : RegisterRequest)
        (db : Store)
        (Hgen : status (fst (generate_link tz T tok lid db)) = 200)
        (Htok : req_token req = tok)
        (Hid : ~ In uuid (map user_id (users db)))
        (Hmail : ~ In (req_email req) (map email (users db))) :
  ((now <= link_expiry tz T)%Z ->
   register now uuid req (snd (generate_link tz T tok lid db))
   = ({| status := 200; body := JObject [("success", JBool true)] |},
      {| users := users db ++ [new_user now uuid req];
         registration_links := registration_links db |}))
  /\ ((link_expiry tz T < now)%Z ->
      register now uuid req (snd (generate_link tz T tok lid db))
      = (rejected "Registration link expired",
         snd (generate_link tz T tok lid db)))
  /\ (tz (LocalTime tz T + hours 24)%Z false = tz T true ->
      link_expiry tz T = (T + hours 24)%Z).
Proof.
  split; [|split].
  - intros Hlive.
    destruct (generate_link_success tz T tok lid db Hgen) as [Hfresh ->].
    destruct (filter_other_tokens tok _ Hfresh) as [Hkeep Hnone].
    unfold register, links_with_token. simpl.
    rewrite Htok, filter_app, Hnone. simpl. rewrite String.eqb_refl. simpl.
    apply Z.ltb_ge in Hlive. rewrite Hlive.
    rewrite insert_user_accepts by assumption.
    unfold delete_links_by_token. simpl.
    rewrite filter_app, Hkeep. simpl. rewrite String.eqb_refl. simpl.
    now rewrite app_nil_r.
  - intros Hlate. now apply generated_link_expires.
  - apply link_expiry_steady.
Qed.

Lemma generated_link_registers_witness :
  let tz := ServerSamples.clocks_forward in
  let T := hours 10 in
  let db1 := snd (generate_link tz T "t-7" Ids.l7 ServerSamples.db0) in
  let req := {| req_email := "bob@example.org"; req_password := "pw";
                req_name := "Bob"; req_token := "t-7" |} in
  link_expiry tz T = (T + hours 23)%Z
  /\ status (fst (register (T + hours 23) Ids.u9 req db1)) = 200
  /\ registration_links (snd (register (T + hours 23) Ids.u9 req db1))
     = [ServerSamples.invite]
  /\ fst (register (T + hours 23 + 1800000) Ids.u9 req db1)
     = rejected "Registration link expired"
  /\ link_expiry ServerSamples.utc T = (T + hours 24)%Z.
Proof.
  intros tz T db1 req.
  assert (Hid : ~ In Ids.u9 (map user_id (users ServerSamples.db0)))
    by (simpl; intuition discriminate).
  assert (Hmail : ~ In (req_email req) (map email (users ServerSamples.db0)))
    by (simpl; intuition discriminate).
  destruct (generated_link_registers
              tz T (T + hours 23) "t-7" Ids.l7 Ids.u9 req ServerSamples.db0
              eq_refl eq_refl Hid Hmail) as [Hlive _].
  destruct (generated_link_registers
              tz T (T + hours 23 + 1800000) "t-7" Ids.l7 Ids.u9 req
              ServerSamples.db0 eq_refl eq_refl Hid Hmail) as [_ [Hlate _]].
  destruct (generated_link_registers
              ServerSamples.utc T T "t-7" Ids.l7 Ids.u9 req
              ServerSamples.db0 eq_refl eq_refl Hid Hmail)
    as [_ [_ Hsteady]].
  assert (H1 : (T + hours 23 <= link_expiry tz T)%Z)
    by (vm_compute; discriminate).
  assert (H2 : (link_expiry tz T < T + hours 23 + 1800000)%Z)
    by (vm_compute; reflexivity).
  split; [reflexivity|].
  unfold db1. rewrite (Hlive H1), (Hlate H2).
  split; [reflexivity|]. split; [reflexivity|]. split; [reflexivity|].
  exact (Hsteady eq_refl).
Defined.

(** X7: registration cannot grant anything: whatever the request, the
    user table afterwards is the old one, followed by at most one row,
    and that row is neither approved nor an admin. *)
Theorem register_never_escalates
        (now : Z) (uuid : string) (req : RegisterRequest) (db : Store) :
  exists added,
    users (snd (register now uuid req db)) = users db ++ added
    /\ (added = [] \/ added = [new_user now uuid req])
    /\ Forall (fun u => is_admin u = false /\ is_approved u = false) added.
Proof.
  unfold register.
  destruct (single _) as [l|];
    [|exists []; rewrite app_nil_r; auto].
  destruct (expires_at l <? now)%Z;
    [exists []; rewrite app_nil_r; auto|].
  unfold insert_user.
  destruct (mem _ (map user_id _) || mem _ (map email _)); simpl.
  - exists []. rewrite app_nil_r. auto.
  - exists [new_user now uuid req]. repeat split; auto.
Qed.

Lemma register_success (now : Z) (uuid : string) (req : RegisterRequest)
      (db : Store) :
  status (fst (register now uuid req db)) = 200 ->
  snd (register now uuid req db)
  = {| users := users db ++ [new_user now uuid req];
       registration_links :=
         filter (fun x => negb (String.eqb (token x) (req_token req)))
                (registration_links db) |}.
Proof.
  unfold register.
  destruct (single _) as [l|]; [|discriminate].
  destruct (expires_at l <? now)%Z; [discriminate|].
  unfold insert_user.
  destruct (mem _ (map user_id _) || mem _ (map email _)); simpl;
    [discriminate | reflexivity].
Qed.

Lemma approve_user_selects (p : Process) (accepted : bool) (db : Store)
      (u : UserRow) :
  NoDup (map user_id (users db)) -> In u (users db) ->
  approve_user p accepted (user_id u) db
  = (Data tt, update_approved (user_id u) db,
     sendApprovalEmail p accepted (email u) (name u)).
Proof.
  intros Hnd Hin. unfold approve_user.
  assert (E : filter (fun x => String.eqb (user_id x) (user_id u)) (users db)
              = [u]).
  { rewrite <- (select_unique user_id (fun _ => true) (user_id u) _ u
                              Hnd Hin eq_refl eq_refl).
    apply filter_ext. intros x. now rewrite andb_true_r. }
  now rewrite E.
Qed.

Lemma In_update_approved (userId : string) (db : Store) (u : UserRow) :
  In u (users db) -> user_id u = userId ->
  In (approve u) (users (update_approved userId db)).
Proof.
  intros Hin Hid. unfold update_approved. simpl.
  apply in_map_iff. exists u. split; [|exact Hin].
  apply String.eqb_eq in Hid. now rewrite Hid.
Qed.

(** X3: a user who has just registered cannot log in until an admin
    approves the account: login with the registered email and password
    answers 403 "Account pending approval"; after the approval of that
    user id the same login answers 200 with the row's projection, not an
    admin. *)
Theorem registration_awaits_approval
        (now : Z) (uuid : string) (req : RegisterRequest) (db : Store)
        (p : Process) (accepted : bool)
        (Hdb : well_formed db)
        (Hreg : status (fst (register now uuid req db)) = 200) :
  let db1 := snd (register now uuid req db) in
  let db2 := snd (fst (approve_user p accepted uuid db1)) in
  login (req_email req) (req_password req) db1
  = {| status := 403; body := error_body "Account pending approval" |}
  /\ fst (fst (approve_user p accepted uuid db1)) = Data tt
  /\ login (req_email req) (req_password req) db2
     = {| status := 200;
          body := JObject
                    [("user",
                      JObject [("id", JString uuid);
                               ("email", JString (req_email req));
                               ("name", JString (req_name req));
                               ("isAdmin", JBool false)])] |}.
Proof.
  intros db1 db2.
  assert (Hwf1 : well_formed db1) by now apply register_keeps_schema.
  assert (Hin : In (new_user now uuid req) (users db1)).
  { unfold db1. rewrite (register_success _ _ _ _ Hreg). simpl.
    apply in_or_app. right. now left. }
  destruct Hwf1 as [Hids [Hmails _]].
  pose proof (approve_user_selects p accepted db1 _ Hids Hin) as Happ.
  simpl in Happ.
  assert (Hwf2 : well_formed db2)
    by (apply approve_user_keeps_schema; now apply register_keeps_schema).
  destruct Hwf2 as [_ [Hmails2 _]].
  split; [|split].
  - unfold login.
    rewrite (login_selects _ _ _ (new_user now uuid req)); auto.
  - now rewrite Happ.
  - unfold login.
    rewrite (login_selects _ _ _ (approve (new_user now uuid req))); auto.
    unfold db2. rewrite Happ. simpl.
    apply (In_update_approved uuid db1 (new_user now uuid req) Hin eq_refl).
Qed.

Lemma registration_awaits_approval_witness :
  let req := ServerSamples.join "bob@example.org" in
  let db1 := snd (register (hours 1) Ids.u9 req ServerSamples.db0) in
  let db2 := snd (fst (approve_user RouteSamples.configured true Ids.u9 db1)) in
  status (login "bob@example.org" "pw" db1) = 403
  /\ status (login "bob@example.org" "pw" db2) = 200.
Proof.
  intros req db1 db2.
  destruct (registration_awaits_approval
              (hours 1) Ids.u9 req ServerSamples.db0
              RouteSamples.configured true well_formed_db0 eq_refl)
    as [H1 [_ H2]].
  split; [exact (f_equal status H1) | exact (f_equal status H2)].
Defined.

(** *** The pending list and the approval *)

Lemma pending_after_update (userId : string) (rows : list UserRow) :
  map pending_row
      (filter is_pending
              (map (fun u => if String.eqb (user_id u) userId
                             then approve u else u) rows))
  = filter (fun r => negb (String.eqb (Client.pu_id r) userId))
           (map pending_row (filter is_pending rows)).
Proof.
  induction rows as [|u rows IH]; simpl; [reflexivity|].
  destruct (String.eqb (user_id u) userId) eqn:E.
  - replace (is_pending (approve u)) with false by reflexivity.
    destruct (is_pending u); simpl; [rewrite E; simpl|]; exact IH.
  - destruct (is_pending u); simpl; [rewrite E; simpl; f_equal|]; exact IH.
Qed.

Lemma approve_user_pending
      (p : Process) (accepted : bool) (userId : string) (db : Store) :
  match approve_user p accepted userId db with
  | (Data _, db', _) =>
      pending_users db'
      = Data (filter (fun r => negb (String.eqb (Client.pu_id r) userId))
                     (rows_of (pending_users db)))
  | (Failure code _, db', mails) => code = 500 /\ db' = db /\ mails = []
  end.
Proof.
  unfold approve_user.
  destruct (single _) as [u|]; [|now repeat split].
  unfold pending_users, update_approved. simpl.
  now rewrite pending_after_update.
Qed.

(** X4: after an approval the pending list is the former pending list
    without the rows of the approved id, in the same order; when the
    approval fails (no single row has the id) the answer is 500, the
    store is unchanged and no mail is sent. *)
Theorem approval_updates_pending_list
        (p : Process) (accepted : bool) (userId : string) (db : Store) :
  match approve_user p accepted userId db with
  | (Data _, db', _) =>
      pending_users db'
      = Data (filter (fun r => negb (String.eqb (Client.pu_id r) userId))
                     (rows_of (pending_users db)))
  | (Failure code _, db', mails) => code = 500 /\ db' = db /\ mails = []
  end.
Proof. apply approve_user_pending. Qed.

(** X5: on a store that meets its schema an approval succeeds exactly
    when a user row has the given id; neither the answer nor the store
    depends on the mail relay; at most one mail is produced, only when
    SMTP_HOST is set and the relay accepted it, addressed to the email of
    the approved row. *)
Theorem approval_ignores_mail
        (p : Process) (accepted : bool) (userId : string) (db : Store)
        (Hdb : well_formed db) :
  (fst (fst (approve_user p accepted userId db)) = Data tt <->
   exists u, In u (users db) /\ user_id u = userId)
  /\ (forall p' accepted',
         fst (approve_user p' accepted' userId db)
         = fst (approve_user p accepted userId db))
  /\ (forall m, In m (snd (approve_user p accepted userId db)) ->
         env_value (SMTP_HOST p) <> None /\ accepted = true
         /\ snd (approve_user p accepted userId db) = [m]
         /\ exists u, In u (users db) /\ user_id u = userId
                      /\ mail_to m = email u /\ mail_greets m = name u).
Proof.
  destruct Hdb as [Hids _].
  split; [|split].
  - split.
    + unfold approve_user.
      destruct (single _) as [u|] eqn:E; [|discriminate].
      intros _. apply single_Some in E.
      assert (Hu : In u (filter (fun x => String.eqb (user_id x) userId)
                                (users db))) by (rewrite E; now left).
      apply filter_In in Hu. destruct Hu as [Hin Hid].
      apply String.eqb_eq in Hid. now exists u.
    + intros [u [Hin <-]]. now rewrite approve_user_selects.
  - intros p' accepted'. unfold approve_user.
    now destruct (single _).
  - intros m. unfold approve_user.
    destruct (single _) as [u|] eqn:E; simpl; [|intros []].
    apply single_Some in E.
    assert (Hu : In u (filter (fun x => String.eqb (user_id x) userId)
                              (users db))) by (rewrite E; now left).
    apply filter_In in Hu. destruct Hu as [Hin Hid].
    apply String.eqb_eq in Hid.
    unfold sendApprovalEmail.
    destruct (env_value (SMTP_HOST p)); [|intros []].
    destruct accepted; [|intros []].
    intros [<-|[]]. repeat split; try discriminate.
    exists u. now repeat split.
Qed.

Lemma approval_ignores_mail_witness :
  fst (fst (approve_user RouteSamples.unconfigured false Ids.u1
                         ServerSamples.db0)) = Data tt
  /\ snd (approve_user RouteSamples.unconfigured false Ids.u1
                       ServerSamples.db0) = []
  /\ snd (approve_user RouteSamples.configured true Ids.u1 ServerSamples.db0)
     = [{| mail_to := "alice@example.org";
           mail_subject := "Account Approved - DLCF E-Library";
           mail_greets := "Alice" |}].
Proof.
  destruct (approval_ignores_mail RouteSamples.unconfigured false Ids.u1
                                  ServerSamples.db0 well_formed_db0)
    as [[_ Hyes] _].
  split; [|split; reflexivity].
  apply Hyes. exists ServerSamples.alice. split; [simpl; auto | reflexivity].
Defined.

(** *** Revoking a link *)

Lemma filter_all {A} (keep : A -> bool) (l : list A) :
  (forall x, In x l -> keep x = true) -> filter keep l = l.
Proof.
  induction l as [|a l IH]; simpl; intros H; [reflexivity|].
  rewrite (H a (or_introl eq_refl)). f_equal. apply IH.
  intros x Hx. apply H. now right.
Qed.

(** X6: when the store carries out the deletion, revoking answers
    success and, on a store that meets its schema, the token of the
    revoked link no longer registers anyone (400 "Invalid registration
    link", nothing changes), the links of other ids stay, and revoking an
    id that no link has changes nothing.  When the store reports an error
    (as it does for an id that is not a UUID), revoking answers 500 with
    the message of that error and the store is unchanged, so that the
    link still registers a new user. *)
Theorem revoked_link_is_rejected
        (l : RegistrationLink) (db : Store)
        (Hdb : well_formed db) (Hin : In l (registration_links db)) :
  let db' := snd (delete_link None (l_id l) db) in
  fst (delete_link None (l_id l) db) = Data tt
  /\ (forall now uuid req,
         req_token req = token l ->
         register now uuid req db'
         = (rejected "Invalid registration link", db'))
  /\ (forall other, In other (registration_links db) ->
                    l_id other <> l_id l ->
                    In other (registration_links db'))
  /\ (forall unknown,
         ~ In unknown (map l_id (registration_links db)) ->
         delete_link None unknown db = (Data tt, db))
  /\ (forall msg link_id,
         delete_link (Some msg) link_id db = (Failure 500 msg, db))
  /\ (forall msg link_id now uuid req,
         req_token req = token l ->
         (now <= expires_at l)%Z ->
         ~ In uuid (map user_id (users db)) ->
         ~ In (req_email req) (map email (users db)) ->
         status (fst (register now uuid req
                               (snd (delete_link (Some msg) link_id db))))
         = 200).
Proof.
  destruct Hdb as [_ [_ [_ Htokens]]].
  split; [reflexivity|]. split; [|split; [|split; [|split]]].
  - intros now uuid req Ht. apply register_no_link.
    intros x Hx. simpl in Hx. apply filter_In in Hx.
    destruct Hx as [Hx Hid]. apply negb_true_iff, String.eqb_neq in Hid.
    rewrite Ht. intros E. apply Hid.
    assert (x = l) as ->; [|reflexivity].
    pose proof (links_with_token_unique (token l) db l Htokens Hin eq_refl)
      as Hone.
    assert (Hx' : In x (links_with_token (token l) db)).
    { unfold links_with_token. apply filter_In. split; [exact Hx|].
      now apply String.eqb_eq. }
    rewrite Hone in Hx'. destruct Hx' as [Hx'|[]]. now symmetry.
  - intros other Ho Hne. simpl. apply filter_In. split; [exact Ho|].
    now apply negb_true_iff, String.eqb_neq.
  - intros unknown Hun. unfold delete_link. f_equal.
    rewrite filter_all; [now destruct db|].
    intros x Hx. apply negb_true_iff, String.eqb_neq. intros E.
    apply Hun. rewrite <- E. now apply in_map.
  - reflexivity.
  - intros msg link_id now uuid req Ht Hlive Hid Hmail. simpl.
    now rewrite (register_accepts now uuid req db l Htokens Hin
                                  (eq_sym Ht) Hlive Hid Hmail).
Qed.

Lemma revoked_link_is_rejected_witness :
  let db' := snd (delete_link None Ids.l1 RouteSamples.db1) in
  let bob := ServerSamples.join "bob@example.org" in
  status (fst (register (hours 1) Ids.u9 bob RouteSamples.db1)) = 200
  /\ fst (register (hours 1) Ids.u9 bob db')
     = rejected "Invalid registration link"
  /\ In RouteSamples.older_invite (registration_links db')
  /\ delete_link (Some RouteSamples.not_a_uuid) "l1" RouteSamples.db1
     = (Failure 500 RouteSamples.not_a_uuid, RouteSamples.db1)
  /\ status (fst (register
                    (hours 1) Ids.u9 bob
                    (snd (delete_link (Some RouteSamples.not_a_uuid) "l1"
                                      RouteSamples.db1)))) = 200.
Proof.
  intros db' bob.
  assert (Hwf : well_formed RouteSamples.db1).
  { unfold well_formed, RouteSamples.db1. simpl.
    repeat split; repeat constructor; simpl; intuition discriminate. }
  assert (Hin : In ServerSamples.invite
                   (registration_links RouteSamples.db1))
    by (simpl; auto).
  destruct (revoked_link_is_rejected ServerSamples.invite RouteSamples.db1
                                     Hwf Hin)
    as [_ [Hrej [Hkeep [_ [Hfail Hstill]]]]].
  split; [reflexivity|]. split; [|split; [|split]].
  - exact (f_equal fst (Hrej (hours 1) Ids.u9 bob eq_refl)).
  - apply Hkeep; [simpl; auto | discriminate].
  - apply Hfail.
  - apply Hstill; [reflexivity | vm_compute; discriminate | |];
      simpl; intuition discriminate.
Defined.

(** *** The listings *)

Section NewestFirst.
Context {A : Type} (created : A -> Z).

Lemma insert_newest_perm (x : A) (l : list A) :
  Permutation (insert_newest created x l) (x :: l).
Proof.
  induction l as [|y l IH]; simpl; [reflexivity|].
  destruct (created y <=? created x)%Z; [reflexivity|].
  rewrite IH. apply perm_swap.
Qed.

Lemma newest_first_perm (l : list A) :
  Permutation (newest_first created l) l.
Proof.
  induction l as [|x l IH]; simpl; [reflexivity|].
  rewrite insert_newest_perm. now apply perm_skip.
Qed.

Lemma insert_newest_sorted (x : A) (l : list A) :
  StronglySorted (newer_or_same created) l ->
  StronglySorted (newer_or_same created) (insert_newest created x l).
Proof.
  induction 1 as [|y l Hl IH Hy]; simpl.
  - repeat constructor.
  - destruct (created y <=? created x)%Z eqn:E.
    + apply Z.leb_le in E. constructor; [now constructor|].
      constructor; [exact E|].
      rewrite Forall_forall in *. intros z Hz.
      unfold newer_or_same in *. specialize (Hy z Hz). lia.
    + apply Z.leb_gt in E. constructor; [exact IH|].
      rewrite Forall_forall in *. intros z Hz.
      pose proof (Permutation_in _ (insert_newest_perm x l) Hz) as Hz'.
      destruct Hz' as [<-|Hz']; [unfold newer_or_same; lia | now apply Hy].
Qed.

Lemma newest_first_sorted (l : list A) :
  StronglySorted (newer_or_same created) (newest_first created l).
Proof.
  induction l as [|x l IH]; simpl; [constructor|].
  now apply insert_newest_sorted.
Qed.

Lemma insert_newest_front (x : A) (l : list A) :
  Forall (fun y => (created y <= created x)%Z) l ->
  insert_newest created x l = x :: l.
Proof.
  destruct l as [|y l]; simpl; [reflexivity|].
  intros H. inversion H as [|? ? Hy _]; subst.
  apply Z.leb_le in Hy. now rewrite Hy.
Qed.

Lemma filter_insert_newest (keep : A -> bool) (x : A) (l : list A) :
  StronglySorted (newer_or_same created) l ->
  filter keep (insert_newest created x l)
  = if keep x then insert_newest created x (filter keep l)
    else filter keep l.
Proof.
  induction 1 as [|y l Hl IH Hy]; simpl.
  - now destruct (keep x).
  - destruct (created y <=? created x)%Z eqn:E; simpl.
    + destruct (keep x); [|reflexivity].
      destruct (keep y); simpl; [now rewrite E|].
      symmetry. apply insert_newest_front.
      apply Z.leb_le in E. rewrite Forall_forall in *. intros z Hz.
      apply filter_In in Hz. destruct Hz as [Hz _].
      specialize (Hy z Hz). unfold newer_or_same in Hy. lia.
    + rewrite IH. destruct (keep y), (keep x); simpl;
        now rewrite ?E.
Qed.

Lemma newest_first_filter (keep : A -> bool) (l : list A) :
  newest_first created (filter keep l)
  = filter keep (newest_first created l).
Proof.
  induction l as [|x l IH]; simpl; [reflexivity|].
  rewrite filter_insert_newest by apply newest_first_sorted.
  destruct (keep x); simpl; now rewrite IH.
Qed.

End NewestFirst.

Lemma api_books_with_client
      (createClient : string -> string -> string + (string * string))
      (p : Process) (c : string * string) (table : list StoredBook) :
  fst (getSupabase createClient p) = inr c ->
  fst (api_books createClient p table)
  = Data (map book_row (newest_first book_created_at table)).
Proof.
  unfold api_books.
  destruct (getSupabase createClient p) as [[msg|c'] p']; simpl;
    [discriminate | reflexivity].
Qed.

(** X9: the link listing and, with a store client, the book listing
    answer with every row of the table exactly once, newest first: no row
    is older than a row listed after it. *)
Theorem listings_are_newest_first
        (createClient : string -> string -> string + (string * string))
        (db : Store) (p : Process) (c : string * string)
        (table : list StoredBook)
        (Hclient : fst (getSupabase createClient p) = inr c) :
  (exists rows,
      links db = Data rows
      /\ Permutation rows (registration_links db)
      /\ StronglySorted (newer_or_same created_at) rows)
  /\ (exists sorted,
         fst (api_books createClient p table) = Data (map book_row sorted)
         /\ Permutation sorted table
         /\ StronglySorted (newer_or_same book_created_at) sorted).
Proof.
  split.
  - exists (newest_first created_at (registration_links db)).
    split; [reflexivity|].
    split; [apply newest_first_perm | apply newest_first_sorted].
  - exists (newest_first book_created_at table).
    split; [now apply api_books_with_client with c|].
    split; [apply newest_first_perm | apply newest_first_sorted].
Qed.

Lemma listings_are_newest_first_witness :
  links RouteSamples.db1
  = Data [ServerSamples.invite; RouteSamples.older_invite]
  /\ exists rows,
      links RouteSamples.db1 = Data rows
      /\ StronglySorted (newer_or_same created_at) rows.
Proof.
  split; [reflexivity|].
  destruct (listings_are_newest_first
              RouteSamples.createClient
              RouteSamples.db1 RouteSamples.configured
              ("https://project.supabase.co", "anon-key")%string []
              eq_refl) as [[rows [E [_ Hs]]] _].
  now exists rows.
Defined.

Lemma filter_map_book_row (book_id : string) (l : list StoredBook) :
  map book_row
      (filter (fun b => negb (String.eqb (Client.r_id (book_row b)) book_id))
              l)
  = filter (fun r => negb (String.eqb (Client.r_id r) book_id))
           (map book_row l).
Proof.
  induction l as [|b l IH]; simpl; [reflexivity|].
  destruct (negb (String.eqb (Client.r_id (book_row b)) book_id)); simpl;
    now rewrite IH.
Qed.

Lemma links_after_delete (target : string) (db : Store) :
  links (snd (delete_link None target db))
  = Data (filter (fun l => negb (String.eqb (l_id l) target))
                 (rows_of (links db))).
Proof.
  unfold links, delete_link. simpl. now rewrite newest_first_filter.
Qed.

Lemma books_after_delete
      (createClient : string -> string -> string + (string * string))
      (target : string) (p : Process)
      (c : string * string) (table : list StoredBook) :
  fst (getSupabase createClient p) = inr c ->
  fst (api_books createClient p (snd (delete_book None target table)))
  = Data (filter (fun r => negb (String.eqb (Client.r_id r) target))
                 (rows_of (fst (api_books createClient p table)))).
Proof.
  intros Hclient.
  rewrite !(api_books_with_client createClient p c) by exact Hclient.
  unfold delete_book. simpl.
  now rewrite newest_first_filter, filter_map_book_row.
Qed.

(** a listing without the rows of an id that no row has is the listing *)
Lemma links_without_absent (target : string) (db : Store) :
  ~ In target (map l_id (registration_links db)) ->
  links db
  = Data (filter (fun l => negb (String.eqb (l_id l) target))
                 (rows_of (links db))).
Proof.
  intros Habsent. unfold links. simpl. rewrite filter_all; [reflexivity|].
  intros x Hx. apply negb_true_iff, String.eqb_neq. intros E.
  apply Habsent. rewrite <- E. apply in_map.
  exact (Permutation_in _ (newest_first_perm created_at _) Hx).
Qed.

Lemma books_without_absent
      (createClient : string -> string -> string + (string * string))
      (target : string) (p : Process)
      (c : string * string) (table : list StoredBook) :
  fst (getSupabase createClient p) = inr c ->
  ~ In target (map (fun b => Client.r_id (book_row b)) table) ->
  fst (api_books createClient p table)
  = Data (filter (fun r => negb (String.eqb (Client.r_id r) target))
                 (rows_of (fst (api_books createClient p table)))).
Proof.
  intros Hclient Habsent.
  rewrite !(api_books_with_client createClient p c) by exact Hclient.
  simpl. rewrite filter_all; [reflexivity|].
  intros r Hr. apply negb_true_iff, String.eqb_neq. intros E.
  apply Habsent. apply in_map_iff in Hr. destruct Hr as [b [<- Hb]].
  rewrite <- E. apply (in_map (fun b => Client.r_id (book_row b))).
  exact (Permutation_in _ (newest_first_perm book_created_at _) Hb).
Qed.



(** *** The store client *)

Lemma getSupabase_missing
      (createClient : string -> string -> string + (string * string))
      (p : Process) :
  supabaseClient p = None ->
  env_value (SUPABASE_URL p) = None \/
  env_value (SUPABASE_ANON_KEY p) = None ->
  getSupabase createClient p = (inl missing_config_message, p).
Proof.
  intros Hc Hm. unfold getSupabase. rewrite Hc.
  destruct Hm as [-> | ->]; [reflexivity|].
  now destruct (env_value (SUPABASE_URL p)).
Qed.

(** X8: while no client exists and SUPABASE_URL or SUPABASE_ANON_KEY is
    missing or empty, login and the book listing answer 500 and
    registration answers 400, each with the message that names both
    variables, and neither the store nor the process changes; the client
    fed with that book answer shows the demo catalog under the
    "Database not configured" banner. *)
Theorem missing_config_is_reported
        (createClient : string -> string -> string + (string * string))
        (p : Process)
        (Hnone : supabaseClient p = None)
        (Hmiss : env_value (SUPABASE_URL p) = None \/
                 env_value (SUPABASE_ANON_KEY p) = None) :
  (forall mail pw db,
      api_auth_login createClient p mail pw db
      = ({| status := 500; body := error_body missing_config_message |}, p))
  /\ (forall now uuid req db,
         api_auth_register createClient p now uuid req db
         = (rejected missing_config_message, db, p))
  /\ (forall table,
         api_books createClient p table
         = (Failure 500 missing_config_message, p))
  /\ (forall table demo s,
         let s' := Client.exec
                     (Client.fetchBooks
                        demo
                        (books_response
                           (fst (api_books createClient p table)))) s in
         Client.books s' = demo
         /\ Client.dbError s' = Some Client.db_banner).
Proof.
  pose proof (getSupabase_missing createClient p Hnone Hmiss) as E.
  split; [|split; [|split]].
  - intros. unfold api_auth_login. now rewrite E.
  - intros. unfold api_auth_register. now rewrite E.
  - intros. unfold api_books. now rewrite E.
  - intros table demo s. unfold api_books. rewrite E. split; reflexivity.
Qed.

Lemma missing_config_is_reported_witness :
  fst (api_books RouteSamples.createClient RouteSamples.unconfigured [])
  = Failure 500 missing_config_message
  /\ Client.dbError
       (Client.exec
          (Client.fetchBooks
             ClientSamples.demo_catalog
             (books_response
                (fst (api_books RouteSamples.createClient
                                RouteSamples.unconfigured []))))
          (ClientSamples.admin_page ACADEMIC ClientSamples.academic_inputs))
     = Some Client.db_banner.
Proof.
  destruct (missing_config_is_reported RouteSamples.createClient
                                       RouteSamples.unconfigured
                                       eq_refl (or_introl eq_refl))
    as [_ [_ [Hb Hclient]]].
  split.
  - now rewrite Hb.
  - exact (proj2 (Hclient [] ClientSamples.demo_catalog
                          (ClientSamples.admin_page
                             ACADEMIC ClientSamples.academic_inputs))).
Defined.

(** X11: the server creates its store client once.  On a process without
    a client whose two variables are set, the first call hands both
    values to createClient.  When createClient returns a client, the call
    answers with it and the process keeps it: every later call answers
    with that same client and leaves the process alone, whatever
    createClient would do then and even when the variables are changed or
    removed afterwards.  When createClient throws (as it does for a text
    that is not an http or https URL), the call throws that error, the
    process keeps no client, and the routes answer with the message:
    login and the book listing with 500, registration with 400, the store
    unchanged. *)
Theorem store_client_is_cached
        (createClient : string -> string -> string + (string * string))
        (p : Process) (u k : string)
        (Hnone : supabaseClient p = None)
        (Hurl : env_value (SUPABASE_URL p) = Some u)
        (Hkey : env_value (SUPABASE_ANON_KEY p) = Some k) :
  (forall client,
      createClient u k = inr client ->
      fst (getSupabase createClient p) = inr client
      /\ supabaseClient (snd (getSupabase createClient p)) = Some client
      /\ (forall createClient' url' key' smtp',
             let later := {| SUPABASE_URL := url';
                             SUPABASE_ANON_KEY := key';
                             SMTP_HOST := smtp';
                             supabaseClient :=
                               supabaseClient
                                 (snd (getSupabase createClient p)) |} in
             getSupabase createClient' later = (inr client, later)))
  /\ (forall err,
         createClient u k = inl err ->
         getSupabase createClient p = (inl err, p)
         /\ (forall mail pw db,
                api_auth_login createClient p mail pw db
                = ({| status := 500; body := error_body err |}, p))
         /\ (forall now uuid req db,
                api_auth_register createClient p now uuid req db
                = (rejected (message_or err "Registration failed"), db, p))
         /\ (forall table,
                api_books createClient p table = (Failure 500 err, p))).
Proof.
  split.
  - intros client Hmade. unfold getSupabase.
    rewrite Hnone, Hurl, Hkey, Hmade. simpl. now repeat split.
  - intros err Hthrown.
    assert (E : getSupabase createClient p = (inl err, p)).
    { unfold getSupabase. now rewrite Hnone, Hurl, Hkey, Hthrown. }
    split; [exact E|]. split; [|split].
    + intros. unfold api_auth_login. now rewrite E.
    + intros. unfold api_auth_register. now rewrite E.
    + intros. unfold api_books. now rewrite E.
Qed.

Lemma store_client_is_cached_witness :
  fst (getSupabase RouteSamples.createClient RouteSamples.configured)
  = inr ("https://project.supabase.co", "anon-key")%string
  /\ fst (getSupabase
            (fun _ _ => inl "not called"%string)
            {| SUPABASE_URL := None; SUPABASE_ANON_KEY := None;
               SMTP_HOST := None;
               supabaseClient :=
                 supabaseClient
                   (snd (getSupabase RouteSamples.createClient
                                     RouteSamples.configured)) |})
     = inr ("https://project.supabase.co", "anon-key")%string
  /\ getSupabase RouteSamples.createClient RouteSamples.misconfigured
     = (inl "Invalid supabaseUrl: Must be a valid HTTP or HTTPS URL."%string,
        RouteSamples.misconfigured)
  /\ fst (api_books RouteSamples.createClient RouteSamples.misconfigured [])
     = Failure 500
               "Invalid supabaseUrl: Must be a valid HTTP or HTTPS URL.".
Proof.
  destruct (store_client_is_cached
              RouteSamples.createClient RouteSamples.configured
              "https://project.supabase.co" "anon-key"
              eq_refl eq_refl eq_refl) as [Hmade _].
  destruct (Hmade ("https://project.supabase.co", "anon-key")%string eq_refl)
    as [H1 [_ H3]].
  destruct (store_client_is_cached
              RouteSamples.createClient RouteSamples.misconfigured
              "project" "anon-key"
              eq_refl eq_refl eq_refl) as [_ Hthrown].
  destruct (Hthrown
              "Invalid supabaseUrl: Must be a valid HTTP or HTTPS URL."%string
              eq_refl) as [H4 [_ [_ H5]]].
  split; [exact H1|]. split; [|split].
  - exact (f_equal fst (H3 (fun _ _ => inl "not called"%string)
                           None None None)).
  - exact H4.
  - now rewrite H5.
Defined.

End RoutesFacts.

(** ** The client against the routes *)

Module FlowFacts.
Import Server Routes Client Outcomes.

Lemma removal_outcome {A} (target : string) (reply : FetchOutcome A)
      (s : State) :
  pendingUsers (exec (approveUser target reply) s)
  = (if fetch_failed reply then pendingUsers s
     else filter (fun u => negb (String.eqb (pu_id u) target))
                 (pendingUsers s))
  /\ adminLinks (exec (deleteLink target true reply) s)
     = (if fetch_failed reply then adminLinks s
        else filter (fun l => negb (String.eqb (l_id l) target))
                    (adminLinks s))
  /\ books (exec (deleteBook target true reply) s)
     = (if fetch_failed reply then books s
        else filter (fun b => negb (String.eqb (id b) target)) (books s)).
Proof.
  unfold approveUser, deleteLink, deleteBook. ClientFacts.run_handler.
  destruct reply as [e|res]; simpl; [now repeat split|].
  destruct (ok res); simpl; now repeat split.
Qed.

Lemma filter_map_normalize (target : string) (rows : list BookRow) :
  filter (fun b => negb (String.eqb (id b) target)) (map normalize rows)
  = map normalize
        (filter (fun r => negb (String.eqb (r_id r) target)) rows).
Proof.
  induction rows as [|r rows IH]; simpl; [reflexivity|].
  destruct (negb (String.eqb (r_id r) target)); simpl; now rewrite IH.
Qed.



End FlowFacts.

(** ** Views and sessions *)

Module NavigationFacts.
Import Client Navigation.

Lemma in_view_eq (v : View) (p : Page) :
  in_view v p = true <-> view p = v.
Proof. unfold in_view. destruct (view p), v; split; congruence. Qed.

Ltac settle_views :=
  unfold consistent, main_layout, sign_out, in_view in *; simpl in *;
  repeat match goal with
         | |- context [view ?p] => destruct (view p)
         | H : context [view ?p] |- _ => destruct (view p)
         end;
  simpl in *; intuition congruence.

(** a control: the cases of the view and of the conditions it is
    rendered under *)
Ltac settle_forms p :=
  unfold main_layout, in_view, sign_out in *; simpl in *;
  destruct (view p) eqn:Hview; simpl in *;
  repeat match goal with
         | |- context [if ?c then _ else _] =>
             destruct c; simpl in *
         end;
  rewrite ?Hview; simpl; intuition congruence.

(** *** What the views presuppose *)

Lemma handleLogin_resumes_consistent
      (reply : FetchOutcome AuthJson) (p : Page) :
  carries_user reply = true -> consistent p ->
  consistent (handleLogin_resumes reply p).
Proof.
  intros Hc Hp. unfold handleLogin_resumes.
  destruct reply as [e|res]; simpl; [exact Hp|].
  destruct (Nat.eqb (status res) 404); simpl; [exact Hp|].
  unfold carries_user in Hc. simpl in Hc.
  destruct (payload res) as [|[|e [u|]]]; simpl;
    destruct (ok res); simpl; try exact Hp; try discriminate.
  destruct Hp as [H1 [H2 H3]].
  unfold consistent, main_layout. simpl.
  destruct (isAdmin u) eqn:Ha; simpl; rewrite ?Ha;
    repeat split; congruence.
Qed.

Lemma handleRegister_resumes_consistent
      (reply : FetchOutcome AuthJson) (p : Page) :
  consistent p -> consistent (handleRegister_resumes reply p).
Proof.
  intros Hp. unfold handleRegister_resumes.
  destruct reply as [e|res]; simpl; [exact Hp|].
  destruct (payload res) as [|[|e u]]; simpl;
    destruct (ok res); simpl; try exact Hp;
    unfold consistent, main_layout; simpl; repeat split; congruence.
Qed.

Lemma step_consistent (e : Event) (p : Page) :
  login_answer_carries_user e = true ->
  consistent p -> consistent (step e p).
Proof.
  intros He Hp. destruct e; unfold step.
  - destruct (in_view view_login p) eqn:Hin; exact Hp.
  - destruct (awaiting_login p) as [|n]; [exact Hp|].
    apply handleLogin_resumes_consistent; [exact He | exact Hp].
  - destruct (in_view view_register p) eqn:Hin; exact Hp.
  - destruct (awaiting_register p) as [|n]; [exact Hp|].
    apply handleRegister_resumes_consistent. exact Hp.
  - destruct (toast_timers p) as [|n]; exact Hp.
  - destruct (in_view view_register p) eqn:Hin; [|exact Hp]. settle_views.
  - destruct (main_layout p) eqn:Hm; [exact Hp|]. settle_views.
  - destruct (main_layout p) eqn:Hm; [|exact Hp]. settle_views.
  - destruct (main_layout p && isNavOpen p) eqn:Hm; [|exact Hp].
    settle_views.
  - destruct (in_view view_library p) eqn:Hin; [|exact Hp]. settle_views.
  - destruct (in_view view_library p) eqn:Hin; [|exact Hp]. settle_views.
  - destruct (main_layout p && is_admin (user p)) eqn:Hm; [|exact Hp].
    apply andb_true_iff in Hm. destruct Hm as [Hm Ha].
    destruct (in_view view_admin p) eqn:Hin; settle_views.
  - destruct (main_layout p) eqn:Hm; [|exact Hp]. settle_views.
  - destruct (main_layout p && isNavOpen p) eqn:Hm; [|exact Hp].
    apply andb_true_iff in Hm. destruct Hm as [Hm _]. settle_views.
  - destruct (main_layout p && isNavOpen p && is_admin (user p)) eqn:Hm;
      [|exact Hp].
    apply andb_true_iff in Hm. destruct Hm as [Hm Ha].
    apply andb_true_iff in Hm. destruct Hm as [Hm _]. settle_views.
  - destruct (main_layout p && isNavOpen p) eqn:Hm; [|exact Hp].
    apply andb_true_iff in Hm. destruct Hm as [Hm _]. settle_views.
  - destruct (main_layout p && isNavOpen p && confirmed) eqn:Hm; [|exact Hp].
    settle_views.
Qed.

Lemma read_token_consistent (token : option string) :
  consistent (read_token token initial_page).
Proof.
  unfold read_token. destruct token as [t|]; [|settle_views].
  destruct (JsString.truthy t); settle_views.
Qed.

Lemma run_consistent (events : list Event) (p : Page) :
  forallb login_answer_carries_user events = true ->
  consistent p -> consistent (fold_left (fun q e => step e q) events p).
Proof.
  revert p. induction events as [|e events IH]; simpl; intros p He Hp;
    [exact Hp|].
  apply andb_true_iff in He. destruct He as [He Hrest].
  apply IH; [exact Hrest | now apply step_consistent].
Qed.

(** the registration form is shown with a token at hand, whatever the
    answers *)
Lemma step_keeps_token (e : Event) (p : Page) :
  (view p = view_register -> regToken p <> None) ->
  view (step e p) = view_register -> regToken (step e p) <> None.
Proof.
  intros Hp. destruct e; unfold step.
  - destruct (in_view view_login p); exact Hp.
  - destruct (awaiting_login p) as [|n]; [exact Hp|].
    unfold handleLogin_resumes.
    destruct reply as [e|res]; simpl; [exact Hp|].
    destruct (Nat.eqb (status res) 404); simpl; [exact Hp|].
    destruct (payload res) as [|[|e [u|]]]; simpl;
      destruct (ok res); simpl; try exact Hp.
    destruct (isAdmin u); discriminate.
  - destruct (in_view view_register p); exact Hp.
  - destruct (awaiting_register p) as [|n]; [exact Hp|].
    unfold handleRegister_resumes.
    destruct reply as [e|res]; simpl; [exact Hp|].
    destruct (payload res) as [|[|e u]]; simpl;
      destruct (ok res); simpl; try exact Hp; discriminate.
  - destruct (toast_timers p) as [|n]; exact Hp.
  - destruct (in_view view_register p); [discriminate | exact Hp].
  - destruct (main_layout p); exact Hp.
  - destruct (main_layout p); exact Hp.
  - destruct (main_layout p && isNavOpen p); exact Hp.
  - destruct (in_view view_library p); exact Hp.
  - destruct (in_view view_library p); exact Hp.
  - destruct (main_layout p && is_admin (user p)); [|exact Hp].
    simpl. destruct (in_view view_admin p); discriminate.
  - destruct (main_layout p); [discriminate | exact Hp].
  - destruct (main_layout p && isNavOpen p); [discriminate | exact Hp].
  - destruct (main_layout p && isNavOpen p && is_admin (user p));
      [discriminate | exact Hp].
  - destruct (main_layout p && isNavOpen p); [discriminate | exact Hp].
  - destruct (main_layout p && isNavOpen p && confirmed);
      [discriminate | exact Hp].
Qed.

Lemma run_keeps_token (events : list Event) (p : Page) :
  (view p = view_register -> regToken p <> None) ->
  let q := fold_left (fun q e => step e q) events p in
  view q = view_register -> regToken q <> None.
Proof.
  revert p. induction events as [|e events IH]; simpl; intros p Hp;
    [exact Hp|].
  apply IH. now apply step_keeps_token.
Qed.

(** the two forms are shown to nobody signed in, as long as no answer
    tells of a successful registration while somebody is signed in *)
Lemma step_keeps_forms (e : Event) (p : Page) :
  match e with
  | RegisterAnswer reply =>
      match awaiting_register p, user p with
      | S _, Some _ => negb (registered reply)
      | _, _ => true
      end
  | _ => true
  end = true ->
  (main_layout p = false -> user p = None) ->
  main_layout (step e p) = false -> user (step e p) = None.
Proof.
  intros He Hp. destruct e; unfold step.
  - destruct (in_view view_login p); exact Hp.
  - destruct (awaiting_login p) as [|n]; [exact Hp|].
    unfold handleLogin_resumes.
    destruct reply as [e|res]; simpl; [exact Hp|].
    destruct (Nat.eqb (status res) 404); simpl; [exact Hp|].
    destruct (payload res) as [|[|e [u|]]]; simpl;
      destruct (ok res); simpl; try exact Hp; try reflexivity.
    unfold main_layout. simpl. destruct (isAdmin u); discriminate.
  - destruct (in_view view_register p); exact Hp.
  - destruct (awaiting_register p) as [|n] eqn:Haw; [exact Hp|].
    rewrite ?Haw in He. unfold handleRegister_resumes, registered in *.
    destruct reply as [e|res]; simpl; [exact Hp|].
    revert He.
    destruct (payload res) as [|[|e u]]; simpl;
      destruct (ok res); simpl; intros He; try exact Hp;
      intros _; destruct (user p); (discriminate || reflexivity).
  - destruct (toast_timers p) as [|n]; exact Hp.
  - settle_forms p.
  - settle_forms p.
  - settle_forms p.
  - settle_forms p.
  - settle_forms p.
  - settle_forms p.
  - settle_forms p.
  - settle_forms p.
  - settle_forms p.
  - settle_forms p.
  - settle_forms p.
  - settle_forms p.
Qed.

Lemma run_keeps_forms (events : list Event) (p : Page) :
  registered_while_signed_out p events = true ->
  (main_layout p = false -> user p = None) ->
  let q := fold_left (fun q e => step e q) events p in
  main_layout q = false -> user q = None.
Proof.
  revert p. induction events as [|e events IH]; intros p He Hp;
    [exact Hp|].
  cbn [registered_while_signed_out] in He.
  apply andb_true_iff in He. destruct He as [He Hrest].
  cbn [fold_left]. apply IH; [exact Hrest|].
  now apply step_keeps_forms.
Qed.

Lemma login_carries_user (mail pw : string) (db : Server.Store) :
  carries_user (auth_response (Server.login mail pw db)) = true.
Proof.
  unfold Server.login.
  destruct (Server.single _) as [u|]; [|reflexivity].
  destruct (negb (Server.is_approved u) && negb (Server.is_admin u));
    reflexivity.
Qed.

(** X19: whatever address the page is opened with, whatever the visitor
    then does and whenever the answers of the server arrive.  The
    registration form is only shown with a token at hand.  As long as
    every ok answer of the login route carries a user, as the answers of
    the server do, the library and the admin view are only shown while
    somebody is signed in, the admin view only to a user whose admin flag
    is set.  The login and the registration form are shown to nobody
    signed in as long as no answer that tells of a successful
    registration arrives while somebody is signed in. *)
Theorem views_match_session (token : option string) (events : list Event) :
  let p := visit token events in
  (view p = view_register -> exists t, regToken p = Some t)
  /\ (forallb login_answer_carries_user events = true ->
      (main_layout p = true -> exists u, user p = Some u)
      /\ (view p = view_admin ->
          exists u, user p = Some u /\ isAdmin u = true))
  /\ (registered_while_signed_out (read_token token initial_page) events
      = true ->
      main_layout p = false -> user p = None)
  /\ (forall mail pw db,
         carries_user (auth_response (Server.login mail pw db)) = true).
Proof.
  intros p. split; [|split; [|split]].
  - intros Hv.
    assert (H : regToken p <> None).
    { apply run_keeps_token; [|exact Hv].
      destruct (read_token_consistent token) as [_ [_ H]]. exact H. }
    destruct (regToken p) as [t|]; [now exists t | now elim H].
  - intros Hc.
    assert (H : consistent p)
      by (apply run_consistent; [exact Hc | apply read_token_consistent]).
    destruct H as [H1 [H2 _]]. split.
    + intros Hm. specialize (H1 Hm).
      destruct (user p) as [u|]; [now exists u | now elim H1].
    + intros Hv. specialize (H2 Hv). destruct (user p) as [u|];
        [now exists u | discriminate].
  - intros Hr. apply run_keeps_forms; [exact Hr|].
    intros _. unfold read_token. destruct token as [t|]; [|reflexivity].
    destruct (JsString.truthy t); reflexivity.
  - apply login_carries_user.
Qed.

Lemma views_match_session_witness :
  view (visit None FlowSamples.admin_session) = view_admin
  /\ (exists u, user (visit None FlowSamples.admin_session) = Some u
                /\ isAdmin u = true)
  /\ user (visit None [SubmitLogin "admin@dlcf.org" "admin123"; SignOut])
     = None.
Proof.
  split; [reflexivity|].
  destruct (views_match_session None FlowSamples.admin_session)
    as [_ [Hin _]].
  destruct (views_match_session
              None [SubmitLogin "admin@dlcf.org" "admin123"; SignOut])
    as [_ [_ [Hout _]]].
  split.
  - exact (proj2 (Hin eq_refl) eq_refl).
  - exact (Hout eq_refl eq_refl).
Defined.

(** The forms can be shown to somebody signed in: the answer of a
    registration that arrives after a sign-in opens the login form and
    leaves the user signed in. *)
Lemma late_registration_answer_shows_login_form :
  let p := visit (Some "t-1"%string) FlowSamples.late_registration in
  view p = view_login
  /\ user p = Some {| u_id := Ids.a1; u_email := "admin@dlcf.org";
                      u_name := "System Admin"; isAdmin := true |}
  /\ forallb login_answer_carries_user FlowSamples.late_registration = true.
Proof. repeat split. Qed.

(** *** Registration needs a token *)

Lemma handleLogin_resumes_tokenless
      (reply : FetchOutcome AuthJson) (p : Page) :
  tokenless p -> tokenless (handleLogin_resumes reply p).
Proof.
  intros [Hv [Ht Hc]]. unfold handleLogin_resumes, tokenless.
  destruct reply as [e|res]; simpl; [now repeat split|].
  destruct (Nat.eqb (status res) 404); simpl; [now repeat split|].
  destruct (payload res) as [|[|e [u|]]]; simpl;
    destruct (ok res); simpl; try (now repeat split).
  destruct (isAdmin u); repeat split; auto; discriminate.
Qed.

Lemma handleRegister_resumes_tokenless
      (reply : FetchOutcome AuthJson) (p : Page) :
  tokenless p -> tokenless (handleRegister_resumes reply p).
Proof.
  intros [Hv [Ht Hc]]. unfold handleRegister_resumes, tokenless.
  destruct reply as [e|res]; simpl; [now repeat split|].
  destruct (payload res) as [|[|e u]]; simpl;
    destruct (ok res); simpl; try (now repeat split);
    repeat split; auto; discriminate.
Qed.

Lemma step_tokenless (e : Event) (p : Page) :
  tokenless p -> tokenless (step e p).
Proof.
  intros Hp. pose proof Hp as [Hv [Ht Hc]].
  destruct e; unfold step;
    try match goal with
        | |- tokenless (if ?c then _ else _) =>
            destruct c eqn:Hcond; [|exact Hp]
        | |- tokenless (match ?c with O => _ | S _ => _ end) =>
            destruct c as [|n] eqn:Hcond; [exact Hp|]
        end.
  - unfold tokenless, handleLogin. simpl. repeat split; auto.
    now rewrite forallb_app, Hc.
  - now apply handleLogin_resumes_tokenless.
  - apply in_view_eq in Hcond. now elim Hv.
  - now apply handleRegister_resumes_tokenless.
  - unfold tokenless. now simpl.
  - apply in_view_eq in Hcond. now elim Hv.
  - unfold tokenless. now simpl.
  - unfold tokenless. now simpl.
  - unfold tokenless. now simpl.
  - unfold tokenless. now simpl.
  - unfold tokenless. now simpl.
  - unfold tokenless. simpl. repeat split; auto.
    destruct (in_view view_admin p); discriminate.
  - unfold tokenless, sign_out. simpl. repeat split; auto. discriminate.
  - unfold tokenless. simpl. repeat split; auto. discriminate.
  - unfold tokenless. simpl. repeat split; auto. discriminate.
  - unfold tokenless. simpl. repeat split; auto. discriminate.
  - unfold tokenless. simpl. repeat split; auto. discriminate.
Qed.

(** X20: registration is reachable only through an invitation address.
    When the page is opened without a token (or with an empty one), then
    whatever the visitor does and the server answers, the registration
    form is never shown, no token is ever held and every authentication
    call sent is a login call. *)
Theorem registration_needs_token
        (token : option string) (events : list Event)
        (Htoken : token = None \/ token = Some ""%string) :
  let p := visit token events in
  view p <> view_register /\ regToken p = None
  /\ Forall (fun c => exists email password, c = LoginCall email password)
            (auth_calls p).
Proof.
  intros p.
  assert (H : tokenless p).
  { unfold p, visit.
    assert (H0 : tokenless (read_token token initial_page)).
    { destruct Htoken as [-> | ->]; unfold tokenless; simpl;
        repeat split; discriminate. }
    generalize dependent (read_token token initial_page).
    induction events as [|e events IH]; simpl; intros q Hq; [exact Hq|].
    apply IH. now apply step_tokenless. }
  destruct H as [Hv [Ht Hc]]. repeat split; auto.
  rewrite forallb_forall in Hc. apply Forall_forall. intros c Hin.
  specialize (Hc c Hin). destruct c as [e w|e w n t]; [|discriminate].
  now exists e, w.
Qed.

Lemma registration_needs_token_witness :
  view (visit None [SubmitRegister "bob@example.org" "pw" "Bob";
                    RegisterAnswer ClientSamples.offline;
                    BackToSignIn]) <> view_register
  /\ view (visit (Some "t-1"%string) []) = view_register.
Proof.
  split; [|reflexivity].
  exact (proj1 (registration_needs_token
                  None [SubmitRegister "bob@example.org" "pw" "Bob";
                        RegisterAnswer ClientSamples.offline;
                        BackToSignIn] (or_introl eq_refl))).
Defined.

(** *** Signing in and registering against the server *)

(** X21: signing in, end to end.  Submitting the login form sends the
    login call and changes nothing else.  When the answer of the login
    route, for a store that meets its schema, then arrives, whatever the
    page shows by then: matching credentials of an approved or admin row
    sign that row's projection in and open the admin view for an admin,
    the library otherwise, with the welcome toast on the screen; matching
    credentials of a pending row, and credentials no row has, leave the
    user and the view as they are and put the server's message ("Account
    pending approval", "Invalid credentials") in the toast state, which
    is on the screen only when the main layout is shown: a visitor who is
    still on the login form is shown nothing. *)
Theorem sign_in_round_trip
        (mail pw : string) (db : Server.Store) (p : Page)
        (Hdb : Server.well_formed db) (Hview : view p = view_login) :
  let p1 := step (SubmitLogin mail pw) p in
  auth_calls p1 = auth_calls p ++ [LoginCall mail pw]
  /\ awaiting_login p1 = S (awaiting_login p)
  /\ user p1 = user p /\ view p1 = view_login /\ notice p1 = notice p
  /\ forall q,
      awaiting_login q <> 0 ->
      let q' := step (LoginAnswer
                        (auth_response (Server.login mail pw db))) q in
      (forall u, In u (Server.users db) ->
                 Server.email u = mail -> Server.password u = pw ->
                 Server.is_approved u = true \/ Server.is_admin u = true ->
         user q' = Some {| u_id := Server.user_id u;
                           u_email := Server.email u;
                           u_name := Server.name u;
                           isAdmin := Server.is_admin u |}
         /\ view q' = (if Server.is_admin u then view_admin
                       else view_library)
         /\ visible_notice q'
            = Some {| notice_message :=
                        Some ("Welcome back, " ++ Server.name u ++ "!")%string;
                      notice_type := success |})
      /\ (forall u, In u (Server.users db) ->
                    Server.email u = mail -> Server.password u = pw ->
                    Server.is_approved u = false ->
                    Server.is_admin u = false ->
            user q' = user q /\ view q' = view q
            /\ notice q' = Some {| notice_message :=
                                     Some "Account pending approval"%string;
                                   notice_type := error |}
            /\ (main_layout q = false -> visible_notice q' = None))
      /\ ((forall u, In u (Server.users db) ->
                     ~ (Server.email u = mail /\ Server.password u = pw)) ->
            user q' = user q /\ view q' = view q
            /\ notice q' = Some {| notice_message :=
                                     Some "Invalid credentials"%string;
                                   notice_type := error |}
            /\ (main_layout q = false -> visible_notice q' = None)).
Proof.
  intros p1. subst p1.
  replace (step (SubmitLogin mail pw) p) with (handleLogin mail pw p)
    by (unfold step; now rewrite (proj2 (in_view_eq view_login p) Hview)).
  do 3 (split; [reflexivity|]). split; [exact Hview|].
  split; [reflexivity|].
  intros q Hq q'. subst q'. unfold step.
  destruct (awaiting_login q) as [|n]; [now elim Hq|].
  destruct Hdb as [_ [Hmails _]].
  split; [|split].
  - intros u Hin He Hp Hgo. unfold Server.login.
    rewrite (ServerFacts.login_selects mail pw db u Hmails Hin He Hp).
    destruct (Server.is_approved u) eqn:Ha, (Server.is_admin u) eqn:Hb;
      simpl; try (now repeat split).
    destruct Hgo; discriminate.
  - intros u Hin He Hp Ha Hb. unfold Server.login.
    rewrite (ServerFacts.login_selects mail pw db u Hmails Hin He Hp).
    rewrite Ha, Hb. simpl. repeat split.
    unfold visible_notice, main_layout. simpl. now intros ->.
  - intros Hnone. unfold Server.login.
    rewrite ServerFacts.filter_none.
    + simpl. repeat split.
      unfold visible_notice, main_layout. simpl. now intros ->.
    + intros u Hu. destruct (Server.credentials mail pw u) eqn:E;
        [|reflexivity].
      apply ServerFacts.credentials_iff in E. now apply Hnone in Hu.
Qed.

Lemma sign_in_round_trip_witness :
  let answer mail pw :=
    LoginAnswer (auth_response (Server.login mail pw ServerSamples.db0)) in
  let alice := visit None [SubmitLogin "alice@example.org" "wonder";
                           answer "alice@example.org"%string
                                  "wonder"%string] in
  let admin := visit None [SubmitLogin "admin@dlcf.org" "admin123";
                           answer "admin@dlcf.org"%string
                                  "admin123"%string] in
  user alice = None /\ view alice = view_login
  /\ notice alice = Some {| notice_message :=
                              Some "Account pending approval"%string;
                            notice_type := error |}
  /\ visible_notice alice = None
  /\ view admin = view_admin
  /\ visible_notice admin
     = Some {| notice_message := Some "Welcome back, System Admin!"%string;
               notice_type := success |}.
Proof.
  intros answer alice admin.
  destruct (sign_in_round_trip "alice@example.org" "wonder"
                               ServerSamples.db0 initial_page
                               ServerFacts.well_formed_db0 eq_refl)
    as [_ [_ [_ [_ [_ Hanswer]]]]].
  assert (Hq : awaiting_login
                 (step (SubmitLogin "alice@example.org" "wonder")
                       initial_page) <> 0) by discriminate.
  destruct (Hanswer _ Hq) as [_ [Hpending _]].
  destruct (Hpending ServerSamples.alice) as [Hu [Hv [Hn Hvis]]];
    simpl; auto.
  split; [exact Hu|]. split; [exact Hv|]. split; [exact Hn|].
  split; [exact (Hvis eq_refl)|]. split; reflexivity.
Defined.

(** X22: registering, end to end.  Submitting the registration form
    sends the call with the token the page was opened with and changes
    nothing else.  When the answer of the registration route for that
    request then arrives, whatever the page shows by then: on success the
    page shows the login form and drops the token, and the confirmation
    is put in the toast state but is not on the screen, since the login
    form renders no toast; on any refusal the view and the token stay,
    and the error text of the server is put in the toast state, which is
    on the screen only when the main layout is shown: a visitor who is
    still on the registration form is shown nothing. *)
Theorem register_round_trip
        (now : Z) (uuid mail pw name tok : string)
        (db : Server.Store) (p : Page)
        (Hview : view p = view_register) (Htok : regToken p = Some tok) :
  let req := {| Server.req_email := mail; Server.req_password := pw;
                Server.req_name := name; Server.req_token := tok |} in
  let res := fst (Server.register now uuid req db) in
  let p1 := step (SubmitRegister mail pw name) p in
  auth_calls p1 = auth_calls p ++ [RegisterCall mail pw name (Some tok)]
  /\ awaiting_register p1 = S (awaiting_register p)
  /\ view p1 = view_register /\ regToken p1 = Some tok
  /\ notice p1 = notice p
  /\ forall q,
      awaiting_register q <> 0 ->
      let q' := step (RegisterAnswer (auth_response res)) q in
      user q' = user q
      /\ (Server.status res = 200 ->
            view q' = view_login /\ regToken q' = None
            /\ notice q'
               = Some {| notice_message :=
                           Some "Registration successful! Please wait for admin approval."%string;
                         notice_type := success |}
            /\ visible_notice q' = None)
      /\ (Server.status res <> 200 ->
            view q' = view q /\ regToken q' = regToken q
            /\ (exists msg,
                   Server.body res = Server.error_body msg
                   /\ notice q' = Some {| notice_message := Some msg;
                                          notice_type := error |})
            /\ (main_layout q = false -> visible_notice q' = None)).
Proof.
  intros req res p1. subst res p1.
  replace (step (SubmitRegister mail pw name) p)
    with (handleRegister mail pw name p)
    by (unfold step;
        now rewrite (proj2 (in_view_eq view_register p) Hview)).
  split; [simpl; now rewrite Htok|]. split; [reflexivity|].
  split; [exact Hview|]. split; [exact Htok|]. split; [reflexivity|].
  intros q Hq q'. subst q'. unfold step.
  destruct (awaiting_register q) as [|n]; [now elim Hq|].
  assert (Hrefused : forall msg,
             let q' := handleRegister_resumes
                         (auth_response (Server.rejected msg))
                         (set_awaiting (awaiting_login q) n q) in
             user q' = user q
             /\ (Server.status (Server.rejected msg) = 200 ->
                 view q' = view_login /\ regToken q' = None
                 /\ notice q'
                    = Some {| notice_message :=
                                Some "Registration successful! Please wait for admin approval."%string;
                              notice_type := success |}
                 /\ visible_notice q' = None)
             /\ (Server.status (Server.rejected msg) <> 200 ->
                 view q' = view q /\ regToken q' = regToken q
                 /\ (exists m,
                        Server.body (Server.rejected msg)
                        = Server.error_body m
                        /\ notice q' = Some {| notice_message := Some m;
                                               notice_type := error |})
                 /\ (main_layout q = false -> visible_notice q' = None))).
  { intros msg. simpl. split; [reflexivity|]. split; [discriminate|].
    intros _. repeat split.
    - now exists msg.
    - unfold visible_notice, main_layout. simpl. now intros ->. }
  unfold Server.register.
  destruct (Server.single _) as [l|]; [|apply Hrefused].
  destruct (expires_at l <? now)%Z; [apply Hrefused|].
  destruct (Server.insert_user _ db) as [regError|db1]; [apply Hrefused|].
  simpl. split; [reflexivity|]. split; [|intros H; now elim H].
  intros _. now repeat split.
Qed.

Lemma register_round_trip_witness :
  let answer mail :=
    RegisterAnswer
      (auth_response
         (fst (Server.register (Server.hours 1) Ids.u9
                               (ServerSamples.join mail)
                               ServerSamples.db0))) in
  let alice := visit (Some "t-1"%string)
                     [SubmitRegister "alice@example.org" "pw" "Bob";
                      answer "alice@example.org"%string] in
  let bob := visit (Some "t-1"%string)
                   [SubmitRegister "bob@example.org" "pw" "Bob";
                    answer "bob@example.org"%string] in
  view alice = view_register /\ regToken alice = Some "t-1"%string
  /\ notice alice
     = Some {| notice_message :=
                 Some (Server.duplicate_key_message "users_email_key");
               notice_type := error |}
  /\ visible_notice alice = None
  /\ view bob = view_login /\ regToken bob = None
  /\ visible_notice bob = None.
Proof.
  intros answer alice bob.
  destruct (register_round_trip
              (Server.hours 1) Ids.u9 "alice@example.org" "pw" "Bob" "t-1"
              ServerSamples.db0 FlowSamples.register_form eq_refl eq_refl)
    as [_ [_ [_ [_ [_ Hanswer]]]]].
  assert (Hq : awaiting_register
                 (step (SubmitRegister "alice@example.org" "pw" "Bob")
                       FlowSamples.register_form) <> 0) by discriminate.
  destruct (Hanswer _ Hq) as [_ [_ Hno]].
  assert (Hs : Server.status
                 (fst (Server.register
                         (Server.hours 1) Ids.u9
                         (ServerSamples.join "alice@example.org")
                         ServerSamples.db0)) <> 200)
    by (vm_compute; discriminate).
  destruct (Hno Hs) as [Hv [Ht [_ Hvis]]].
  split; [exact Hv|]. split; [exact Ht|]. split; [reflexivity|].
  split; [exact (Hvis eq_refl)|]. repeat split.
Defined.

End NavigationFacts.
